(** * Bazzar storefront: owner dashboard and store catalogue

    A shallow embedding of the client-side logic of the shopkeeper dashboard
    (statistics, product create/update/delete handlers, geolocation handler,
    image upload staging) and of the store list filter of [Stores.tsx],
    followed by the properties the specification states about them.

    Conventions.
    - JavaScript strings are [string]; the characters stand for code units
      below 256.
    - JavaScript numbers that carry fractions (order amounts, coordinates) are
      binary64 floats ([PrimFloat.float]); identifiers, counts and stock levels
      are integers ([Z]).
    - [null] / [undefined] are [None].
    - An event handler is a computation in the monad [M]: it threads the
      dashboard state and either returns or throws.  State changes made before
      a throw are kept, as in JavaScript.
    - What the browser, the network and the user answer is read from an
      environment [Env].  A callback that the browser runs later (the
      [onload] of a file reader) runs where it is registered.
    - Console output is left out. *)

From Stdlib Require Import ZArith List String Ascii Bool Lia.
From Stdlib Require Import PrimFloat FloatOps SpecFloat Uint63 DecimalString.
Import ListNotations.
Set Warnings "-inexact-float,-register-all".
Open Scope list_scope.
Open Scope string_scope.

(* ------------------------------------------------------------------ *)
(** ** JavaScript built-ins used by the code *)

Module Js.

(** [s.startsWith(p)] *)
Fixpoint startsWith (s p : string) {struct p} : bool :=
  match p, s with
  | EmptyString, _ => true
  | String _ _, EmptyString => false
  | String a p', String b s' => Ascii.eqb a b && startsWith s' p'
  end.

(** [s.includes(sub)]: [sub] occurs in [s] at some position. *)
Fixpoint includes (s sub : string) : bool :=
  startsWith s sub ||
  match s with
  | EmptyString => false
  | String _ s' => includes s' sub
  end.

(** WhiteSpace and LineTerminator code units below 256: TAB, LF, VT, FF, CR,
    SP and NBSP. *)
Definition isWhiteSpace (c : ascii) : bool :=
  let n := nat_of_ascii c in
  ((9 <=? n) && (n <=? 13) || (n =? 32) || (n =? 160))%nat.

Fixpoint trimStart (s : string) : string :=
  match s with
  | EmptyString => EmptyString
  | String c s' => if isWhiteSpace c then trimStart s' else s
  end.

Fixpoint trimEnd (s : string) : string :=
  match s with
  | EmptyString => EmptyString
  | String c s' =>
      match trimEnd s' with
      | EmptyString => if isWhiteSpace c then EmptyString else String c EmptyString
      | t => String c t
      end
  end.

(** [s.trim()] *)
Definition trim (s : string) : string := trimEnd (trimStart s).

(** Truthiness of a string: every string but the empty one. *)
Definition truthy (s : string) : bool := negb (s =? "").

(** [a || b] for a possibly undefined string [a] and a string [b]. *)
Definition orStr (a : option string) (b : string) : string :=
  match a with
  | Some s => if truthy s then s else b
  | None => b
  end.

(** [a || null] for a possibly undefined string [a]. *)
Definition orNull (a : option string) : option string :=
  match a with
  | Some s => if truthy s then Some s else None
  | None => None
  end.

(** [n || d] for numbers: 0 is falsy. *)
Definition orNum (n : option Z) (d : Z) : Z :=
  match n with
  | Some v => if (v =? 0)%Z then d else v
  | None => d
  end.

(** [b || false] for a possibly null boolean. *)
Definition orFalse (b : option bool) : bool :=
  match b with Some v => v | None => false end.

(** Truthiness of a possibly undefined string. *)
Definition truthyOpt (a : option string) : bool :=
  match a with Some s => truthy s | None => false end.

(** [a || []] for a possibly null array (every array is truthy). *)
Definition orEmpty {A : Type} (a : option (list A)) : list A :=
  match a with Some l => l | None => [] end.

(** [arr.join(sep)] on strings. *)
Fixpoint join (sep : string) (l : list string) : string :=
  match l with
  | [] => ""
  | [x] => x
  | x :: r => x ++ sep ++ join sep r
  end.

(** Number-to-string conversion of an integer, as a template literal does it. *)
Definition intToString (n : Z) : string := NilZero.string_of_int (Z.to_int n).

(** Lower-casing of code units below 256: A-Z and the capital letters
    U+00C0..U+00DE (but the multiplication sign U+00D7) move up by 32. *)
Definition lowerChar (c : ascii) : ascii :=
  let n := nat_of_ascii c in
  if ((65 <=? n) && (n <=? 90) || (192 <=? n) && (n <=? 222) && negb (n =? 215))%nat
  then ascii_of_nat (n + 32) else c.

Fixpoint latin1LowerCase (s : string) : string :=
  match s with
  | EmptyString => EmptyString
  | String c s' => String (lowerChar c) (latin1LowerCase s')
  end.

End Js.

(* ------------------------------------------------------------------ *)
(** ** Data model *)

Module Store.
(** Modelled from the spec: the [Store] type of the shared schema, which the
    sources import but do not define; the fields are those the code reads. *)
Record t := mk
  { id : Z;
    name : string;
    description : option string;
    address : option string;
    ownerId : Z }.
End Store.

Module Product.
(** Modelled from the spec: the [Product] type of the shared schema, which the
    sources import but do not define.  A field is optional where the code
    guards its use with [||]. *)
Record t := mk
  { id : Z;
    storeId : Z;
    categoryId : option Z;
    name : string;
    description : option string;
    price : string;
    originalPrice : option string;
    stock : option Z;
    images : option (list string);
    isFastSell : option bool;
    isOnOffer : option bool;
    offerPercentage : option Z;
    offerEndDate : option string;
    specifications : option (list (string * string));
    features : option (list string);
    tags : option (list string);
    isActive : bool }.
End Product.

Module Order.
(** Modelled from the spec: the [Order] type of the shared schema, which the
    sources import but do not define. *)
Record t := mk
  { id : Z;
    storeId : Z;
    customerName : string;
    totalAmount : string;
    status : string }.
End Order.

Module ProductForm.
(** The values of the product form ([z.infer<typeof productSchema>]). *)
Record t := mk
  { name : string;
    description : option string;
    price : string;
    originalPrice : option string;
    categoryId : Z;
    stock : Z;
    imageUrl : option string;
    images : option (list string);
    isFastSell : bool;
    isOnOffer : bool;
    offerPercentage : Z;
    offerEndDate : option string;
    specifications : list (string * string);
    features : list string;
    tags : list string }.

(** The [defaultValues] that [useForm] is given for the product form. *)
Definition defaultValues : t :=
  {| name := ""; description := Some ""; price := ""; originalPrice := Some "";
     categoryId := 1; stock := 0; imageUrl := Some ""; images := Some [];
     isFastSell := false; isOnOffer := false; offerPercentage := 0;
     offerEndDate := Some ""; specifications := []; features := []; tags := [] |}.

Definition set_images (v : list string) (f : t) : t :=
  {| name := name f; description := description f; price := price f;
     originalPrice := originalPrice f; categoryId := categoryId f;
     stock := stock f; imageUrl := imageUrl f; images := Some v;
     isFastSell := isFastSell f; isOnOffer := isOnOffer f;
     offerPercentage := offerPercentage f; offerEndDate := offerEndDate f;
     specifications := specifications f; features := features f;
     tags := tags f |}.
End ProductForm.

Module StoreForm.
(** The values of the store form ([z.infer<typeof storeSchema>]). *)
Record t := mk
  { name : string;
    description : option string;
    address : string;
    latitude : option string;
    longitude : option string;
    phone : option string;
    logo : option string;
    coverImage : option string;
    googleMapsLink : option string }.

Definition defaultValues : t :=
  {| name := ""; description := Some ""; address := ""; latitude := None;
     longitude := None; phone := Some ""; logo := Some "";
     coverImage := Some ""; googleMapsLink := None |}.

Definition set_latitude (v : string) (f : t) : t :=
  {| name := name f; description := description f; address := address f;
     latitude := Some v; longitude := longitude f; phone := phone f;
     logo := logo f; coverImage := coverImage f;
     googleMapsLink := googleMapsLink f |}.

Definition set_longitude (v : string) (f : t) : t :=
  {| name := name f; description := description f; address := address f;
     latitude := latitude f; longitude := Some v; phone := phone f;
     logo := logo f; coverImage := coverImage f;
     googleMapsLink := googleMapsLink f |}.

Definition set_googleMapsLink (v : string) (f : t) : t :=
  {| name := name f; description := description f; address := address f;
     latitude := latitude f; longitude := longitude f; phone := phone f;
     logo := logo f; coverImage := coverImage f; googleMapsLink := Some v |}.

Definition set_address (v : string) (f : t) : t :=
  {| name := name f; description := description f; address := v;
     latitude := latitude f; longitude := longitude f; phone := phone f;
     logo := logo f; coverImage := coverImage f;
     googleMapsLink := googleMapsLink f |}.
End StoreForm.

(** JSON values, to compare objects field by field. *)
Inductive JsVal : Type :=
| JNull
| JBool (b : bool)
| JNum (n : Z)
| JStr (s : string)
| JArr (l : list JsVal)
| JObj (l : list (string * JsVal)).

Definition JOptStr (o : option string) : JsVal :=
  match o with Some s => JStr s | None => JNull end.

Definition JOptNum (o : option Z) : JsVal :=
  match o with Some n => JNum n | None => JNull end.

Definition JOptBool (o : option bool) : JsVal :=
  match o with Some b => JBool b | None => JNull end.

Definition JStrings (l : list string) : JsVal := JArr (map JStr l).

Definition JOptStrings (o : option (list string)) : JsVal :=
  match o with Some l => JStrings l | None => JNull end.

Definition JSpecs (l : list (string * string)) : JsVal :=
  JArr (map (fun kv => JObj [("key", JStr (fst kv)); ("value", JStr (snd kv))]) l).

Definition JOptSpecs (o : option (list (string * string))) : JsVal :=
  match o with Some l => JSpecs l | None => JNull end.

(** [o[k]] on an object given by its own properties; [None] is [undefined]. *)
Fixpoint getField (k : string) (o : list (string * JsVal)) : option JsVal :=
  match o with
  | [] => None
  | (k', v) :: r => if k' =? k then Some v else getField k r
  end.

Module Payload.
(** The object [filteredData] that [handleAddProduct] sends. *)
Record t := mk
  { name : string;
    description : option string;
    price : string;
    originalPrice : option string;
    categoryId : Z;
    storeId : Z;
    stock : Z;
    images : list string;
    isFastSell : bool;
    isOnOffer : bool;
    offerPercentage : Z;
    offerEndDate : option string;
    isActive : bool }.

(** The properties of the object, in the order of the object literal. *)
Definition fields (d : t) : list (string * JsVal) :=
  [ ("name", JStr (name d));
    ("description", JOptStr (description d));
    ("price", JStr (price d));
    ("originalPrice", JOptStr (originalPrice d));
    ("categoryId", JNum (categoryId d));
    ("storeId", JNum (storeId d));
    ("stock", JNum (stock d));
    ("images", JStrings (images d));
    ("isFastSell", JBool (isFastSell d));
    ("isOnOffer", JBool (isOnOffer d));
    ("offerPercentage", JNum (offerPercentage d));
    ("offerEndDate", JOptStr (offerEndDate d));
    ("isActive", JBool (isActive d)) ].
End Payload.

(** The properties of a product as the server holds it, but its id (which
    travels in the URL) and the timestamps the server assigns. *)
Definition productFields (p : Product.t) : list (string * JsVal) :=
  [ ("name", JStr (Product.name p));
    ("description", JOptStr (Product.description p));
    ("price", JStr (Product.price p));
    ("originalPrice", JOptStr (Product.originalPrice p));
    ("categoryId", JOptNum (Product.categoryId p));
    ("storeId", JNum (Product.storeId p));
    ("stock", JOptNum (Product.stock p));
    ("images", JOptStrings (Product.images p));
    ("isFastSell", JOptBool (Product.isFastSell p));
    ("isOnOffer", JOptBool (Product.isOnOffer p));
    ("offerPercentage", JOptNum (Product.offerPercentage p));
    ("offerEndDate", JOptStr (Product.offerEndDate p));
    ("specifications", JOptSpecs (Product.specifications p));
    ("features", JOptStrings (Product.features p));
    ("tags", JOptStrings (Product.tags p));
    ("isActive", JBool (Product.isActive p)) ].

(* ------------------------------------------------------------------ *)
(** ** Dashboard state, environment and the handler monad *)

Inductive Variant := Default | Destructive.

Module Toast.
Record t := mk
  { title : string;
    description : option string;
    variant : Variant }.

Definition isError (x : t) : bool :=
  match variant x with Destructive => true | Default => false end.
End Toast.

(** One element of a query key. *)
Inductive KeyPart :=
| KStr (s : string)
| KNum (n : Z).

Definition QueryKey := list KeyPart.

Definition keyPartEqb (a b : KeyPart) : bool :=
  match a, b with
  | KStr x, KStr y => x =? y
  | KNum x, KNum y => (x =? y)%Z
  | _, _ => false
  end.

(** The query client's partial matching: a filter key selects the queries
    whose key starts with it, element by element. *)
Fixpoint queryKeyMatches (filter key : QueryKey) : bool :=
  match filter, key with
  | [], _ => true
  | _ :: _, [] => false
  | a :: f', b :: k' => keyPartEqb a b && queryKeyMatches f' k'
  end.

Inductive Method := POST | PUT | DELETE.

Module Request.
Record t := mk
  { method : Method;
    url : string;
    body : option Payload.t }.
End Request.

(** A thrown value: an [Error] with its message, or something else. *)
Inductive JsError :=
| ErrorObj (message : string)
| NonError.

(** How a call ends. *)
Inductive Outcome (A : Type) : Type :=
| Ret (a : A)
| Throw (e : JsError).
Arguments Ret {A} a.
Arguments Throw {A} e.

Module Coords.
Record t := mk { latitude : float; longitude : float }.
End Coords.

Module Nominatim.
(** The [address] object of a reverse-geocoding answer. *)
Record address_t := mkAddress
  { house_number : option string;
    road : option string;
    city : option string;
    town : option string;
    village : option string;
    county : option string;
    district : option string;
    state : option string;
    country : option string;
    postcode : option string }.

(** The answer as the handler reads it. *)
Record t := mk
  { display_name : option string;
    address : option address_t }.

(** What [response.json()] yields: [null], or a value whose properties can be
    read. *)
Inductive json := Null | Obj (data : t).
End Nominatim.

Module File.
Record t := mk { name : string; size : Z; type : string }.
End File.

(** What the world outside the component answers. *)
Record Env := mkEnv
  { (** [apiPost] / [apiPut] / [apiDelete]: resolves or rejects *)
    http : Request.t -> Outcome unit;
    (** [window.confirm] *)
    confirm : string -> bool;
    (** [navigator.geolocation]: absent, or how [getCurrentPosition] ends *)
    geolocation : option (Outcome Coords.t);
    (** [fetch(url)] followed by [response.json()] *)
    fetchJson : string -> Outcome Nominatim.json;
    (** [FileReader.readAsDataURL]: the result handed to [onload], if any *)
    readAsDataURL : File.t -> option string }.

(** The query results the component renders from (each defaults to []). *)
Record CacheSnapshot := mkCache
  { stores : list Store.t;
    products : list Product.t;
    orders : list Order.t }.

Record Dashboard := mkDashboard
  { cache : CacheSnapshot;
    (** the filters passed to [queryClient.invalidateQueries], oldest first *)
    invalidated : list QueryKey;
    editingProduct : option Product.t;
    activeTab : string;
    isGettingLocation : bool;
    form : ProductForm.t;
    (** the default values the product form holds: those given to [useForm],
        or the values of the last [form.reset(values)] *)
    formDefaults : ProductForm.t;
    storeForm : StoreForm.t;
    (** notifications shown, oldest first *)
    toasts : list Toast.t;
    (** HTTP calls issued, oldest first *)
    requests : list Request.t;
    (** files handed to a [FileReader], oldest first *)
    fileReads : list File.t }.

(** [const currentStore = stores[0]] *)
Definition currentStore (d : Dashboard) : option Store.t := hd_error (stores (cache d)).

(** A query is stale once some invalidation filter matches its key. *)
Definition isInvalidated (d : Dashboard) (key : QueryKey) : bool :=
  existsb (fun f => queryKeyMatches f key) (invalidated d).

Definition M (A : Type) : Type := Dashboard -> Outcome A * Dashboard.

Definition ret {A} (a : A) : M A := fun d => (Ret a, d).

Definition throw {A} (e : JsError) : M A := fun d => (Throw e, d).

Definition bind {A B} (c : M A) (k : A -> M B) : M B :=
  fun d =>
    match c d with
    | (Ret a, d') => k a d'
    | (Throw e, d') => (Throw e, d')
    end.

(** [try { c } catch (error) { h error }] *)
Definition tryCatch {A} (c : M A) (h : JsError -> M A) : M A :=
  fun d =>
    match c d with
    | (Ret a, d') => (Ret a, d')
    | (Throw e, d') => h e d'
    end.

(** [try { c } finally { f }] *)
Definition tryFinally {A} (c : M A) (f : M unit) : M A :=
  fun d =>
    match c d with
    | (r, d') =>
        match f d' with
        | (Ret _, d'') => (r, d'')
        | (Throw e, d'') => (Throw e, d'')
        end
    end.

(** An awaited call. *)
Definition await {A} (r : Outcome A) : M A := fun d => (r, d).

Definition modify (f : Dashboard -> Dashboard) : M unit := fun d => (Ret tt, f d).

Notation "x <- c ;; k" := (bind c (fun x => k))
  (at level 61, c at next level, right associativity).
Notation "c ;; k" := (bind c (fun _ => k))
  (at level 61, right associativity).

(** *** State updates *)

Definition with_invalidated (v : list QueryKey) (d : Dashboard) : Dashboard :=
  {| cache := cache d; invalidated := v; editingProduct := editingProduct d;
     activeTab := activeTab d; isGettingLocation := isGettingLocation d;
     form := form d;
     formDefaults := formDefaults d; storeForm := storeForm d; toasts := toasts d;
     requests := requests d; fileReads := fileReads d |}.

Definition with_editingProduct (v : option Product.t) (d : Dashboard) : Dashboard :=
  {| cache := cache d; invalidated := invalidated d; editingProduct := v;
     activeTab := activeTab d; isGettingLocation := isGettingLocation d;
     form := form d;
     formDefaults := formDefaults d; storeForm := storeForm d; toasts := toasts d;
     requests := requests d; fileReads := fileReads d |}.

Definition with_activeTab (v : string) (d : Dashboard) : Dashboard :=
  {| cache := cache d; invalidated := invalidated d;
     editingProduct := editingProduct d; activeTab := v;
     isGettingLocation := isGettingLocation d; form := form d;
     formDefaults := formDefaults d;
     storeForm := storeForm d; toasts := toasts d; requests := requests d;
     fileReads := fileReads d |}.

Definition with_isGettingLocation (v : bool) (d : Dashboard) : Dashboard :=
  {| cache := cache d; invalidated := invalidated d;
     editingProduct := editingProduct d; activeTab := activeTab d;
     isGettingLocation := v; form := form d;
     formDefaults := formDefaults d; storeForm := storeForm d;
     toasts := toasts d; requests := requests d; fileReads := fileReads d |}.

Definition with_form (v : ProductForm.t) (d : Dashboard) : Dashboard :=
  {| cache := cache d; invalidated := invalidated d;
     editingProduct := editingProduct d; activeTab := activeTab d;
     isGettingLocation := isGettingLocation d; form := v;
     formDefaults := formDefaults d;
     storeForm := storeForm d; toasts := toasts d; requests := requests d;
     fileReads := fileReads d |}.

Definition with_storeForm (v : StoreForm.t) (d : Dashboard) : Dashboard :=
  {| cache := cache d; invalidated := invalidated d;
     editingProduct := editingProduct d; activeTab := activeTab d;
     isGettingLocation := isGettingLocation d; form := form d;
     formDefaults := formDefaults d;
     storeForm := v; toasts := toasts d; requests := requests d;
     fileReads := fileReads d |}.

Definition with_toasts (v : list Toast.t) (d : Dashboard) : Dashboard :=
  {| cache := cache d; invalidated := invalidated d;
     editingProduct := editingProduct d; activeTab := activeTab d;
     isGettingLocation := isGettingLocation d; form := form d;
     formDefaults := formDefaults d;
     storeForm := storeForm d; toasts := v; requests := requests d;
     fileReads := fileReads d |}.

Definition with_requests (v : list Request.t) (d : Dashboard) : Dashboard :=
  {| cache := cache d; invalidated := invalidated d;
     editingProduct := editingProduct d; activeTab := activeTab d;
     isGettingLocation := isGettingLocation d; form := form d;
     formDefaults := formDefaults d;
     storeForm := storeForm d; toasts := toasts d; requests := v;
     fileReads := fileReads d |}.

Definition with_fileReads (v : list File.t) (d : Dashboard) : Dashboard :=
  {| cache := cache d; invalidated := invalidated d;
     editingProduct := editingProduct d; activeTab := activeTab d;
     isGettingLocation := isGettingLocation d; form := form d;
     formDefaults := formDefaults d;
     storeForm := storeForm d; toasts := toasts d; requests := requests d;
     fileReads := v |}.

Definition with_formDefaults (v : ProductForm.t) (d : Dashboard) : Dashboard :=
  {| cache := cache d; invalidated := invalidated d;
     editingProduct := editingProduct d; activeTab := activeTab d;
     isGettingLocation := isGettingLocation d; form := form d;
     formDefaults := v; storeForm := storeForm d; toasts := toasts d;
     requests := requests d; fileReads := fileReads d |}.

(** [toast({ title, description, variant })] *)
Definition toast (x : Toast.t) : M unit :=
  modify (fun d => with_toasts (toasts d ++ [x])%list d).

(** [queryClient.invalidateQueries({ queryKey })] *)
Definition invalidateQueries (queryKey : QueryKey) : M unit :=
  modify (fun d => with_invalidated (invalidated d ++ [queryKey])%list d).

Definition setEditingProduct (v : option Product.t) : M unit :=
  modify (with_editingProduct v).

Definition setActiveTab (v : string) : M unit := modify (with_activeTab v).

Definition setIsGettingLocation (v : bool) : M unit :=
  modify (with_isGettingLocation v).

(** [form.reset(values)]: the form takes the values, and holds them as its
    default values from then on. *)
Definition formReset (values : ProductForm.t) : M unit :=
  modify (fun d => with_formDefaults values (with_form values d)).

(** [form.reset()]: the form returns to the default values it holds. *)
Definition formResetToDefaults : M unit :=
  modify (fun d => with_form (formDefaults d) d).

(** [form.getValues("images") || []] *)
Definition getImages : M (list string) :=
  fun d => (Ret (Js.orEmpty (ProductForm.images (form d))), d).

(** [form.setValue("images", v)] *)
Definition setImages (v : list string) : M unit :=
  modify (fun d => with_form (ProductForm.set_images v (form d)) d).

(** [storeForm.setValue(field, v)], the field given by its setter. *)
Definition storeFormSetValue (set : string -> StoreForm.t -> StoreForm.t)
    (v : string) : M unit :=
  modify (fun d => with_storeForm (set v (storeForm d)) d).

(** An HTTP call: the request leaves, then the call resolves or rejects. *)
Definition call (env : Env) (r : Request.t) : M unit :=
  modify (fun d => with_requests (requests d ++ [r])%list d) ;;
  await (http env r).

Definition apiPost (env : Env) (url : string) (data : Payload.t) : M unit :=
  call env {| Request.method := POST; Request.url := url; Request.body := Some data |}.

Definition apiPut (env : Env) (url : string) (data : Payload.t) : M unit :=
  call env {| Request.method := PUT; Request.url := url; Request.body := Some data |}.

Definition apiDelete (env : Env) (url : string) : M unit :=
  call env {| Request.method := DELETE; Request.url := url; Request.body := None |}.

(** [error instanceof Error ? error.message : fallback] *)
Definition messageOr (error : JsError) (fallback : string) : string :=
  match error with
  | ErrorObj message => message
  | NonError => fallback
  end.

(* ------------------------------------------------------------------ *)
(** ** The dashboard component (ShopkeeperDashboard) *)

Section Statistics.
(** [Number(s)]: the string-to-number coercion. *)
Variable Number : string -> float.

(** [orders.length] *)
Definition totalOrders (d : Dashboard) : nat := List.length (orders (cache d)).

(** [products.length] *)
Definition totalProducts (d : Dashboard) : nat := List.length (products (cache d)).

(** [orders.reduce((sum, order) => sum + Number(order.totalAmount), 0)] *)
Definition totalRevenue (d : Dashboard) : float :=
  fold_left (fun sum order => (sum + Number (Order.totalAmount order))%float)
            (orders (cache d)) 0%float.

(** [orders.filter(order => order.status === "pending").length] *)
Definition pendingOrders (d : Dashboard) : nat :=
  List.length (filter (fun order => Order.status order =? "pending") (orders (cache d))).
End Statistics.

(** The object literal [filteredData] of [handleAddProduct]. *)
Definition filteredData (currentStore : Store.t) (data : ProductForm.t) : Payload.t :=
  {| Payload.name := Js.trim (ProductForm.name data);
     Payload.description :=
       Js.orNull (option_map Js.trim (ProductForm.description data));
     Payload.price := ProductForm.price data;
     Payload.originalPrice := Js.orNull (ProductForm.originalPrice data);
     Payload.categoryId := ProductForm.categoryId data;
     Payload.storeId := Store.id currentStore;
     Payload.stock := Js.orNum (Some (ProductForm.stock data)) 0;
     Payload.images :=
       Js.orEmpty
         (option_map (filter (fun img => negb (Js.trim img =? "")))
                     (ProductForm.images data));
     Payload.isFastSell := ProductForm.isFastSell data;
     Payload.isOnOffer := ProductForm.isOnOffer data;
     Payload.offerPercentage :=
       if ProductForm.isOnOffer data
       then Js.orNum (Some (ProductForm.offerPercentage data)) 0
       else 0%Z;
     Payload.offerEndDate :=
       if ProductForm.isOnOffer data
       then Js.orNull (ProductForm.offerEndDate data)
       else None;
     Payload.isActive := true |}.

Definition handleAddProduct (env : Env) (data : ProductForm.t) : M unit :=
  fun d =>
    match currentStore d with
    | None =>
        toast {| Toast.title := "Error";
                 Toast.description := Some "Please select a store first";
                 Toast.variant := Destructive |} d
    | Some store =>
        tryCatch
          ((match editingProduct d with
            | Some p =>
                apiPut env ("/api/products/" ++ Js.intToString (Product.id p))
                       (filteredData store data) ;;
                toast {| Toast.title := "Product updated successfully";
                         Toast.description := None; Toast.variant := Default |}
            | None =>
                apiPost env "/api/products" (filteredData store data) ;;
                toast {| Toast.title := "Product added successfully";
                         Toast.description := None; Toast.variant := Default |}
            end) ;;
           formResetToDefaults ;;
           setEditingProduct None ;;
           invalidateQueries
             [KStr ("/api/products/store/" ++ Js.intToString (Store.id store))])
          (fun error =>
             toast {| Toast.title := "Error";
                      Toast.description := Some (messageOr error "Failed to save product");
                      Toast.variant := Destructive |})
          d
    end.

(** The values [handleEditProduct] loads into the form. *)
Definition editValues (product : Product.t) : ProductForm.t :=
  {| ProductForm.name := Product.name product;
     ProductForm.description := Some (Js.orStr (Product.description product) "");
     ProductForm.price := Product.price product;
     ProductForm.originalPrice := Some (Js.orStr (Product.originalPrice product) "");
     ProductForm.categoryId := Js.orNum (Product.categoryId product) 0;
     ProductForm.stock := Js.orNum (Product.stock product) 0;
     ProductForm.imageUrl :=
       Some (Js.orStr (hd_error (Js.orEmpty (Product.images product))) "");
     ProductForm.images := Some (Js.orEmpty (Product.images product));
     ProductForm.isFastSell := Js.orFalse (Product.isFastSell product);
     ProductForm.isOnOffer := Js.orFalse (Product.isOnOffer product);
     ProductForm.offerPercentage := Js.orNum (Product.offerPercentage product) 0;
     ProductForm.offerEndDate := Some (Js.orStr (Product.offerEndDate product) "");
     ProductForm.specifications := Js.orEmpty (Product.specifications product);
     ProductForm.features := Js.orEmpty (Product.features product);
     ProductForm.tags := Js.orEmpty (Product.tags product) |}.

Definition handleEditProduct (product : Product.t) : M unit :=
  setEditingProduct (Some product) ;;
  formReset (editValues product) ;;
  setActiveTab "add-product".

Section Validation.
(** [parseFloat(s)] *)
Variable parseFloat : string -> float.

(** The refinement of [price] and [originalPrice]:
    [!isNaN(num) && num > 0 && num <= 99999999.99]. *)
Definition priceInRange (val : string) : bool :=
  let num := parseFloat val in
  negb (PrimFloat.is_nan num) && (0 <? num)%float && (num <=? 99999999.99)%float.

(** [productSchema] accepts the values.  Fields that are plain strings,
    booleans or arrays accept every value of their type. *)
Definition productSchema (data : ProductForm.t) : bool :=
  (1 <=? String.length (ProductForm.name data))%nat
  && ((1 <=? String.length (ProductForm.price data))%nat
      && priceInRange (ProductForm.price data))
  && match ProductForm.originalPrice data with
     | Some val => if negb (Js.truthy val) then true else priceInRange val
     | None => true
     end
  && (1 <=? ProductForm.categoryId data)%Z
  && (0 <=? ProductForm.stock data)%Z
  && ((0 <=? ProductForm.offerPercentage data)%Z
      && (ProductForm.offerPercentage data <=? 100)%Z).

(** [form.handleSubmit(handleAddProduct)]: the handler runs on the values of
    the form when the schema accepts them, and not at all otherwise (the
    field errors the form library then shows are not part of the state). *)
Definition handleSubmit (env : Env) : M unit :=
  fun d =>
    if productSchema (form d) then handleAddProduct env (form d) d else ret tt d.
End Validation.

Definition handleDeleteProduct (env : Env) (productId : Z) : M unit :=
  fun d =>
    if negb (confirm env "Are you sure you want to delete this product?")
    then ret tt d
    else
      tryCatch
        (apiDelete env ("/api/products/" ++ Js.intToString productId) ;;
         toast {| Toast.title := "Product deleted successfully";
                  Toast.description := None; Toast.variant := Default |} ;;
         match currentStore d with
         | Some store =>
             invalidateQueries
               [KStr ("/api/products/store/" ++ Js.intToString (Store.id store))] ;;
             invalidateQueries [KStr "/api/products"]
         | None => ret tt
         end)
        (fun _ =>
           toast {| Toast.title := "Error";
                    Toast.description := Some "Failed to delete product";
                    Toast.variant := Destructive |})
        d.

Section Location.
(** [n.toString()] and [n.toFixed(digits)] on numbers. *)
Variable numberToString : float -> string.
Variable toFixed : float -> nat -> string.

(** The address line built from a reverse-geocoding answer. *)
Definition formatAddress (data : Nominatim.t) : string :=
  let get (f : Nominatim.address_t -> option string) : option string :=
    match Nominatim.address data with
    | Some a => f a
    | None => None
    end in
  let houseNumber := Js.orStr (get Nominatim.house_number) "" in
  let street := Js.orStr (get Nominatim.road) "" in
  let city :=
    Js.orStr (get Nominatim.city)
      (Js.orStr (get Nominatim.town) (Js.orStr (get Nominatim.village) "")) in
  let district :=
    Js.orStr (get Nominatim.county) (Js.orStr (get Nominatim.district) "") in
  let state := Js.orStr (get Nominatim.state) "" in
  let country := Js.orStr (get Nominatim.country) "" in
  Js.join ", "
    (filter Js.truthy
       [ if Js.truthy houseNumber then houseNumber ++ " " ++ street else houseNumber;
         city; district; state; country ]).

Definition handleGetLocation (env : Env) : M unit :=
  match geolocation env with
  | None =>
      toast {| Toast.title := "Error";
               Toast.description := Some "Geolocation is not supported by this browser";
               Toast.variant := Destructive |}
  | Some getCurrentPosition =>
      setIsGettingLocation true ;;
      tryFinally
        (tryCatch
           (position <- await getCurrentPosition ;;
            let latitude := Coords.latitude position in
            let longitude := Coords.longitude position in
            storeFormSetValue StoreForm.set_latitude (numberToString latitude) ;;
            storeFormSetValue StoreForm.set_longitude (numberToString longitude) ;;
            let googleMapsLink :=
              "https://maps.google.com/?q=" ++ numberToString latitude ++ ","
                ++ numberToString longitude in
            storeFormSetValue StoreForm.set_googleMapsLink googleMapsLink ;;
            tryCatch
              (data <- await
                 (fetchJson env
                    ("https://nominatim.openstreetmap.org/reverse?format=json&lat="
                       ++ numberToString latitude ++ "&lon="
                       ++ numberToString longitude ++ "&zoom=18&addressdetails=1")) ;;
               match data with
               | Nominatim.Null =>
                   (* reading a property of null throws a TypeError *)
                   throw (ErrorObj "Cannot read properties of null")
               | Nominatim.Obj data =>
                   if Js.truthyOpt (Nominatim.display_name data)
                   then storeFormSetValue StoreForm.set_address (formatAddress data)
                   else ret tt
               end)
              (fun geocodeError =>
                 storeFormSetValue StoreForm.set_address
                   "Location coordinates set but address lookup failed") ;;
            toast {| Toast.title := "Location obtained successfully";
                     Toast.description :=
                       Some ("Coordinates: " ++ toFixed latitude 6 ++ ", "
                               ++ toFixed longitude 6);
                     Toast.variant := Default |})
           (fun error =>
              toast {| Toast.title := "Error getting location";
                       Toast.description :=
                         Some "Please ensure location access is enabled and try again";
                       Toast.variant := Destructive |}))
        (setIsGettingLocation false)
  end.
End Location.

(** The handler of the file input; [files] is [e.target.files]. *)
Definition handleFileUpload (env : Env) (files : option (list File.t)) : M unit :=
  match hd_error (Js.orEmpty files) with
  | None => ret tt
  | Some file =>
      tryCatch
        (if (File.size file >? 2 * 1024 * 1024)%Z
         then toast {| Toast.title := "File too large";
                       Toast.description :=
                         Some "Please select an image smaller than 2MB";
                       Toast.variant := Destructive |}
         else if negb (Js.startsWith (File.type file) "image/")
         then toast {| Toast.title := "Please upload an image file";
                       Toast.description := None;
                       Toast.variant := Destructive |}
         else
           (* reader.readAsDataURL(file), then reader.onload *)
           modify (fun d => with_fileReads (fileReads d ++ [file])%list d) ;;
           match readAsDataURL env file with
           | None => ret tt
           | Some base64 =>
               if negb (Js.truthy base64) then ret tt
               else
                 currentImages <- getImages ;;
                 setImages (currentImages ++ [base64])%list
           end)
        (fun error =>
           toast {| Toast.title := "Failed to upload image";
                    Toast.description := None;
                    Toast.variant := Destructive |})
  end.

Definition handleAddImageUrl : M unit :=
  currentImages <- getImages ;;
  setImages (currentImages ++ [""])%list.

(* ------------------------------------------------------------------ *)
(** ** The store list (Stores.tsx) *)

Section StoreList.
(** [s.toLowerCase()] *)
Variable toLowerCase : string -> string.

(** The predicate of the filter; an absent description or address makes its
    disjunct [undefined], which is falsy. *)
Definition matchesSearch (searchQuery : string) (store : Store.t) : bool :=
  (searchQuery =? "")
  || Js.includes (toLowerCase (Store.name store)) (toLowerCase searchQuery)
  || match Store.description store with
     | Some description =>
         Js.includes (toLowerCase description) (toLowerCase searchQuery)
     | None => false
     end
  || match Store.address store with
     | Some address => Js.includes (toLowerCase address) (toLowerCase searchQuery)
     | None => false
     end.

(** [stores] is the query result: [None] when it is not an array. *)
Definition filteredStores (stores : option (list Store.t)) (searchQuery : string)
  : list Store.t :=
  match stores with
  | Some l => filter (matchesSearch searchQuery) l
  | None => []
  end.
End StoreList.

(* ------------------------------------------------------------------ *)
(** ** Vocabulary of the properties *)

Module Spec.

(** [sum(xs)]: the terms added one after the other, from 0. *)
Fixpoint sumFrom (acc : float) (xs : list float) : float :=
  match xs with
  | [] => acc
  | x :: r => sumFrom (acc + x)%float r
  end.

Definition sum (xs : list float) : float := sumFrom 0%float xs.

(** The number of orders with a given status. *)
Fixpoint countStatus (status : string) (os : list Order.t) : nat :=
  match os with
  | [] => O
  | o :: r =>
      if string_dec (Order.status o) status
      then S (countStatus status r) else countStatus status r
  end.

(** [sub] occurs somewhere in [s]. *)
Definition Occurs (sub s : string) : Prop :=
  exists pre post, s = pre ++ sub ++ post.

(** [field] contains [s], case ignored. *)
Definition ContainsCI (toLowerCase : string -> string) (s field : string) : Prop :=
  Occurs (toLowerCase s) (toLowerCase field).

(** A store matches when its name, description or address contains [s]. *)
Definition StoreMatches (toLowerCase : string -> string) (s : string)
    (store : Store.t) : Prop :=
  ContainsCI toLowerCase s (Store.name store)
  \/ (exists d, Store.description store = Some d /\ ContainsCI toLowerCase s d)
  \/ (exists a, Store.address store = Some a /\ ContainsCI toLowerCase s a).

(** The string is empty or made of whitespace only. *)
Fixpoint blank (s : string) : bool :=
  match s with
  | EmptyString => true
  | String c s' => Js.isWhiteSpace c && blank s'
  end.

(** [l] is [m] with some entries left out, the others in their order. *)
Inductive Subsequence {A : Type} : list A -> list A -> Prop :=
| sub_nil : Subsequence [] []
| sub_skip x l m : Subsequence l m -> Subsequence l (x :: m)
| sub_keep x l m : Subsequence l m -> Subsequence (x :: l) (x :: m).

(** The computation leaves the cached collections as they are. *)
Definition KeepsCache {A : Type} (c : M A) : Prop :=
  forall d, cache (snd (c d)) = cache d.

(** The two product descriptors. *)
Definition storeProductsKey (storeId : Z) : QueryKey :=
  [KStr ("/api/products/store/" ++ Js.intToString storeId)].

Definition allProductsKey : QueryKey := [KStr "/api/products"].

(** The request by which [handleAddProduct] saves the form: an update of
    the product being edited, or else a creation. *)
Definition saveRequest (d : Dashboard) (store : Store.t) (data : ProductForm.t)
  : Request.t :=
  match editingProduct d with
  | Some p =>
      {| Request.method := PUT;
         Request.url := "/api/products/" ++ Js.intToString (Product.id p);
         Request.body := Some (filteredData store data) |}
  | None =>
      {| Request.method := POST; Request.url := "/api/products";
         Request.body := Some (filteredData store data) |}
  end.

(** The notification of a failed save. *)
Definition saveErrorToast (error : JsError) : Toast.t :=
  {| Toast.title := "Error";
     Toast.description := Some (messageOr error "Failed to save product");
     Toast.variant := Destructive |}.

(** Opening a product for editing and submitting the form as loaded. *)
Definition editUnchanged (parseFloat : string -> float) (env : Env) (p : Product.t)
  : M unit :=
  handleEditProduct p ;; handleSubmit parseFloat env.

(** The properties a product and the payload of its update have in common. *)
Definition payloadKeys : list string :=
  [ "name"; "description"; "price"; "originalPrice"; "categoryId"; "storeId";
    "stock"; "images"; "isFastSell"; "isOnOffer"; "offerPercentage";
    "offerEndDate"; "isActive" ].

(** A product in the form the dashboard itself writes: texts trimmed and not
    empty when present, numbers and flags present, no blank image entry, the
    offer fields cleared when the product is not on offer, and active. *)
Definition normalised (p : Product.t) : bool :=
  (Js.trim (Product.name p) =? Product.name p)
  && match Product.description p with
     | Some s => Js.truthy s && (Js.trim s =? s)
     | None => true
     end
  && match Product.originalPrice p with Some s => Js.truthy s | None => true end
  && match Product.categoryId p with Some _ => true | None => false end
  && match Product.stock p with Some _ => true | None => false end
  && match Product.images p with
     | Some l => forallb (fun img => negb (blank img)) l
     | None => false
     end
  && match Product.isFastSell p with Some _ => true | None => false end
  && match Product.isOnOffer p, Product.offerPercentage p, Product.offerEndDate p with
     | Some true, Some _, Some s => Js.truthy s
     | Some true, Some _, None => true
     | Some false, Some 0%Z, None => true
     | _, _, _ => false
     end
  && Product.isActive p.

(** The request by which [handleDeleteProduct] deletes a product. *)
Definition deleteRequest (productId : Z) : Request.t :=
  {| Request.method := DELETE;
     Request.url := "/api/products/" ++ Js.intToString productId;
     Request.body := None |}.

Definition deleteSuccessToast : Toast.t :=
  {| Toast.title := "Product deleted successfully";
     Toast.description := None; Toast.variant := Default |}.

Definition deleteErrorToast : Toast.t :=
  {| Toast.title := "Error"; Toast.description := Some "Failed to delete product";
     Toast.variant := Destructive |}.

(** The address of the reverse-geocoding request for printed coordinates. *)
Definition geocodeUrl (lat lon : string) : string :=
  "https://nominatim.openstreetmap.org/reverse?format=json&lat=" ++ lat
    ++ "&lon=" ++ lon ++ "&zoom=18&addressdetails=1".

(** The fixed address fallback. *)
Definition addressFallback : string :=
  "Location coordinates set but address lookup failed".

(** The size ceiling of an uploaded image, 2MB. *)
Definition sizeCeiling : Z := 2097152.

End Spec.

(* ------------------------------------------------------------------ *)
(** ** Sample instances of the number built-ins, and sample data

    The built-ins [Number], [toString] and [toFixed] are parameters of the
    model.  The instances below cover the plain cases (short decimal
    numerals, finite numbers) and serve the examples. *)

Module Sample.

Definition digitString (n : Z) : string := NilZero.string_of_uint (N.to_uint (Z.to_N n)).

(** [s] left-padded with zeros to [width] characters. *)
Fixpoint padZeros (width : nat) (s : string) : string :=
  match width with
  | O => s
  | S w => if (String.length s <=? w)%nat then padZeros w ("0" ++ s) else s
  end.

(** For a finite [x]: its sign and |x| * 10^f rounded to the nearest integer,
    a tie going up; computed exactly. *)
Definition roundScaled (x : float) (f : nat) : option (bool * Z) :=
  match Prim2SF x with
  | S754_zero s => Some (s, 0%Z)
  | S754_finite s m e =>
      let num := (Zpos m * 10 ^ Z.of_nat f)%Z in
      Some (s, if (0 <=? e)%Z then (num * 2 ^ e)%Z
               else ((num + 2 ^ (- e - 1)) / 2 ^ (- e))%Z)
  | _ => None
  end.

(** [x.toFixed(f)] for a finite [x] below 10^21. *)
Definition toFixed (x : float) (f : nat) : string :=
  match roundScaled x f with
  | None => "NaN"
  | Some (s, n) =>
      let scale := (10 ^ Z.of_nat f)%Z in
      (if s && negb (PrimFloat.eqb x 0) then "-" else "")
        ++ digitString (n / scale)
        ++ match f with
           | O => ""
           | _ => "." ++ padZeros f (digitString (n mod scale))
           end
  end.

Fixpoint dropZeros (s : string) : string :=
  match s with
  | EmptyString => EmptyString
  | String c s' =>
      match dropZeros s' with
      | EmptyString => if Ascii.eqb c "0" then EmptyString else String c EmptyString
      | t => String c t
      end
  end.

(** [x.toString()] for an [x] that is the double nearest to a decimal with at
    most four fraction digits (a coordinate, an amount); "?" elsewhere. *)
Definition numberToString (x : float) : string :=
  match roundScaled x 4 with
  | None => "NaN"
  | Some (s, n) =>
      if PrimFloat.eqb (of_uint63 (Uint63.of_Z n) / 10000) (abs x)
      then (if s && negb (PrimFloat.eqb x 0) then "-" else "")
             ++ digitString (n / 10000)
             ++ match dropZeros (padZeros 4 (digitString (n mod 10000))) with
                | EmptyString => ""
                | frac => "." ++ frac
                end
      else "?"
  end.

Definition digitOf (c : ascii) : option Z :=
  let n := nat_of_ascii c in
  if ((48 <=? n) && (n <=? 57))%nat then Some (Z.of_nat (n - 48)) else None.

(** The digits of [s] read as a number, continuing from [acc]; [None] when a
    character is not a digit. *)
Fixpoint digitsValue (acc : Z) (s : string) : option Z :=
  match s with
  | EmptyString => Some acc
  | String c s' =>
      match digitOf c with
      | Some v => digitsValue (10 * acc + v) s'
      | None => None
      end
  end.

(** The text before and after the first "." of [s]. *)
Fixpoint splitDot (s : string) : string * string :=
  match s with
  | EmptyString => (EmptyString, EmptyString)
  | String c s' =>
      if Ascii.eqb c "." then (EmptyString, s')
      else let (a, b) := splitDot s' in (String c a, b)
  end.

(** [Number(s)] for a numeral [digits] or [digits.digits] of at most 15
    digits, where the quotient below is the nearest double; NaN elsewhere. *)
Definition Number (s : string) : float :=
  let (ip, fp) := splitDot s in
  match ip, digitsValue 0 (ip ++ fp) with
  | String _ _, Some n =>
      (of_uint63 (Uint63.of_Z n)
       / of_uint63 (Uint63.of_Z (10 ^ Z.of_nat (String.length fp))))%float
  | _, _ => nan
  end.

(** [parseFloat(s)] on the texts the samples hold in a price: a numeral
    [digits] or [digits.digits] of at most 15 digits, where it agrees with
    [Number] above, and the empty text, where it is NaN. *)
Definition parseFloat (s : string) : float := Number s.

Definition shop : Store.t :=
  {| Store.id := 7; Store.name := "Koshi Mart";
     Store.description := Some "Fresh groceries"; Store.address := Some "Itahari";
     Store.ownerId := 3 |}.

Definition bakery : Store.t :=
  {| Store.id := 8; Store.name := "Everest Bakery"; Store.description := None;
     Store.address := Some "Dharan"; Store.ownerId := 4 |}.

Definition rice : Product.t :=
  {| Product.id := 42; Product.storeId := 7; Product.categoryId := Some 2%Z;
     Product.name := "Basmati rice"; Product.description := Some "5 kg bag";
     Product.price := "850.00"; Product.originalPrice := Some "900.00";
     Product.stock := Some 12%Z;
     Product.images := Some ["https://cdn.example/rice.jpg"];
     Product.isFastSell := Some false; Product.isOnOffer := Some true;
     Product.offerPercentage := Some 5%Z; Product.offerEndDate := Some "2025-12-31";
     Product.specifications := Some [("weight", "5 kg")];
     Product.features := Some ["long grain"]; Product.tags := Some ["rice"];
     Product.isActive := true |}.

Definition threeOrders : list Order.t :=
  [ {| Order.id := 1; Order.storeId := 7; Order.customerName := "Asha";
       Order.totalAmount := "100.50"; Order.status := "pending" |};
    {| Order.id := 2; Order.storeId := 7; Order.customerName := "Bikram";
       Order.totalAmount := "20"; Order.status := "delivered" |};
    {| Order.id := 3; Order.storeId := 7; Order.customerName := "Chandra";
       Order.totalAmount := "0.25"; Order.status := "pending" |} ].

(** The sample product, taken off sale. *)
Definition retired : Product.t :=
  {| Product.id := 42; Product.storeId := 7; Product.categoryId := Some 2%Z;
     Product.name := "Basmati rice"; Product.description := Some "5 kg bag";
     Product.price := "850.00"; Product.originalPrice := Some "900.00";
     Product.stock := Some 12%Z;
     Product.images := Some ["https://cdn.example/rice.jpg"];
     Product.isFastSell := Some false; Product.isOnOffer := Some true;
     Product.offerPercentage := Some 5%Z; Product.offerEndDate := Some "2025-12-31";
     Product.specifications := Some [("weight", "5 kg")];
     Product.features := Some ["long grain"]; Product.tags := Some ["rice"];
     Product.isActive := false |}.

(** A product given away, at the price of zero. *)
Definition unpriced : Product.t :=
  {| Product.id := 44; Product.storeId := 7; Product.categoryId := Some 2%Z;
     Product.name := "Sample sachet"; Product.description := None;
     Product.price := "0.00"; Product.originalPrice := None;
     Product.stock := Some 100%Z; Product.images := Some [];
     Product.isFastSell := Some false; Product.isOnOffer := Some false;
     Product.offerPercentage := Some 0%Z; Product.offerEndDate := None;
     Product.specifications := None; Product.features := None;
     Product.tags := None; Product.isActive := true |}.

(** Form values with the offer switched off but its fields still filled. *)
Definition staleOfferForm : ProductForm.t :=
  {| ProductForm.name := " Lentils "; ProductForm.description := Some "";
     ProductForm.price := "120"; ProductForm.originalPrice := Some "";
     ProductForm.categoryId := 2; ProductForm.stock := 30;
     ProductForm.imageUrl := Some "";
     ProductForm.images := Some ["a.jpg"; ""; "   "; "b.jpg"];
     ProductForm.isFastSell := false; ProductForm.isOnOffer := false;
     ProductForm.offerPercentage := 25;
     ProductForm.offerEndDate := Some "2025-01-01";
     ProductForm.specifications := []; ProductForm.features := [];
     ProductForm.tags := [] |}.

(** A reverse-geocoding answer for the sample coordinates. *)
Definition itahari : Nominatim.t :=
  {| Nominatim.display_name := Some "12, Main Road, Itahari, Sunsari, Nepal";
     Nominatim.address :=
       Some {| Nominatim.house_number := Some "12";
               Nominatim.road := Some "Main Road";
               Nominatim.city := None; Nominatim.town := Some "Itahari";
               Nominatim.village := None; Nominatim.county := Some "Sunsari";
               Nominatim.district := None; Nominatim.state := Some "Koshi";
               Nominatim.country := Some "Nepal";
               Nominatim.postcode := Some "56705" |} |}.

(** An answer that reports a failed lookup: no [display_name]. *)
Definition unableToGeocode : Nominatim.t :=
  {| Nominatim.display_name := None; Nominatim.address := None |}.

Definition photo3MB : File.t :=
  {| File.name := "shelf.png"; File.size := 3145728; File.type := "image/png" |}.

Definition leaflet : File.t :=
  {| File.name := "leaflet.pdf"; File.size := 1024; File.type := "application/pdf" |}.

Definition thumbnail : File.t :=
  {| File.name := "thumb.png"; File.size := 2048; File.type := "image/png" |}.

(** Three orders whose amounts do not add up alike in both directions. *)
Definition tenths : list Order.t :=
  [ {| Order.id := 4; Order.storeId := 7; Order.customerName := "Dipa";
       Order.totalAmount := "0.1"; Order.status := "pending" |};
    {| Order.id := 5; Order.storeId := 7; Order.customerName := "Esha";
       Order.totalAmount := "0.2"; Order.status := "shipped" |};
    {| Order.id := 6; Order.storeId := 7; Order.customerName := "Foss";
       Order.totalAmount := "0.3"; Order.status := "cancelled" |} ].

(** A dashboard right after loading: one store, one product, three orders. *)
Definition dashboard : Dashboard :=
  {| cache := {| stores := [shop]; products := [rice]; orders := threeOrders |};
     invalidated := []; editingProduct := None; activeTab := "overview";
     isGettingLocation := false; form := ProductForm.defaultValues;
     formDefaults := ProductForm.defaultValues;
     storeForm := StoreForm.defaultValues; toasts := []; requests := [];
     fileReads := [] |}.

(** The dashboard with an address typed into the store form. *)
Definition typedAddress : Dashboard :=
  with_storeForm (StoreForm.set_address "Main Road, Itahari" StoreForm.defaultValues)
    dashboard.

(** An environment in which every call succeeds. *)
Definition env : Env :=
  {| http := fun _ => Ret tt;
     confirm := fun _ => true;
     geolocation :=
       Some (Ret {| Coords.latitude := 26.7271; Coords.longitude := 87.2751 |});
     fetchJson := fun _ => Ret (Nominatim.Obj itahari);
     readAsDataURL := fun _ => Some "data:image/png;base64,AAAA" |}.

(** The same environment with a given answer of the HTTP calls. *)
Definition envHttp (r : Outcome unit) : Env :=
  {| http := fun _ => r; confirm := confirm env; geolocation := geolocation env;
     fetchJson := fetchJson env; readAsDataURL := readAsDataURL env |}.

(** The same environment with a given answer of the geocoding service. *)
Definition envGeocode (r : Outcome Nominatim.json) : Env :=
  {| http := http env; confirm := confirm env; geolocation := geolocation env;
     fetchJson := fun _ => r; readAsDataURL := readAsDataURL env |}.

End Sample.

(* ------------------------------------------------------------------ *)
(** ** Further parts of the dashboard and of the store list *)

(** *** Arrays *)

Module JsArray.

(** [arr.filter((x, i) => f(x, i))], the index counted from [i]. *)
Fixpoint filterFrom {A : Type} (i : nat) (f : A -> nat -> bool) (l : list A) : list A :=
  match l with
  | [] => []
  | x :: r => if f x i then x :: filterFrom (S i) f r else filterFrom (S i) f r
  end.

Definition filterIndexed {A : Type} (f : A -> nat -> bool) (l : list A) : list A :=
  filterFrom 0 f l.

(** [copy[index] = value] on a copy of [l]: an entry is replaced, or, at
    [index = l.length], appended.  Beyond that the array would get holes,
    which a list does not hold: [None]. *)
Fixpoint assignIndex {A : Type} (index : nat) (value : A) (l : list A)
  : option (list A) :=
  match l, index with
  | [], O => Some [value]
  | [], S _ => None
  | _ :: r, O => Some (value :: r)
  | x :: r, S i => option_map (cons x) (assignIndex i value r)
  end.

(** [copy[index] = f(copy[index])] where [f] needs the entry to exist:
    [None] at and beyond [l.length]. *)
Fixpoint modifyIndex {A : Type} (index : nat) (f : A -> A) (l : list A)
  : option (list A) :=
  match l, index with
  | [], _ => None
  | x :: r, O => Some (f x :: r)
  | x :: r, S i => option_map (cons x) (modifyIndex i f r)
  end.

End JsArray.

(** *** The staged lists of the product form *)

Module FormList.

Definition set_specifications (v : list (string * string)) (f : ProductForm.t)
  : ProductForm.t :=
  {| ProductForm.name := ProductForm.name f;
     ProductForm.description := ProductForm.description f;
     ProductForm.price := ProductForm.price f;
     ProductForm.originalPrice := ProductForm.originalPrice f;
     ProductForm.categoryId := ProductForm.categoryId f;
     ProductForm.stock := ProductForm.stock f;
     ProductForm.imageUrl := ProductForm.imageUrl f;
     ProductForm.images := ProductForm.images f;
     ProductForm.isFastSell := ProductForm.isFastSell f;
     ProductForm.isOnOffer := ProductForm.isOnOffer f;
     ProductForm.offerPercentage := ProductForm.offerPercentage f;
     ProductForm.offerEndDate := ProductForm.offerEndDate f;
     ProductForm.specifications := v;
     ProductForm.features := ProductForm.features f;
     ProductForm.tags := ProductForm.tags f |}.

Definition set_features (v : list string) (f : ProductForm.t) : ProductForm.t :=
  {| ProductForm.name := ProductForm.name f;
     ProductForm.description := ProductForm.description f;
     ProductForm.price := ProductForm.price f;
     ProductForm.originalPrice := ProductForm.originalPrice f;
     ProductForm.categoryId := ProductForm.categoryId f;
     ProductForm.stock := ProductForm.stock f;
     ProductForm.imageUrl := ProductForm.imageUrl f;
     ProductForm.images := ProductForm.images f;
     ProductForm.isFastSell := ProductForm.isFastSell f;
     ProductForm.isOnOffer := ProductForm.isOnOffer f;
     ProductForm.offerPercentage := ProductForm.offerPercentage f;
     ProductForm.offerEndDate := ProductForm.offerEndDate f;
     ProductForm.specifications := ProductForm.specifications f;
     ProductForm.features := v;
     ProductForm.tags := ProductForm.tags f |}.

Definition set_tags (v : list string) (f : ProductForm.t) : ProductForm.t :=
  {| ProductForm.name := ProductForm.name f;
     ProductForm.description := ProductForm.description f;
     ProductForm.price := ProductForm.price f;
     ProductForm.originalPrice := ProductForm.originalPrice f;
     ProductForm.categoryId := ProductForm.categoryId f;
     ProductForm.stock := ProductForm.stock f;
     ProductForm.imageUrl := ProductForm.imageUrl f;
     ProductForm.images := ProductForm.images f;
     ProductForm.isFastSell := ProductForm.isFastSell f;
     ProductForm.isOnOffer := ProductForm.isOnOffer f;
     ProductForm.offerPercentage := ProductForm.offerPercentage f;
     ProductForm.offerEndDate := ProductForm.offerEndDate f;
     ProductForm.specifications := ProductForm.specifications f;
     ProductForm.features := ProductForm.features f;
     ProductForm.tags := v |}.

End FormList.

(** A handler that the list model covers in part: [None] where the code
    would leave an array with holes or an object with a property missing. *)
Definition Partial (A : Type) : Type := Dashboard -> option (Outcome A * Dashboard).

(** [form.setValue("specifications" | "features" | "tags", v)] *)
Definition setSpecifications (v : list (string * string)) : M unit :=
  modify (fun d => with_form (FormList.set_specifications v (form d)) d).

Definition setFeatures (v : list string) : M unit :=
  modify (fun d => with_form (FormList.set_features v (form d)) d).

Definition setTags (v : list string) : M unit :=
  modify (fun d => with_form (FormList.set_tags v (form d)) d).

Definition handleImageUrlChange (index : nat) (value : string) : Partial unit :=
  fun d =>
    let currentImages := Js.orEmpty (ProductForm.images (form d)) in
    match JsArray.assignIndex index value currentImages with
    | Some newImages => Some (setImages newImages d)
    | None => None
    end.

Definition handleRemoveImage (index : nat) : M unit :=
  currentImages <- getImages ;;
  setImages (JsArray.filterIndexed (fun _ i => negb (i =? index)%nat) currentImages).

Definition handleAddSpecification : M unit :=
  fun d =>
    let currentSpecs := ProductForm.specifications (form d) in
    setSpecifications (currentSpecs ++ [("", "")])%list d.

(** The property of a specification that an input edits. *)
Inductive SpecField := Key | Value.

(** [{ ...spec, [field]: value }] *)
Definition withField (field : SpecField) (value : string) (spec : string * string)
  : string * string :=
  match field with
  | Key => (value, snd spec)
  | Value => (fst spec, value)
  end.

Definition handleSpecificationChange (index : nat) (field : SpecField)
    (value : string) : Partial unit :=
  fun d =>
    let currentSpecs := ProductForm.specifications (form d) in
    match JsArray.modifyIndex index (withField field value) currentSpecs with
    | Some newSpecs => Some (setSpecifications newSpecs d)
    | None => None
    end.

Definition handleRemoveSpecification (index : nat) : M unit :=
  fun d =>
    let currentSpecs := ProductForm.specifications (form d) in
    setSpecifications
      (JsArray.filterIndexed (fun _ i => negb (i =? index)%nat) currentSpecs) d.

Definition handleAddFeature : M unit :=
  fun d =>
    let currentFeatures := ProductForm.features (form d) in
    setFeatures (currentFeatures ++ [""])%list d.

Definition handleFeatureChange (index : nat) (value : string) : Partial unit :=
  fun d =>
    let currentFeatures := ProductForm.features (form d) in
    match JsArray.assignIndex index value currentFeatures with
    | Some newFeatures => Some (setFeatures newFeatures d)
    | None => None
    end.

Definition handleRemoveFeature (index : nat) : M unit :=
  fun d =>
    let currentFeatures := ProductForm.features (form d) in
    setFeatures
      (JsArray.filterIndexed (fun _ i => negb (i =? index)%nat) currentFeatures) d.

Definition handleAddTag : M unit :=
  fun d =>
    let currentTags := ProductForm.tags (form d) in
    setTags (currentTags ++ [""])%list d.

Definition handleTagChange (index : nat) (value : string) : Partial unit :=
  fun d =>
    let currentTags := ProductForm.tags (form d) in
    match JsArray.assignIndex index value currentTags with
    | Some newTags => Some (setTags newTags d)
    | None => None
    end.

Definition handleRemoveTag (index : nat) : M unit :=
  fun d =>
    let currentTags := ProductForm.tags (form d) in
    setTags (JsArray.filterIndexed (fun _ i => negb (i =? index)%nat) currentTags) d.

(** One edit of the specification, feature or tag lists. *)
Inductive DetailEdit :=
| AddSpecification
| SpecificationChange (index : nat) (field : SpecField) (value : string)
| RemoveSpecification (index : nat)
| AddFeature
| FeatureChange (index : nat) (value : string)
| RemoveFeature (index : nat)
| AddTag
| TagChange (index : nat) (value : string)
| RemoveTag (index : nat).

Definition total {A : Type} (c : M A) : Partial A := fun d => Some (c d).

Definition detailHandler (e : DetailEdit) : Partial unit :=
  match e with
  | AddSpecification => total handleAddSpecification
  | SpecificationChange index field value => handleSpecificationChange index field value
  | RemoveSpecification index => total (handleRemoveSpecification index)
  | AddFeature => total handleAddFeature
  | FeatureChange index value => handleFeatureChange index value
  | RemoveFeature index => total (handleRemoveFeature index)
  | AddTag => total handleAddTag
  | TagChange index value => handleTagChange index value
  | RemoveTag index => total (handleRemoveTag index)
  end.

(** The edits made one after the other; [None] once one leaves the model. *)
Fixpoint detailEdits (es : list DetailEdit) (d : Dashboard) : option Dashboard :=
  match es with
  | [] => Some d
  | e :: r =>
      match detailHandler e d with
      | Some (_, d') => detailEdits r d'
      | None => None
      end
  end.

(** How a staged image is shown: [image.startsWith('data:image')] makes it a
    picture, anything else an input that edits the URL. *)
Inductive ImageEntry := Picture | UrlInput.

Definition imageEntry (image : string) : ImageEntry :=
  if Js.startsWith image "data:image" then Picture else UrlInput.

(** *** The stores of the signed-in user *)

(** The [queryFn] of the stores query, after the fetch:
    [allStores.filter(store => store.ownerId === user?.id)], where [userId]
    is [user?.id]. *)
Definition ownedStores (userId : option Z) (allStores : list Store.t) : list Store.t :=
  filter (fun store =>
            match userId with
            | Some id => (Store.ownerId store =? id)%Z
            | None => false
            end) allStores.

(** *** What the store list shows (Stores.tsx) *)

Inductive StoresView :=
| Skeletons
| Grid (cards : list Store.t)
| NoStoresFound (message : string) (clearSearch : bool).

Definition quote : string := String (ascii_of_nat 34) EmptyString.

Section StoresPage.
Variable toLowerCase : string -> string.

(** The body of the page below the search box. *)
Definition storesView (isLoading : bool) (stores : option (list Store.t))
    (searchQuery : string) : StoresView :=
  if isLoading then Skeletons
  else
    let filtered := filteredStores toLowerCase stores searchQuery in
    if (0 <? List.length filtered)%nat then Grid filtered
    else
      NoStoresFound
        (if Js.truthy searchQuery
         then "No stores match your search for " ++ quote ++ searchQuery ++ quote
         else "No stores are available at the moment")
        (Js.truthy searchQuery).
End StoresPage.

(** *** Creating a store and moving an order on *)

Module User.
(** Modelled from the spec: the signed-in user of [useAuth], of which the
    code reads [id] and [role]. *)
Record t := mk { id : Z; role : string }.
End User.

Module StoreData.
(** The object [storeData] that [handleCreateStore] sends. *)
Record t := mk
  { name : string;
    description : option string;
    address : string;
    latitude : option string;
    longitude : option string;
    phone : option string;
    logo : option string;
    coverImage : option string;
    googleMapsLink : option string;
    ownerId : Z }.
End StoreData.

(** The HTTP calls of these two handlers, with what they carry:
    POST /api/stores with the store, PUT /api/orders/<id>/status with the
    status. *)
Inductive Call :=
| CreateStore (storeData : StoreData.t)
| UpdateOrderStatus (orderId : Z) (status : string).

(** The dashboard together with the calls of these handlers, oldest first. *)
Record Shell := mkShell { dashboard : Dashboard; calls : list Call }.

Module X.
(** A handler on the shell. *)
Definition t (A : Type) : Type := Shell -> Outcome A * Shell.

Definition bind {A B} (c : t A) (k : A -> t B) : t B :=
  fun s =>
    match c s with
    | (Ret a, s') => k a s'
    | (Throw e, s') => (Throw e, s')
    end.

Definition tryCatch {A} (c : t A) (h : JsError -> t A) : t A :=
  fun s =>
    match c s with
    | (Ret a, s') => (Ret a, s')
    | (Throw e, s') => h e s'
    end.

(** A computation on the dashboard, run inside the shell. *)
Definition lift {A} (c : M A) : t A :=
  fun s =>
    match c (dashboard s) with
    | (r, d') => (r, {| dashboard := d'; calls := calls s |})
    end.

(** An HTTP call: it leaves, then resolves or rejects as [api] says. *)
Definition call (api : Call -> Outcome unit) (c : Call) : t unit :=
  fun s => (api c, {| dashboard := dashboard s; calls := (calls s ++ [c])%list |}).
End X.

Declare Scope shell_scope.
Delimit Scope shell_scope with shell.
Notation "x <- c ;; k" := (X.bind c (fun x => k))
  (at level 61, c at next level, right associativity) : shell_scope.
Notation "c ;; k" := (X.bind c (fun _ => k))
  (at level 61, right associativity) : shell_scope.

(** [storeData] of [handleCreateStore]: the values of the form, then the
    owner and the four fields that turn empty into null. *)
Definition storeData (user : User.t) (data : StoreForm.t) : StoreData.t :=
  {| StoreData.name := StoreForm.name data;
     StoreData.address := StoreForm.address data;
     StoreData.logo := StoreForm.logo data;
     StoreData.coverImage := StoreForm.coverImage data;
     StoreData.googleMapsLink := StoreForm.googleMapsLink data;
     StoreData.ownerId := User.id user;
     StoreData.phone := Js.orNull (StoreForm.phone data);
     StoreData.description := Js.orNull (StoreForm.description data);
     StoreData.latitude := Js.orNull (StoreForm.latitude data);
     StoreData.longitude := Js.orNull (StoreForm.longitude data) |}.

(** [storeForm.reset()] *)
Definition storeFormReset : M unit :=
  modify (with_storeForm StoreForm.defaultValues).

Definition handleCreateStore (api : Call -> Outcome unit) (user : User.t)
    (data : StoreForm.t) : X.t unit :=
  X.tryCatch
    (X.call api (CreateStore (storeData user data)) ;;
     X.lift (toast {| Toast.title := "Store created successfully";
                      Toast.description := None; Toast.variant := Default |}) ;;
     X.lift storeFormReset ;;
     X.lift (invalidateQueries [KStr "/api/stores"]) ;;
     X.lift (invalidateQueries [KStr "/api/stores"; KStr "owner"; KNum (User.id user)]))%shell
    (fun error =>
       X.lift (toast {| Toast.title := "Error";
                        Toast.description :=
                          Some (messageOr error "Failed to create store");
                        Toast.variant := Destructive |})).

Definition handleOrderStatusUpdate (api : Call -> Outcome unit) (orderId : Z)
    (status : string) : X.t unit :=
  X.tryCatch
    (X.call api (UpdateOrderStatus orderId status) ;;
     X.lift (toast {| Toast.title := "Order status updated successfully";
                      Toast.description := None; Toast.variant := Default |}))%shell
    (fun _ =>
       X.lift (toast {| Toast.title := "Error";
                        Toast.description := Some "Failed to update order status";
                        Toast.variant := Destructive |})).

(** [storeSchema] accepts the values: a name and an address of at least one
    character; the other fields are optional strings. *)
Definition storeSchema (data : StoreForm.t) : bool :=
  (1 <=? String.length (StoreForm.name data))%nat
  && (1 <=? String.length (StoreForm.address data))%nat.

(** [storeForm.handleSubmit(handleCreateStore)]: the handler runs on the
    values of the store form when the schema accepts them, and not at all
    otherwise. *)
Definition storeHandleSubmit (api : Call -> Outcome unit) (user : User.t) : X.t unit :=
  fun s =>
    if storeSchema (storeForm (dashboard s))
    then handleCreateStore api user (storeForm (dashboard s)) s
    else (Ret tt, s).

(** *** A product as sent *)

(** The product that holds what a payload carries, under the id [id]: the
    payload read back as a product. *)
Definition productOfPayload (id : Z) (payload : Payload.t) : Product.t :=
  {| Product.id := id;
     Product.storeId := Payload.storeId payload;
     Product.categoryId := Some (Payload.categoryId payload);
     Product.name := Payload.name payload;
     Product.description := Payload.description payload;
     Product.price := Payload.price payload;
     Product.originalPrice := Payload.originalPrice payload;
     Product.stock := Some (Payload.stock payload);
     Product.images := Some (Payload.images payload);
     Product.isFastSell := Some (Payload.isFastSell payload);
     Product.isOnOffer := Some (Payload.isOnOffer payload);
     Product.offerPercentage := Some (Payload.offerPercentage payload);
     Product.offerEndDate := Payload.offerEndDate payload;
     Product.specifications := None;
     Product.features := None;
     Product.tags := None;
     Product.isActive := Payload.isActive payload |}.

(** *** Vocabulary of the further properties *)

(** The values of the form with the specification, feature and tag lists
    emptied. *)
Definition withoutDetails (f : ProductForm.t) : ProductForm.t :=
  FormList.set_specifications [] (FormList.set_features [] (FormList.set_tags [] f)).

(** The string is empty or begins with a character that is not whitespace. *)
Definition headNotSpace (s : string) : Prop :=
  match s with
  | EmptyString => True
  | String c _ => Js.isWhiteSpace c = false
  end.

(** The address object with another road, and with another postcode. *)
Definition withRoad (v : option string) (a : Nominatim.address_t)
  : Nominatim.address_t :=
  {| Nominatim.house_number := Nominatim.house_number a; Nominatim.road := v;
     Nominatim.city := Nominatim.city a; Nominatim.town := Nominatim.town a;
     Nominatim.village := Nominatim.village a; Nominatim.county := Nominatim.county a;
     Nominatim.district := Nominatim.district a; Nominatim.state := Nominatim.state a;
     Nominatim.country := Nominatim.country a;
     Nominatim.postcode := Nominatim.postcode a |}.

Definition withPostcode (v : option string) (a : Nominatim.address_t)
  : Nominatim.address_t :=
  {| Nominatim.house_number := Nominatim.house_number a;
     Nominatim.road := Nominatim.road a;
     Nominatim.city := Nominatim.city a; Nominatim.town := Nominatim.town a;
     Nominatim.village := Nominatim.village a; Nominatim.county := Nominatim.county a;
     Nominatim.district := Nominatim.district a; Nominatim.state := Nominatim.state a;
     Nominatim.country := Nominatim.country a; Nominatim.postcode := v |}.

(** *** Sample cases *)

Module Cases.

Definition owner : User.t := {| User.id := 3; User.role := "store_owner" |}.

(** The stores of the server, of several owners. *)
Definition allStores : list Store.t :=
  [ Sample.bakery; Sample.shop;
    {| Store.id := 9; Store.name := "Koshi Mart Annex"; Store.description := None;
       Store.address := None; Store.ownerId := 3 |} ].

(** The sample dashboard with three staged images, one of them a blank slot. *)
Definition staged : Dashboard :=
  with_form (ProductForm.set_images ["a.jpg"; ""; "b.jpg"] ProductForm.defaultValues)
    Sample.dashboard.

(** The sample store form, filled in by hand. *)
Definition storeFormValues : StoreForm.t :=
  {| StoreForm.name := " Koshi Mart "; StoreForm.description := Some "";
     StoreForm.address := "Main Road, Itahari"; StoreForm.latitude := None;
     StoreForm.longitude := None; StoreForm.phone := Some "";
     StoreForm.logo := Some ""; StoreForm.coverImage := Some "";
     StoreForm.googleMapsLink := None |}.

Definition shell (d : Dashboard) : Shell := {| dashboard := d; calls := [] |}.

(** The sample product without a category. *)
Definition uncategorised : Product.t :=
  {| Product.id := 43; Product.storeId := 7; Product.categoryId := None;
     Product.name := "Lentils"; Product.description := None;
     Product.price := "120"; Product.originalPrice := None;
     Product.stock := Some 30%Z; Product.images := Some [];
     Product.isFastSell := Some false; Product.isOnOffer := Some false;
     Product.offerPercentage := Some 0%Z; Product.offerEndDate := None;
     Product.specifications := None; Product.features := None;
     Product.tags := None; Product.isActive := true |}.

End Cases.

(* ------------------------------------------------------------------ *)
(** ** Proof tools *)

(** Unfolds the operations of the handler monad. *)
Ltac run_monad :=
  unfold tryCatch, tryFinally, bind, ret, throw, await, modify, call, apiPost,
    apiPut, apiDelete, toast, invalidateQueries, setEditingProduct, setActiveTab,
    setIsGettingLocation, formReset, formResetToDefaults, getImages, setImages,
    storeFormSetValue;
  simpl.

(** Projects a field out of the payload built from the edit values, leaving
    the string and number built-ins folded. *)
Ltac payload_field :=
  cbn [filteredData editValues
       Payload.name Payload.description Payload.price Payload.originalPrice
       Payload.categoryId Payload.storeId Payload.stock Payload.images
       Payload.isFastSell Payload.isOnOffer Payload.offerPercentage
       Payload.offerEndDate Payload.isActive
       ProductForm.name ProductForm.description ProductForm.price
       ProductForm.originalPrice ProductForm.categoryId ProductForm.stock
       ProductForm.images ProductForm.isFastSell ProductForm.isOnOffer
       ProductForm.offerPercentage ProductForm.offerEndDate
       JOptStr JOptNum JOptBool].

(* ------------------------------------------------------------------ *)
(** * Properties *)

(** ** Strings *)

Lemma startsWith_spec (s p : string) :
  Js.startsWith s p = true <-> exists rest, s = p ++ rest.
Proof.
  revert s; induction p as [|a p IH]; intros s; simpl.
  - split; [intros _; now exists s | reflexivity].
  - destruct s as [|b s]; simpl.
    + split; [discriminate | intros [rest H]; discriminate].
    + rewrite andb_true_iff, IH. split.
      * intros [Hab [rest ->]]. apply Ascii.eqb_eq in Hab. subst b. now exists rest.
      * intros [rest H]. injection H as -> ->. split; [apply Ascii.eqb_refl | now exists rest].
Qed.

Lemma includes_spec (s sub : string) :
  Js.includes s sub = true <-> Spec.Occurs sub s.
Proof.
  unfold Spec.Occurs. induction s as [|c s IH]; simpl.
  - rewrite orb_false_r, startsWith_spec. split.
    + intros [rest H]. now exists "", rest.
    + intros [pre [post H]]. destruct pre; simpl in H.
      * now exists post.
      * discriminate.
  - rewrite orb_true_iff, startsWith_spec, IH. split.
    + intros [[rest H] | [pre [post H]]].
      * now exists "", rest.
      * exists (String c pre), post. simpl. now rewrite H.
    + intros [pre [post H]]. destruct pre as [|c' pre]; simpl in H.
      * left. now exists post.
      * right. injection H as _ H. now exists pre, post.
Qed.

Lemma includes_empty (s : string) : Js.includes s "" = true.
Proof. apply includes_spec. now exists "", s. Qed.

Lemma trimStart_blank (s : string) : Spec.blank (Js.trimStart s) = Spec.blank s.
Proof.
  induction s as [|c s IH]; simpl; [reflexivity|].
  destruct (Js.isWhiteSpace c) eqn:Hc; simpl; [exact IH | now rewrite Hc].
Qed.

Lemma trimEnd_empty (s : string) : Js.trimEnd s = "" <-> Spec.blank s = true.
Proof.
  induction s as [|c s IH]; simpl; [tauto|].
  destruct (Js.trimEnd s) as [|c' t] eqn:Ht.
  - destruct (Js.isWhiteSpace c); simpl.
    + split; [intros _; now apply IH | reflexivity].
    + split; discriminate.
  - split; [discriminate|]. rewrite andb_true_iff. intros [_ Hb].
    apply IH in Hb. discriminate.
Qed.

(** [trim] leaves nothing exactly of the strings that are empty or made of
    whitespace only. *)
Lemma trim_empty_iff_blank (s : string) : Js.trim s = "" <-> Spec.blank s = true.
Proof. unfold Js.trim. now rewrite trimEnd_empty, trimStart_blank. Qed.

Lemma trim_test_blank (s : string) : negb (Js.trim s =? "") = negb (Spec.blank s).
Proof.
  f_equal. destruct (Spec.blank s) eqn:Hb.
  - apply String.eqb_eq. now apply trim_empty_iff_blank.
  - apply String.eqb_neq. intros H. apply trim_empty_iff_blank in H. congruence.
Qed.

Lemma blank_empty : Spec.blank "" = true.
Proof. reflexivity. Qed.

(** ** Lists *)

Lemma filter_Subsequence {A : Type} (f : A -> bool) (l : list A) :
  Spec.Subsequence (filter f l) l.
Proof.
  induction l as [|x l IH]; simpl; [constructor|].
  destruct (f x); now constructor.
Qed.

Lemma Subsequence_In {A : Type} (l m : list A) :
  Spec.Subsequence l m -> forall x, In x l -> In x m.
Proof.
  induction 1 as [|y l m _ IH|y l m _ IH]; intros x Hx; simpl in *; intuition.
Qed.

Lemma filter_true {A : Type} (l : list A) : filter (fun _ => true) l = l.
Proof. induction l as [|x l IH]; simpl; congruence. Qed.

(** ** The store list filter *)

Section StoreFilter.
Variable toLowerCase : string -> string.
Hypothesis toLowerCase_empty : toLowerCase "" = "".

Lemma matchesSearch_spec (s : string) (store : Store.t) :
  matchesSearch toLowerCase s store = true <-> Spec.StoreMatches toLowerCase s store.
Proof.
  unfold matchesSearch, Spec.StoreMatches, Spec.ContainsCI.
  destruct (s =? "") eqn:Hs; simpl.
  - apply String.eqb_eq in Hs. subst s. rewrite toLowerCase_empty.
    split; [intros _; left | reflexivity].
    now exists "", (toLowerCase (Store.name store)).
  - rewrite !orb_true_iff, includes_spec.
    destruct (Store.description store) as [d|], (Store.address store) as [a|];
      rewrite ?includes_spec; split.
    all: try (intros [[H | H] | H]; try discriminate; eauto 6; fail).
    all: intros [H | [[x [Hx H]] | [x [Hx H]]]]; try discriminate;
      try (injection Hx as ->); auto.
Qed.

(** C8. The store list keeps exactly the stores whose name, description or
    address contains the search string, case ignored, in their order; with the
    empty search string the list is returned whole. *)
Theorem filteredStores_search_C8 (stores : list Store.t) (s : string) :
  (forall store,
      In store (filteredStores toLowerCase (Some stores) s)
      <-> In store stores /\ Spec.StoreMatches toLowerCase s store)
  /\ Spec.Subsequence (filteredStores toLowerCase (Some stores) s) stores
  /\ filteredStores toLowerCase (Some stores) "" = stores.
Proof.
  unfold filteredStores. split; [|split].
  - intros store. rewrite filter_In, matchesSearch_spec. reflexivity.
  - apply filter_Subsequence.
  - unfold matchesSearch. simpl. apply filter_true.
Qed.
End StoreFilter.

Lemma filteredStores_search_C8_witness :
  (forall store,
      In store (filteredStores Js.latin1LowerCase
                  (Some [Sample.shop; Sample.bakery]) "MART")
      <-> In store [Sample.shop; Sample.bakery]
          /\ Spec.StoreMatches Js.latin1LowerCase "MART" store)
  /\ Spec.Subsequence
       (filteredStores Js.latin1LowerCase (Some [Sample.shop; Sample.bakery]) "MART")
       [Sample.shop; Sample.bakery]
  /\ filteredStores Js.latin1LowerCase (Some [Sample.shop; Sample.bakery]) ""
     = [Sample.shop; Sample.bakery].
Proof.
  exact (filteredStores_search_C8 Js.latin1LowerCase eq_refl
           [Sample.shop; Sample.bakery] "MART").
Defined.

Example filteredStores_by_name :
  filteredStores Js.latin1LowerCase (Some [Sample.shop; Sample.bakery]) "MART"
  = [Sample.shop].
Proof. reflexivity. Qed.

Example filteredStores_by_address :
  filteredStores Js.latin1LowerCase (Some [Sample.shop; Sample.bakery]) "dhar"
  = [Sample.bakery].
Proof. reflexivity. Qed.

Example filteredStores_not_an_array :
  filteredStores Js.latin1LowerCase None "mart" = [].
Proof. reflexivity. Qed.

(** ** Running the handlers *)

Lemma handleAddProduct_no_store (env : Env) (data : ProductForm.t) (d : Dashboard) :
  currentStore d = None ->
  handleAddProduct env data d
  = (Ret tt,
     with_toasts
       (toasts d ++ [ {| Toast.title := "Error";
                         Toast.description := Some "Please select a store first";
                         Toast.variant := Destructive |} ])%list d).
Proof. intros H. unfold handleAddProduct. rewrite H. reflexivity. Qed.

(** A save whose HTTP call resolves: the request leaves, the success is
    announced, the form returns to the default values it holds, the editing
    mode ends and the products of the store are invalidated. *)
Lemma handleAddProduct_resolved (env : Env) (data : ProductForm.t) (d : Dashboard)
    (store : Store.t) :
  currentStore d = Some store ->
  http env (Spec.saveRequest d store data) = Ret tt ->
  handleAddProduct env data d
  = (Ret tt,
     {| cache := cache d;
        invalidated :=
          (invalidated d ++ [Spec.storeProductsKey (Store.id store)])%list;
        editingProduct := None;
        activeTab := activeTab d;
        isGettingLocation := isGettingLocation d;
        form := formDefaults d;
        formDefaults := formDefaults d;
        storeForm := storeForm d;
        toasts :=
          (toasts d ++
             [ {| Toast.title :=
                    match editingProduct d with
                    | Some _ => "Product updated successfully"
                    | None => "Product added successfully"
                    end;
                  Toast.description := None; Toast.variant := Default |} ])%list;
        requests := (requests d ++ [Spec.saveRequest d store data])%list;
        fileReads := fileReads d |}).
Proof.
  intros Hs Hr. unfold handleAddProduct, Spec.saveRequest in *. rewrite Hs.
  destruct (editingProduct d) as [p|]; run_monad; simpl in Hr; rewrite Hr;
    reflexivity.
Qed.

(** A save whose HTTP call rejects: the request has left, and an error
    notification is all that changes. *)
Lemma handleAddProduct_rejected (env : Env) (data : ProductForm.t) (d : Dashboard)
    (store : Store.t) (error : JsError) :
  currentStore d = Some store ->
  http env (Spec.saveRequest d store data) = Throw error ->
  handleAddProduct env data d
  = (Ret tt,
     with_toasts (toasts d ++ [Spec.saveErrorToast error])%list
       (with_requests (requests d ++ [Spec.saveRequest d store data])%list d)).
Proof.
  intros Hs Hr. unfold handleAddProduct, Spec.saveRequest in *. rewrite Hs.
  destruct (editingProduct d) as [p|]; run_monad; simpl in Hr; rewrite Hr;
    reflexivity.
Qed.

(** Whatever the HTTP call answers, a save with a store selected issues
    exactly one request, [Spec.saveRequest]. *)
Lemma handleAddProduct_requests (env : Env) (data : ProductForm.t) (d : Dashboard)
    (store : Store.t) :
  currentStore d = Some store ->
  requests (snd (handleAddProduct env data d))
  = (requests d ++ [Spec.saveRequest d store data])%list.
Proof.
  intros Hs. destruct (http env (Spec.saveRequest d store data)) as [[]|e] eqn:Hr.
  - now rewrite (handleAddProduct_resolved _ _ _ _ Hs Hr).
  - now rewrite (handleAddProduct_rejected _ _ _ _ _ Hs Hr).
Qed.

Lemma saveRequest_body (d : Dashboard) (store : Store.t) (data : ProductForm.t) :
  Request.body (Spec.saveRequest d store data) = Some (filteredData store data).
Proof. unfold Spec.saveRequest. now destruct (editingProduct d). Qed.

(** The handler never lets an exception escape. *)
Lemma handleAddProduct_returns (env : Env) (data : ProductForm.t) (d : Dashboard) :
  fst (handleAddProduct env data d) = Ret tt.
Proof.
  destruct (currentStore d) as [store|] eqn:Hs.
  - destruct (http env (Spec.saveRequest d store data)) as [[]|e] eqn:Hr.
    + now rewrite (handleAddProduct_resolved _ _ _ _ Hs Hr).
    + now rewrite (handleAddProduct_rejected _ _ _ _ _ Hs Hr).
  - now rewrite (handleAddProduct_no_store _ _ _ Hs).
Qed.

(** ** The payload of a save *)

(** C9. When the form has [isOnOffer] false, the payload of the create or
    update request carries [offerPercentage] 0 and [offerEndDate] null,
    whatever the form holds in those fields. *)
Theorem offer_cleared_when_not_on_offer_C9 (env : Env) (data : ProductForm.t)
    (d : Dashboard) (store : Store.t) :
  currentStore d = Some store ->
  ProductForm.isOnOffer data = false ->
  exists r payload,
    requests (snd (handleAddProduct env data d)) = (requests d ++ [r])%list
    /\ Request.method r = match editingProduct d with Some _ => PUT | None => POST end
    /\ Request.body r = Some payload
    /\ Payload.isOnOffer payload = false
    /\ Payload.offerPercentage payload = 0%Z
    /\ Payload.offerEndDate payload = None.
Proof.
  intros Hs Hoff. exists (Spec.saveRequest d store data), (filteredData store data).
  split; [now apply handleAddProduct_requests|].
  split; [unfold Spec.saveRequest; now destruct (editingProduct d)|].
  split; [apply saveRequest_body|].
  unfold filteredData; simpl. rewrite Hoff. auto.
Qed.

Lemma offer_cleared_when_not_on_offer_C9_witness :
  exists r payload,
    requests (snd (handleAddProduct Sample.env Sample.staleOfferForm Sample.dashboard))
    = (requests Sample.dashboard ++ [r])%list
    /\ Request.method r
       = match editingProduct Sample.dashboard with Some _ => PUT | None => POST end
    /\ Request.body r = Some payload
    /\ Payload.isOnOffer payload = false
    /\ Payload.offerPercentage payload = 0%Z
    /\ Payload.offerEndDate payload = None.
Proof.
  exact (offer_cleared_when_not_on_offer_C9 Sample.env Sample.staleOfferForm
           Sample.dashboard Sample.shop eq_refl eq_refl).
Defined.

Lemma filteredData_images (store : Store.t) (data : ProductForm.t) :
  Payload.images (filteredData store data)
  = filter (fun img => negb (Spec.blank img)) (Js.orEmpty (ProductForm.images data)).
Proof.
  unfold filteredData; simpl. destruct (ProductForm.images data) as [l|]; simpl;
    [|reflexivity].
  apply filter_ext. intros img. apply trim_test_blank.
Qed.

Lemma blank_false_nonempty (s : string) : Spec.blank s = false -> s <> "".
Proof. intros H ->. discriminate. Qed.

(** C10. The images of the payload of a create or update request are the
    staged images without the blank ones (empty or whitespace only), in their
    order: no blank entry is sent, and no other entry is dropped. *)
Theorem payload_images_not_blank_C10 (env : Env) (data : ProductForm.t)
    (d : Dashboard) (store : Store.t) :
  currentStore d = Some store ->
  exists r payload,
    requests (snd (handleAddProduct env data d)) = (requests d ++ [r])%list
    /\ Request.body r = Some payload
    /\ Forall (fun img => img <> "" /\ Spec.blank img = false) (Payload.images payload)
    /\ Spec.Subsequence (Payload.images payload) (Js.orEmpty (ProductForm.images data))
    /\ Payload.images payload
       = filter (fun img => negb (Spec.blank img))
                (Js.orEmpty (ProductForm.images data)).
Proof.
  intros Hs. exists (Spec.saveRequest d store data), (filteredData store data).
  split; [now apply handleAddProduct_requests|].
  split; [apply saveRequest_body|].
  rewrite filteredData_images. split; [|split; [apply filter_Subsequence | reflexivity]].
  apply Forall_forall. intros img Hin. apply filter_In in Hin as [_ Hb].
  apply negb_true_iff in Hb. split; [now apply blank_false_nonempty | exact Hb].
Qed.

Lemma payload_images_not_blank_C10_witness :
  exists r payload,
    requests (snd (handleAddProduct Sample.env Sample.staleOfferForm Sample.dashboard))
    = (requests Sample.dashboard ++ [r])%list
    /\ Request.body r = Some payload
    /\ Forall (fun img => img <> "" /\ Spec.blank img = false) (Payload.images payload)
    /\ Spec.Subsequence (Payload.images payload)
         (Js.orEmpty (ProductForm.images Sample.staleOfferForm))
    /\ Payload.images payload
       = filter (fun img => negb (Spec.blank img))
                (Js.orEmpty (ProductForm.images Sample.staleOfferForm)).
Proof.
  exact (payload_images_not_blank_C10 Sample.env Sample.staleOfferForm
           Sample.dashboard Sample.shop eq_refl).
Defined.

Example payload_of_stale_offer_form :
  Payload.fields (filteredData Sample.shop Sample.staleOfferForm)
  = [ ("name", JStr "Lentils"); ("description", JNull); ("price", JStr "120");
      ("originalPrice", JNull); ("categoryId", JNum 2); ("storeId", JNum 7);
      ("stock", JNum 30); ("images", JArr [JStr "a.jpg"; JStr "b.jpg"]);
      ("isFastSell", JBool false); ("isOnOffer", JBool false);
      ("offerPercentage", JNum 0); ("offerEndDate", JNull);
      ("isActive", JBool true) ].
Proof. reflexivity. Qed.

(** A slot added by [handleAddImageUrl] and never filled is not sent: the
    payload images are those of the form before the slot was added. *)
Lemma empty_slot_not_sent (store : Store.t) (d : Dashboard) :
  Payload.images (filteredData store (form (snd (handleAddImageUrl d))))
  = Payload.images (filteredData store (form d)).
Proof.
  rewrite !filteredData_images. unfold handleAddImageUrl. run_monad.
  rewrite filter_app. simpl. apply app_nil_r.
Qed.

(** ** Invalidation after a save or a delete *)

Lemma isInvalidated_app (d : Dashboard) (fs : list QueryKey) (key : QueryKey) :
  isInvalidated (with_invalidated (invalidated d ++ fs)%list d) key
  = isInvalidated d key || existsb (fun f => queryKeyMatches f key) fs.
Proof. unfold isInvalidated; simpl. apply existsb_app. Qed.

Lemma queryKeyMatches_refl (key : QueryKey) : queryKeyMatches key key = true.
Proof.
  induction key as [|a key IH]; simpl; [reflexivity|]. rewrite IH, andb_true_r.
  destruct a; simpl; [apply String.eqb_refl | apply Z.eqb_refl].
Qed.

(** The filter of the products of one store does not reach the query of all
    products: the matching is by key element, not by string prefix. *)
Lemma storeProductsKey_misses_allProducts (storeId : Z) :
  queryKeyMatches (Spec.storeProductsKey storeId) Spec.allProductsKey = false.
Proof. reflexivity. Qed.

(** C5. A create whose HTTP call throws is handled: nothing is invalidated,
    the cached collections stay as they were, an error notification carrying
    the message is shown, and the form keeps its values. *)
Theorem failed_create_changes_nothing_C5 (env : Env) (data : ProductForm.t)
    (d : Dashboard) (store : Store.t) (error : JsError) :
  currentStore d = Some store ->
  editingProduct d = None ->
  http env {| Request.method := POST; Request.url := "/api/products";
              Request.body := Some (filteredData store data) |} = Throw error ->
  let d' := snd (handleAddProduct env data d) in
  fst (handleAddProduct env data d) = Ret tt
  /\ invalidated d' = invalidated d
  /\ (forall key, isInvalidated d' key = isInvalidated d key)
  /\ cache d' = cache d
  /\ toasts d'
     = (toasts d ++
          [ {| Toast.title := "Error";
               Toast.description := Some (messageOr error "Failed to save product");
               Toast.variant := Destructive |} ])%list
  /\ form d' = form d
  /\ editingProduct d' = None.
Proof.
  intros Hs He Hr.
  assert (Hr' : http env (Spec.saveRequest d store data) = Throw error)
    by (unfold Spec.saveRequest; now rewrite He).
  rewrite (handleAddProduct_rejected _ _ _ _ _ Hs Hr'). simpl.
  repeat split; auto.
Qed.

Lemma failed_create_changes_nothing_C5_witness :
  let env := Sample.envHttp (Throw (ErrorObj "500: Internal Server Error")) in
  let d' := snd (handleAddProduct env Sample.staleOfferForm Sample.dashboard) in
  fst (handleAddProduct env Sample.staleOfferForm Sample.dashboard) = Ret tt
  /\ invalidated d' = invalidated Sample.dashboard
  /\ (forall key, isInvalidated d' key = isInvalidated Sample.dashboard key)
  /\ cache d' = cache Sample.dashboard
  /\ toasts d'
     = (toasts Sample.dashboard ++
          [ {| Toast.title := "Error";
               Toast.description := Some "500: Internal Server Error";
               Toast.variant := Destructive |} ])%list
  /\ form d' = form Sample.dashboard
  /\ editingProduct d' = None.
Proof.
  exact (failed_create_changes_nothing_C5
           (Sample.envHttp (Throw (ErrorObj "500: Internal Server Error")))
           Sample.staleOfferForm Sample.dashboard Sample.shop
           (ErrorObj "500: Internal Server Error") eq_refl eq_refl eq_refl).
Defined.

(** A successful update invalidates the products of the store, and that
    filter alone: the query of all products is not reached by it. *)
Lemma update_invalidates_store_products_only (env : Env) (data : ProductForm.t)
    (d : Dashboard) (store : Store.t) (p : Product.t) :
  currentStore d = Some store ->
  editingProduct d = Some p ->
  http env {| Request.method := PUT;
              Request.url := "/api/products/" ++ Js.intToString (Product.id p);
              Request.body := Some (filteredData store data) |} = Ret tt ->
  let d' := snd (handleAddProduct env data d) in
  invalidated d' = (invalidated d ++ [Spec.storeProductsKey (Store.id store)])%list
  /\ isInvalidated d' (Spec.storeProductsKey (Store.id store)) = true
  /\ isInvalidated d' Spec.allProductsKey = isInvalidated d Spec.allProductsKey.
Proof.
  intros Hs He Hr.
  assert (Hr' : http env (Spec.saveRequest d store data) = Ret tt)
    by (unfold Spec.saveRequest; now rewrite He).
  rewrite (handleAddProduct_resolved _ _ _ _ Hs Hr'). simpl.
  unfold isInvalidated; simpl. rewrite !existsb_app. simpl.
  rewrite String.eqb_refl. simpl. rewrite orb_true_r, !orb_false_r. auto.
Qed.

Lemma handleDeleteProduct_declined (env : Env) (productId : Z) (d : Dashboard) :
  confirm env "Are you sure you want to delete this product?" = false ->
  handleDeleteProduct env productId d = (Ret tt, d).
Proof. intros H. unfold handleDeleteProduct. now rewrite H. Qed.

(** A delete whose HTTP call resolves announces the success and, with a
    store selected, invalidates both product descriptors. *)
Lemma handleDeleteProduct_resolved (env : Env) (productId : Z) (d : Dashboard) :
  confirm env "Are you sure you want to delete this product?" = true ->
  http env (Spec.deleteRequest productId) = Ret tt ->
  handleDeleteProduct env productId d
  = (Ret tt,
     with_invalidated
       (invalidated d ++
          match currentStore d with
          | Some store => [Spec.storeProductsKey (Store.id store); Spec.allProductsKey]
          | None => []
          end)%list
       (with_toasts (toasts d ++ [Spec.deleteSuccessToast])%list
          (with_requests (requests d ++ [Spec.deleteRequest productId])%list d))).
Proof.
  intros Hc Hr. unfold handleDeleteProduct, Spec.deleteRequest in *. rewrite Hc.
  run_monad. simpl in Hr. rewrite Hr.
  destruct (currentStore d) as [store|]; simpl.
  - unfold with_invalidated; simpl. now rewrite <- app_assoc.
  - unfold with_invalidated; simpl. now rewrite app_nil_r.
Qed.

(** A delete whose HTTP call rejects, whatever the error: the request has
    left, and the fixed error notification is all that changes. *)
Lemma handleDeleteProduct_rejected (env : Env) (productId : Z) (d : Dashboard)
    (error : JsError) :
  confirm env "Are you sure you want to delete this product?" = true ->
  http env (Spec.deleteRequest productId) = Throw error ->
  handleDeleteProduct env productId d
  = (Ret tt,
     with_toasts (toasts d ++ [Spec.deleteErrorToast])%list
       (with_requests (requests d ++ [Spec.deleteRequest productId])%list d)).
Proof.
  intros Hc Hr. unfold handleDeleteProduct, Spec.deleteRequest in *. rewrite Hc.
  run_monad. simpl in Hr. now rewrite Hr.
Qed.

(** C3. The specification asks a successful product update to invalidate
    both the products of the store and the list of all products.  On the
    update of the sample product the handler returns, announces the update
    and invalidates /api/products/store/7 only: the query /api/products is not
    marked stale.  The delete handler, next to it, invalidates both. *)
Theorem update_leaves_all_products_fresh_C3 :
  let d := with_editingProduct (Some Sample.rice) Sample.dashboard in
  let d' := snd (handleAddProduct Sample.env (editValues Sample.rice) d) in
  fst (handleAddProduct Sample.env (editValues Sample.rice) d) = Ret tt
  /\ map Toast.title (toasts d') = ["Product updated successfully"]
  /\ invalidated d' = [[KStr "/api/products/store/7"]]
  /\ isInvalidated d' (Spec.storeProductsKey 7) = true
  /\ isInvalidated d' Spec.allProductsKey = false
  /\ invalidated (snd (handleDeleteProduct Sample.env 42 Sample.dashboard))
     = [[KStr "/api/products/store/7"]; [KStr "/api/products"]]
  /\ isInvalidated (snd (handleDeleteProduct Sample.env 42 Sample.dashboard))
       Spec.allProductsKey = true.
Proof.
  intros d d'.
  destruct (update_invalidates_store_products_only Sample.env
              (editValues Sample.rice) d Sample.shop Sample.rice
              eq_refl eq_refl eq_refl) as (Hinv & Hstore & Hall).
  fold d' in Hinv, Hstore, Hall.
  split; [apply handleAddProduct_returns|].
  split; [reflexivity|].
  split; [exact Hinv|].
  split; [exact Hstore|].
  split; [rewrite Hall; reflexivity|].
  rewrite (handleDeleteProduct_resolved Sample.env 42 Sample.dashboard eq_refl eq_refl).
  split; reflexivity.
Qed.

(** ** Deleting a product that is gone *)

Lemma handleDeleteProduct_returns (env : Env) (productId : Z) (d : Dashboard) :
  fst (handleDeleteProduct env productId d) = Ret tt.
Proof.
  destruct (confirm env "Are you sure you want to delete this product?") eqn:Hc.
  - destruct (http env (Spec.deleteRequest productId)) as [[]|e] eqn:Hr.
    + now rewrite (handleDeleteProduct_resolved _ _ _ Hc Hr).
    + now rewrite (handleDeleteProduct_rejected _ _ _ _ Hc Hr).
  - now rewrite (handleDeleteProduct_declined _ _ _ Hc).
Qed.

(** C7, as stated, fails: when the delete of a product that is gone is
    rejected by the HTTP call, the handler takes the failure path.  It shows
    the error notification and not the success one, invalidates nothing, and
    ends in another state than a delete that succeeded. *)
Lemma delete_of_missing_product_is_a_failure_C7 :
  let env := Sample.envHttp (Throw (ErrorObj "404: Product not found")) in
  let d' := snd (handleDeleteProduct env 42 Sample.dashboard) in
  toasts d' = [Spec.deleteErrorToast]
  /\ existsb Toast.isError (toasts d') = true
  /\ ~ In Spec.deleteSuccessToast (toasts d')
  /\ invalidated d' = []
  /\ toasts (snd (handleDeleteProduct Sample.env 42 Sample.dashboard))
     = [Spec.deleteSuccessToast].
Proof.
  intros env d'. subst d'.
  rewrite (handleDeleteProduct_rejected env 42 Sample.dashboard
             (ErrorObj "404: Product not found") eq_refl eq_refl).
  rewrite (handleDeleteProduct_resolved Sample.env 42 Sample.dashboard eq_refl eq_refl).
  simpl. repeat split; auto.
  intros [H | []]. discriminate H.
Qed.

(** C7, amended.  A delete that the HTTP call rejects, for a product that is
    gone as for any other reason, raises nothing: the handler returns, the
    request has left, the fixed error notification is shown, nothing is
    invalidated and the cached collections stay.  The error itself plays no
    part: two rejected deletes of the same product end alike. *)
Theorem rejected_delete_is_handled_C7 (env : Env) (productId : Z) (d : Dashboard)
    (error : JsError) :
  confirm env "Are you sure you want to delete this product?" = true ->
  http env (Spec.deleteRequest productId) = Throw error ->
  let d' := snd (handleDeleteProduct env productId d) in
  fst (handleDeleteProduct env productId d) = Ret tt
  /\ requests d' = (requests d ++ [Spec.deleteRequest productId])%list
  /\ toasts d' = (toasts d ++ [Spec.deleteErrorToast])%list
  /\ invalidated d' = invalidated d
  /\ cache d' = cache d
  /\ (forall env' error',
         confirm env' "Are you sure you want to delete this product?" = true ->
         http env' (Spec.deleteRequest productId) = Throw error' ->
         handleDeleteProduct env' productId d = handleDeleteProduct env productId d).
Proof.
  intros Hc Hr.
  rewrite (handleDeleteProduct_rejected _ _ _ _ Hc Hr). simpl.
  repeat split; auto.
  intros env' error' Hc' Hr'. now rewrite (handleDeleteProduct_rejected _ _ _ _ Hc' Hr').
Qed.

Lemma rejected_delete_is_handled_C7_witness :
  let env := Sample.envHttp (Throw (ErrorObj "404: Product not found")) in
  let d' := snd (handleDeleteProduct env 42 Sample.dashboard) in
  fst (handleDeleteProduct env 42 Sample.dashboard) = Ret tt
  /\ requests d' = (requests Sample.dashboard ++ [Spec.deleteRequest 42])%list
  /\ toasts d' = (toasts Sample.dashboard ++ [Spec.deleteErrorToast])%list
  /\ invalidated d' = invalidated Sample.dashboard
  /\ cache d' = cache Sample.dashboard
  /\ (forall env' error',
         confirm env' "Are you sure you want to delete this product?" = true ->
         http env' (Spec.deleteRequest 42) = Throw error' ->
         handleDeleteProduct env' 42 Sample.dashboard
         = handleDeleteProduct env 42 Sample.dashboard).
Proof.
  exact (rejected_delete_is_handled_C7
           (Sample.envHttp (Throw (ErrorObj "404: Product not found")))
           42 Sample.dashboard (ErrorObj "404: Product not found") eq_refl eq_refl).
Defined.

(** ** Staging an uploaded image *)

Lemma handleFileUpload_too_large (env : Env) (file : File.t) (rest : list File.t)
    (d : Dashboard) :
  (File.size file > Spec.sizeCeiling)%Z ->
  handleFileUpload env (Some (file :: rest)) d
  = (Ret tt,
     with_toasts
       (toasts d ++ [ {| Toast.title := "File too large";
                         Toast.description :=
                           Some "Please select an image smaller than 2MB";
                         Toast.variant := Destructive |} ])%list d).
Proof.
  intros Hsize. unfold handleFileUpload. cbn [hd_error Js.orEmpty]. unfold tryCatch.
  change (2 * 1024 * 1024)%Z with Spec.sizeCeiling.
  apply Z.gt_lt, Z.gtb_lt in Hsize. now rewrite Hsize.
Qed.

Lemma handleFileUpload_not_an_image (env : Env) (file : File.t) (rest : list File.t)
    (d : Dashboard) :
  (File.size file <= Spec.sizeCeiling)%Z ->
  Js.startsWith (File.type file) "image/" = false ->
  handleFileUpload env (Some (file :: rest)) d
  = (Ret tt,
     with_toasts
       (toasts d ++ [ {| Toast.title := "Please upload an image file";
                         Toast.description := None;
                         Toast.variant := Destructive |} ])%list d).
Proof.
  intros Hsize Htype. unfold handleFileUpload. cbn [hd_error Js.orEmpty].
  unfold tryCatch. change (2 * 1024 * 1024)%Z with Spec.sizeCeiling.
  assert (Hle : (File.size file >? Spec.sizeCeiling)%Z = false)
    by (rewrite Z.gtb_ltb; now apply Z.ltb_ge).
  now rewrite Hle, Htype.
Qed.

(** C6. A selected file above the 2MB ceiling, or whose content type does not
    start with image/, is rejected: the handler returns, no file reaches the
    reader, the staged images stay as they were, and the one change to the
    dashboard is an error notification. *)
Theorem rejected_upload_changes_nothing_C6 (env : Env) (file : File.t)
    (rest : list File.t) (d : Dashboard) :
  (File.size file > Spec.sizeCeiling)%Z
  \/ Js.startsWith (File.type file) "image/" = false ->
  let d' := snd (handleFileUpload env (Some (file :: rest)) d) in
  fst (handleFileUpload env (Some (file :: rest)) d) = Ret tt
  /\ fileReads d' = fileReads d
  /\ ProductForm.images (form d') = ProductForm.images (form d)
  /\ exists t,
       d' = with_toasts (toasts d ++ [t])%list d
       /\ Toast.isError t = true
       /\ ((File.size file > Spec.sizeCeiling)%Z -> Toast.title t = "File too large").
Proof.
  intros H.
  destruct (Z_gt_le_dec (File.size file) Spec.sizeCeiling) as [Hgt | Hle].
  - rewrite (handleFileUpload_too_large _ _ _ _ Hgt). simpl.
    repeat split; auto. eexists. repeat split; reflexivity.
  - destruct H as [Hgt | Htype]; [lia|].
    rewrite (handleFileUpload_not_an_image _ _ _ _ Hle Htype). simpl.
    repeat split; auto. eexists. split; [reflexivity|]. split; [reflexivity|]. lia.
Qed.

Lemma rejected_upload_changes_nothing_C6_witness :
  let d' := snd (handleFileUpload Sample.env (Some [Sample.photo3MB]) Sample.dashboard) in
  fst (handleFileUpload Sample.env (Some [Sample.photo3MB]) Sample.dashboard) = Ret tt
  /\ fileReads d' = fileReads Sample.dashboard
  /\ ProductForm.images (form d') = ProductForm.images (form Sample.dashboard)
  /\ exists t,
       d' = with_toasts (toasts Sample.dashboard ++ [t])%list Sample.dashboard
       /\ Toast.isError t = true
       /\ ((File.size Sample.photo3MB > Spec.sizeCeiling)%Z
           -> Toast.title t = "File too large").
Proof.
  exact (rejected_upload_changes_nothing_C6 Sample.env Sample.photo3MB []
           Sample.dashboard (or_introl eq_refl)).
Defined.

Example upload_of_a_pdf_rejected :
  snd (handleFileUpload Sample.env (Some [Sample.leaflet]) Sample.dashboard)
  = with_toasts [ {| Toast.title := "Please upload an image file";
                     Toast.description := None; Toast.variant := Destructive |} ]
      Sample.dashboard.
Proof. reflexivity. Qed.

Example upload_of_a_small_image_staged :
  let d' := snd (handleFileUpload Sample.env (Some [Sample.thumbnail]) Sample.dashboard) in
  ProductForm.images (form d') = Some ["data:image/png;base64,AAAA"]
  /\ fileReads d' = [Sample.thumbnail] /\ toasts d' = [].
Proof. repeat split. Qed.

Example upload_at_the_ceiling_accepted (env : Env) (d : Dashboard) :
  fileReads
    (snd (handleFileUpload env
            (Some [ {| File.name := "edge.png"; File.size := 2097152;
                       File.type := "image/png" |} ]) d))
  = (fileReads d ++ [ {| File.name := "edge.png"; File.size := 2097152;
                         File.type := "image/png" |} ])%list.
Proof.
  unfold handleFileUpload; simpl. run_monad.
  destruct (readAsDataURL env _) as [b|]; [|reflexivity].
  destruct (Js.truthy b); reflexivity.
Qed.

(** ** Locating the store *)

Section GetLocation.
Variable numberToString : float -> string.
Variable toFixed : float -> nat -> string.

Lemma handleGetLocation_unsupported (env : Env) (d : Dashboard) :
  geolocation env = None ->
  handleGetLocation numberToString toFixed env d
  = (Ret tt,
     with_toasts
       (toasts d ++
          [ {| Toast.title := "Error";
               Toast.description :=
                 Some "Geolocation is not supported by this browser";
               Toast.variant := Destructive |} ])%list d).
Proof. intros H. unfold handleGetLocation. now rewrite H. Qed.

(** No position: the error is announced and the store form is not touched. *)
Lemma handleGetLocation_denied (env : Env) (d : Dashboard) (error : JsError) :
  geolocation env = Some (Throw error) ->
  handleGetLocation numberToString toFixed env d
  = (Ret tt,
     with_isGettingLocation false
       (with_toasts
          (toasts d ++
             [ {| Toast.title := "Error getting location";
                  Toast.description :=
                    Some "Please ensure location access is enabled and try again";
                  Toast.variant := Destructive |} ])%list d)).
Proof. intros H. unfold handleGetLocation. now rewrite H. Qed.

(** A position is obtained: the coordinates and the map link are written,
    then the address according to the answer of the geocoding service. *)
Lemma handleGetLocation_located (env : Env) (d : Dashboard) (coords : Coords.t) :
  geolocation env = Some (Ret coords) ->
  let lat := numberToString (Coords.latitude coords) in
  let lon := numberToString (Coords.longitude coords) in
  let located :=
    StoreForm.set_googleMapsLink ("https://maps.google.com/?q=" ++ lat ++ "," ++ lon)
      (StoreForm.set_longitude lon (StoreForm.set_latitude lat (storeForm d))) in
  handleGetLocation numberToString toFixed env d
  = (Ret tt,
     with_isGettingLocation false
       (with_toasts
          (toasts d ++
             [ {| Toast.title := "Location obtained successfully";
                  Toast.description :=
                    Some ("Coordinates: " ++ toFixed (Coords.latitude coords) 6
                            ++ ", " ++ toFixed (Coords.longitude coords) 6)%string;
                  Toast.variant := Default |} ])%list
          (with_storeForm
             match fetchJson env (Spec.geocodeUrl lat lon) with
             | Ret (Nominatim.Obj data) =>
                 if Js.truthyOpt (Nominatim.display_name data)
                 then StoreForm.set_address (formatAddress data) located
                 else located
             | Ret Nominatim.Null | Throw _ =>
                 StoreForm.set_address Spec.addressFallback located
             end d))).
Proof.
  intros H lat lon located. unfold handleGetLocation. rewrite H.
  subst lat lon located. unfold Spec.geocodeUrl.
  cbv beta iota zeta delta
    [tryCatch tryFinally bind ret throw await modify toast setIsGettingLocation
       storeFormSetValue].
  destruct (fetchJson env _) as [[|data]|e];
    try destruct (Js.truthyOpt (Nominatim.display_name data)); reflexivity.
Qed.

(** C2, amended.  Once a position is obtained the handler returns, the
    latitude and longitude fields hold the printed coordinates, and the map
    link is https://maps.google.com/?q=<latitude>,<longitude>, whatever the
    geocoding service answers; for coordinates printed 26.7271 and 87.2751 it
    is https://maps.google.com/?q=26.7271,87.2751.  The address becomes the
    fixed fallback when the geocoding call throws; an answer without
    display_name leaves the address as it was. *)
Theorem location_fields_C2 (env : Env) (d : Dashboard) (coords : Coords.t) :
  geolocation env = Some (Ret coords) ->
  let lat := numberToString (Coords.latitude coords) in
  let lon := numberToString (Coords.longitude coords) in
  let d' := snd (handleGetLocation numberToString toFixed env d) in
  fst (handleGetLocation numberToString toFixed env d) = Ret tt
  /\ StoreForm.latitude (storeForm d') = Some lat
  /\ StoreForm.longitude (storeForm d') = Some lon
  /\ StoreForm.googleMapsLink (storeForm d')
     = Some ("https://maps.google.com/?q=" ++ lat ++ "," ++ lon)
  /\ (lat = "26.7271" -> lon = "87.2751" ->
      StoreForm.googleMapsLink (storeForm d')
      = Some "https://maps.google.com/?q=26.7271,87.2751")
  /\ (forall error,
         fetchJson env (Spec.geocodeUrl lat lon) = Throw error ->
         StoreForm.address (storeForm d') = Spec.addressFallback)
  /\ (forall data,
         fetchJson env (Spec.geocodeUrl lat lon) = Ret (Nominatim.Obj data) ->
         Js.truthyOpt (Nominatim.display_name data) = false ->
         StoreForm.address (storeForm d') = StoreForm.address (storeForm d)).
Proof.
  intros H lat lon d'. subst d'.
  rewrite (handleGetLocation_located env d coords H). fold lat lon.
  cbn [fst snd storeForm with_isGettingLocation with_toasts with_storeForm].
  set (located :=
         StoreForm.set_googleMapsLink ("https://maps.google.com/?q=" ++ lat ++ "," ++ lon)
           (StoreForm.set_longitude lon (StoreForm.set_latitude lat (storeForm d)))).
  destruct (fetchJson env (Spec.geocodeUrl lat lon)) as [[|data]|e] eqn:Hf.
  - repeat split; try discriminate. intros -> ->. reflexivity.
  - destruct (Js.truthyOpt (Nominatim.display_name data)) eqn:Hn.
    + repeat split; try discriminate.
      * intros -> ->. reflexivity.
      * intros data' Hd Hn'. injection Hd as <-. congruence.
    + repeat split; try discriminate. intros -> ->. reflexivity.
  - repeat split; try discriminate. intros -> ->. reflexivity.
Qed.
End GetLocation.

Lemma location_fields_C2_witness :
  let env := Sample.envGeocode (Ret (Nominatim.Obj Sample.unableToGeocode)) in
  let d' :=
    snd (handleGetLocation Sample.numberToString Sample.toFixed env
           Sample.typedAddress) in
  StoreForm.latitude (storeForm d') = Some "26.7271"
  /\ StoreForm.longitude (storeForm d') = Some "87.2751"
  /\ StoreForm.googleMapsLink (storeForm d')
     = Some "https://maps.google.com/?q=26.7271,87.2751"
  /\ StoreForm.address (storeForm d') = "Main Road, Itahari".
Proof.
  intros env d'.
  destruct (location_fields_C2 Sample.numberToString Sample.toFixed env
              Sample.typedAddress
              {| Coords.latitude := 26.7271; Coords.longitude := 87.2751 |}
              eq_refl)
    as (_ & Hlat & Hlon & _ & Hlink & _ & Hsame).
  split; [exact Hlat|]. split; [exact Hlon|].
  split; [apply Hlink; vm_compute; reflexivity|].
  exact (Hsame Sample.unableToGeocode eq_refl eq_refl).
Defined.

(** C2, as stated, fails: the geocoding service answers without display_name,
    and the address typed before is still in the form, not the fallback; the
    coordinates and the map link are set. *)
Lemma no_display_name_keeps_address_C2 :
  let env := Sample.envGeocode (Ret (Nominatim.Obj Sample.unableToGeocode)) in
  let d' :=
    snd (handleGetLocation Sample.numberToString Sample.toFixed env
           Sample.typedAddress) in
  Nominatim.display_name Sample.unableToGeocode = None
  /\ StoreForm.address (storeForm d') = "Main Road, Itahari"
  /\ StoreForm.address (storeForm d') <> Spec.addressFallback
  /\ StoreForm.latitude (storeForm d') = Some "26.7271"
  /\ StoreForm.longitude (storeForm d') = Some "87.2751"
  /\ StoreForm.googleMapsLink (storeForm d')
     = Some "https://maps.google.com/?q=26.7271,87.2751".
Proof.
  vm_compute. repeat split. discriminate.
Qed.

Example geocoding_throws_sets_fallback :
  let env := Sample.envGeocode (Throw (ErrorObj "Failed to fetch")) in
  let d' :=
    snd (handleGetLocation Sample.numberToString Sample.toFixed env
           Sample.typedAddress) in
  StoreForm.address (storeForm d')
  = "Location coordinates set but address lookup failed"
  /\ StoreForm.googleMapsLink (storeForm d')
     = Some "https://maps.google.com/?q=26.7271,87.2751".
Proof. vm_compute. split; reflexivity. Qed.

Example geocoding_answer_formats_address :
  let d' :=
    snd (handleGetLocation Sample.numberToString Sample.toFixed Sample.env
           Sample.typedAddress) in
  StoreForm.address (storeForm d') = "12 Main Road, Itahari, Sunsari, Koshi, Nepal"
  /\ map Toast.description (toasts d') = [Some "Coordinates: 26.727100, 87.275100"]
  /\ isGettingLocation d' = false.
Proof. vm_compute. repeat split. Qed.

(** ** Editing a product and saving it unchanged *)

(** The dashboard once [handleEditProduct] has loaded a product. *)
Lemma handleEditProduct_run (p : Product.t) (d : Dashboard) :
  handleEditProduct p d
  = (Ret tt,
     with_activeTab "add-product"
       (with_formDefaults (editValues p)
          (with_form (editValues p) (with_editingProduct (Some p) d)))).
Proof. reflexivity. Qed.

Lemma editUnchanged_run (parseFloat : string -> float) (env : Env) (p : Product.t)
    (d : Dashboard) :
  Spec.editUnchanged parseFloat env p d
  = let d1 := snd (handleEditProduct p d) in
    if productSchema parseFloat (editValues p)
    then handleAddProduct env (editValues p) d1
    else (Ret tt, d1).
Proof. reflexivity. Qed.

(** The update request of an unchanged edit that the schema accepts. *)
Lemma editUnchanged_requests (parseFloat : string -> float) (env : Env)
    (p : Product.t) (d : Dashboard) (store : Store.t) :
  currentStore d = Some store ->
  productSchema parseFloat (editValues p) = true ->
  requests (snd (Spec.editUnchanged parseFloat env p d))
  = (requests d ++
       [ {| Request.method := PUT;
            Request.url := "/api/products/" ++ Js.intToString (Product.id p);
            Request.body := Some (filteredData store (editValues p)) |} ])%list.
Proof.
  intros Hs Hv. rewrite editUnchanged_run. cbv zeta. rewrite Hv.
  rewrite handleEditProduct_run. cbn [snd].
  set (d1 := with_activeTab "add-product" _).
  assert (Hs1 : currentStore d1 = Some store) by exact Hs.
  now rewrite (handleAddProduct_requests env (editValues p) d1 store Hs1).
Qed.

(** An unchanged edit that the schema rejects sends nothing. *)
Lemma editUnchanged_rejected (parseFloat : string -> float) (env : Env)
    (p : Product.t) (d : Dashboard) :
  productSchema parseFloat (editValues p) = false ->
  requests (snd (Spec.editUnchanged parseFloat env p d)) = requests d.
Proof.
  intros Hv. rewrite editUnchanged_run. cbv zeta. now rewrite Hv.
Qed.

Lemma filter_all {A : Type} (f : A -> bool) (l : list A) :
  forallb f l = true -> filter f l = l.
Proof.
  induction l as [|x l IH]; simpl; [reflexivity|].
  rewrite andb_true_iff. intros [Hx Hl]. now rewrite Hx, IH.
Qed.

Lemma edit_keeps_text (o : option string) :
  match o with Some s => Js.truthy s && (Js.trim s =? s) | None => true end = true ->
  Js.orNull (option_map Js.trim (Some (Js.orStr o ""))) = o.
Proof.
  destruct o as [s|]; simpl; [|reflexivity].
  rewrite andb_true_iff. intros [Ht He]. apply String.eqb_eq in He.
  now rewrite Ht, He, Ht.
Qed.

Lemma edit_keeps_price (o : option string) :
  match o with Some s => Js.truthy s | None => true end = true ->
  Js.orNull (Some (Js.orStr o "")) = o.
Proof.
  destruct o as [s|]; simpl; [|reflexivity]. intros Ht. now rewrite Ht, Ht.
Qed.

Lemma orNum_zero (o : option Z) :
  match o with Some _ => true | None => false end = true ->
  Some (Js.orNum o 0) = o.
Proof.
  destruct o as [v|]; simpl; [intros _|discriminate].
  destruct (v =? 0)%Z eqn:Hv; [|reflexivity]. apply Z.eqb_eq in Hv. now subst.
Qed.

Lemma orNum_idem (v : Z) : Js.orNum (Some v) 0 = v.
Proof.
  simpl. destruct (v =? 0)%Z eqn:Hv; [|reflexivity]. apply Z.eqb_eq in Hv. now subst.
Qed.

(** On a normalised product of the current store, the payload built from the
    values loaded for editing agrees with the product on every payload key. *)
Lemma filteredData_editValues (store : Store.t) (p : Product.t) :
  Product.storeId p = Store.id store ->
  Spec.normalised p = true ->
  forall k, In k Spec.payloadKeys ->
    getField k (Payload.fields (filteredData store (editValues p)))
    = getField k (productFields p).
Proof.
  intros Hstore Hn. unfold Spec.normalised in Hn.
  repeat (apply andb_true_iff in Hn; destruct Hn as [Hn ?]).
  match goal with H : Product.isActive p = true |- _ => rename H into Hactive end.
  match goal with
  | H : match Product.isOnOffer p with _ => _ end = true |- _ => rename H into Hoffer
  end.
  match goal with
  | H : match Product.images p with _ => _ end = true |- _ => rename H into Himg
  end.
  apply String.eqb_eq in Hn.
  assert (Himages : Payload.images (filteredData store (editValues p))
                    = Js.orEmpty (Product.images p)).
  { rewrite filteredData_images. simpl. destruct (Product.images p) as [l|];
      [now apply filter_all | discriminate]. }
  intros k Hk. unfold Spec.payloadKeys in Hk. simpl in Hk.
  repeat (destruct Hk as [<- | Hk]); try contradiction;
    cbn [getField Payload.fields productFields String.eqb Ascii.eqb Bool.eqb].
  - (* name *) payload_field. now rewrite Hn.
  - (* description *) payload_field. now rewrite edit_keeps_text.
  - (* price *) reflexivity.
  - (* originalPrice *) payload_field. now rewrite edit_keeps_price.
  - (* categoryId *) payload_field. now rewrite <- (orNum_zero (Product.categoryId p)) at 2.
  - (* storeId *) payload_field. now rewrite Hstore.
  - (* stock *)
    payload_field.
    rewrite orNum_idem. now rewrite <- (orNum_zero (Product.stock p)) at 2.
  - (* images *)
    rewrite Himages. destruct (Product.images p); [reflexivity | discriminate].
  - (* isFastSell *) payload_field. destruct (Product.isFastSell p); [reflexivity | discriminate].
  - (* isOnOffer *)
    payload_field.
    destruct (Product.isOnOffer p) as [[|]|]; try reflexivity; discriminate.
  - (* offerPercentage *)
    payload_field.
    destruct (Product.isOnOffer p) as [[|]|]; try discriminate;
      cbn [Js.orFalse JOptNum JOptStr JOptBool].
    + rewrite orNum_idem.
      destruct (Product.offerPercentage p) as [v|]; [|discriminate].
      now rewrite <- (orNum_zero (Some v)) at 2.
    + destruct (Product.offerPercentage p) as [[| |]|]; try discriminate. reflexivity.
  - (* offerEndDate *)
    payload_field.
    destruct (Product.isOnOffer p) as [[|]|]; try discriminate;
      cbn [Js.orFalse JOptNum JOptStr JOptBool].
    + destruct (Product.offerPercentage p) as [v|]; [|discriminate].
      rewrite edit_keeps_price; [reflexivity|].
      destruct (Product.offerEndDate p); [exact Hoffer | reflexivity].
    + destruct (Product.offerPercentage p) as [[| |]|]; try discriminate.
      destruct (Product.offerEndDate p); [discriminate | reflexivity].
  - (* isActive *) payload_field. now rewrite Hactive.
Qed.

(** C4, as stated, fails: the sample product taken off sale is opened for
    editing and saved unchanged.  The schema accepts the loaded values; the
    update request says the product is active, and carries no tags at all. *)
Lemma unchanged_edit_alters_product_C4 :
  let d' :=
    snd (Spec.editUnchanged Sample.parseFloat Sample.env Sample.retired
           Sample.dashboard) in
  exists payload,
    requests d'
    = [ {| Request.method := PUT; Request.url := "/api/products/42";
           Request.body := Some payload |} ]
    /\ getField "isActive" (productFields Sample.retired) = Some (JBool false)
    /\ getField "isActive" (Payload.fields payload) = Some (JBool true)
    /\ getField "tags" (productFields Sample.retired) = Some (JArr [JStr "rice"])
    /\ getField "tags" (Payload.fields payload) = None.
Proof.
  intros d'. subst d'.
  rewrite (editUnchanged_requests Sample.parseFloat Sample.env Sample.retired
             Sample.dashboard Sample.shop eq_refl);
    [|now vm_compute].
  eexists. split; [reflexivity|]. repeat split.
Qed.

(** C4, amended.  Take a product of the current store that is normalised
    (texts trimmed and not empty when present, numbers and flags present, no
    blank image entry, offer fields cleared when not on offer, active); it is
    opened for editing and the form is submitted unchanged.  When the schema
    of the form accepts the loaded values (a name, a price and a non-empty
    original price that parse to a number above 0 and at most 99999999.99, a
    category of at least 1, a stock of at least 0, an offer percentage from 0
    to 100), one update request is sent, whose payload agrees with the
    product on name, description, price, originalPrice, categoryId, storeId,
    stock, images, isFastSell, isOnOffer, offerPercentage, offerEndDate and
    isActive.  When the schema rejects them, no request is sent. *)
Theorem unchanged_edit_round_trips_C4 (parseFloat : string -> float) (env : Env)
    (p : Product.t) (d : Dashboard) (store : Store.t) :
  currentStore d = Some store ->
  Product.storeId p = Store.id store ->
  Spec.normalised p = true ->
  let d' := snd (Spec.editUnchanged parseFloat env p d) in
  if productSchema parseFloat (editValues p)
  then exists payload,
         requests d'
         = (requests d ++
              [ {| Request.method := PUT;
                   Request.url := "/api/products/" ++ Js.intToString (Product.id p);
                   Request.body := Some payload |} ])%list
         /\ forall k, In k Spec.payloadKeys ->
              getField k (Payload.fields payload) = getField k (productFields p)
  else requests d' = requests d.
Proof.
  intros Hs Hstore Hn d'. subst d'.
  destruct (productSchema parseFloat (editValues p)) eqn:Hv.
  - exists (filteredData store (editValues p)).
    split; [now apply editUnchanged_requests|].
    now apply filteredData_editValues.
  - now apply editUnchanged_rejected.
Qed.

Lemma unchanged_edit_round_trips_C4_witness :
  exists payload,
    requests
      (snd (Spec.editUnchanged Sample.parseFloat Sample.env Sample.rice
              Sample.dashboard))
    = (requests Sample.dashboard ++
         [ {| Request.method := PUT;
              Request.url := "/api/products/" ++ Js.intToString (Product.id Sample.rice);
              Request.body := Some payload |} ])%list
    /\ forall k, In k Spec.payloadKeys ->
         getField k (Payload.fields payload) = getField k (productFields Sample.rice).
Proof.
  exact (unchanged_edit_round_trips_C4 Sample.parseFloat Sample.env Sample.rice
           Sample.dashboard Sample.shop eq_refl eq_refl eq_refl).
Defined.

(** The schema turns away a normalised product whose price is zero: opened
    for editing and submitted unchanged, it sends nothing. *)
Example unchanged_edit_of_unpriced_sends_nothing :
  Spec.normalised Sample.unpriced = true
  /\ productSchema Sample.parseFloat (editValues Sample.unpriced) = false
  /\ requests
       (snd (Spec.editUnchanged Sample.parseFloat Sample.env Sample.unpriced
               Sample.dashboard))
     = [].
Proof. now vm_compute. Qed.

Example unchanged_edit_payload_of_rice :
  Payload.fields (filteredData Sample.shop (editValues Sample.rice))
  = [ ("name", JStr "Basmati rice"); ("description", JStr "5 kg bag");
      ("price", JStr "850.00"); ("originalPrice", JStr "900.00");
      ("categoryId", JNum 2); ("storeId", JNum 7); ("stock", JNum 12);
      ("images", JArr [JStr "https://cdn.example/rice.jpg"]);
      ("isFastSell", JBool false); ("isOnOffer", JBool true);
      ("offerPercentage", JNum 5); ("offerEndDate", JStr "2025-12-31");
      ("isActive", JBool true) ].
Proof. reflexivity. Qed.

(** ** The handlers leave the cached collections alone *)

Create HintDb keeps.

Lemma keeps_ret {A : Type} (a : A) : Spec.KeepsCache (ret a).
Proof. intros d. reflexivity. Qed.

Lemma keeps_throw {A : Type} (e : JsError) : Spec.KeepsCache (@throw A e).
Proof. intros d. reflexivity. Qed.

Lemma keeps_await {A : Type} (r : Outcome A) : Spec.KeepsCache (await r).
Proof. intros d. reflexivity. Qed.

Lemma keeps_modify (f : Dashboard -> Dashboard) :
  (forall d, cache (f d) = cache d) -> Spec.KeepsCache (modify f).
Proof. intros H d. apply H. Qed.

Lemma keeps_bind {A B : Type} (c : M A) (k : A -> M B) :
  Spec.KeepsCache c -> (forall a, Spec.KeepsCache (k a)) -> Spec.KeepsCache (bind c k).
Proof.
  intros Hc Hk d. unfold bind. specialize (Hc d).
  destruct (c d) as [[a|e] d1]; simpl in *; [now rewrite Hk | exact Hc].
Qed.

Lemma keeps_tryCatch {A : Type} (c : M A) (h : JsError -> M A) :
  Spec.KeepsCache c -> (forall e, Spec.KeepsCache (h e)) -> Spec.KeepsCache (tryCatch c h).
Proof.
  intros Hc Hh d. unfold tryCatch. specialize (Hc d).
  destruct (c d) as [[a|e] d1]; simpl in *; [exact Hc | now rewrite Hh].
Qed.

Lemma keeps_tryFinally {A : Type} (c : M A) (f : M unit) :
  Spec.KeepsCache c -> Spec.KeepsCache f -> Spec.KeepsCache (tryFinally c f).
Proof.
  intros Hc Hf d. unfold tryFinally. specialize (Hc d).
  destruct (c d) as [r d1]. specialize (Hf d1).
  destruct (f d1) as [[u|e] d2]; simpl in *; congruence.
Qed.

#[local] Hint Resolve keeps_ret keeps_throw keeps_await keeps_bind keeps_tryCatch
  keeps_tryFinally : keeps.

Lemma keeps_toast (x : Toast.t) : Spec.KeepsCache (toast x).
Proof. now apply keeps_modify. Qed.

Lemma keeps_invalidateQueries (k : QueryKey) : Spec.KeepsCache (invalidateQueries k).
Proof. now apply keeps_modify. Qed.

Lemma keeps_call (env : Env) (r : Request.t) : Spec.KeepsCache (call env r).
Proof. unfold call. apply keeps_bind; [now apply keeps_modify | auto with keeps]. Qed.

Lemma keeps_formReset (v : ProductForm.t) : Spec.KeepsCache (formReset v).
Proof. now apply keeps_modify. Qed.

Lemma keeps_formResetToDefaults : Spec.KeepsCache formResetToDefaults.
Proof. now apply keeps_modify. Qed.

Lemma keeps_setEditingProduct (v : option Product.t) :
  Spec.KeepsCache (setEditingProduct v).
Proof. now apply keeps_modify. Qed.

Lemma keeps_setActiveTab (v : string) : Spec.KeepsCache (setActiveTab v).
Proof. now apply keeps_modify. Qed.

Lemma keeps_setIsGettingLocation (v : bool) : Spec.KeepsCache (setIsGettingLocation v).
Proof. now apply keeps_modify. Qed.

Lemma keeps_storeFormSetValue (set : string -> StoreForm.t -> StoreForm.t) (v : string) :
  Spec.KeepsCache (storeFormSetValue set v).
Proof. now apply keeps_modify. Qed.

Lemma keeps_getImages : Spec.KeepsCache getImages.
Proof. intros d. reflexivity. Qed.

Lemma keeps_setImages (v : list string) : Spec.KeepsCache (setImages v).
Proof. now apply keeps_modify. Qed.

#[local] Hint Resolve keeps_toast keeps_invalidateQueries keeps_call keeps_formReset
  keeps_formResetToDefaults
  keeps_setEditingProduct keeps_setActiveTab keeps_setIsGettingLocation
  keeps_storeFormSetValue keeps_getImages keeps_setImages : keeps.

Lemma keeps_handleAddProduct (env : Env) (data : ProductForm.t) :
  Spec.KeepsCache (handleAddProduct env data).
Proof.
  intros d. unfold handleAddProduct.
  destruct (currentStore d) as [store|]; [|apply keeps_toast].
  apply keeps_tryCatch; [|auto with keeps].
  unfold apiPut, apiPost. destruct (editingProduct d); auto 8 with keeps.
Qed.

Lemma keeps_handleEditProduct (p : Product.t) : Spec.KeepsCache (handleEditProduct p).
Proof. unfold handleEditProduct. auto with keeps. Qed.

Lemma keeps_handleDeleteProduct (env : Env) (productId : Z) :
  Spec.KeepsCache (handleDeleteProduct env productId).
Proof.
  intros d. unfold handleDeleteProduct.
  destruct (confirm env _); simpl; [|reflexivity].
  apply keeps_tryCatch; [|auto with keeps].
  unfold apiDelete. destruct (currentStore d); auto 8 with keeps.
Qed.

Lemma keeps_handleFileUpload (env : Env) (files : option (list File.t)) :
  Spec.KeepsCache (handleFileUpload env files).
Proof.
  unfold handleFileUpload. destruct (hd_error (Js.orEmpty files)) as [file|];
    [|auto with keeps].
  apply keeps_tryCatch; [|auto with keeps].
  destruct (File.size file >? 2 * 1024 * 1024)%Z; [auto with keeps|].
  destruct (negb (Js.startsWith (File.type file) "image/")); [auto with keeps|].
  apply keeps_bind; [now apply keeps_modify|]. intros _.
  destruct (readAsDataURL env file) as [b|]; [|auto with keeps].
  destruct (negb (Js.truthy b)); auto with keeps.
Qed.

Lemma keeps_handleGetLocation (numberToString : float -> string)
    (toFixed : float -> nat -> string) (env : Env) :
  Spec.KeepsCache (handleGetLocation numberToString toFixed env).
Proof.
  unfold handleGetLocation. destruct (geolocation env) as [pos|]; [|auto with keeps].
  apply keeps_bind; [auto with keeps|]. intros _.
  apply keeps_tryFinally; [|auto with keeps].
  apply keeps_tryCatch; [|auto with keeps].
  apply keeps_bind; [auto with keeps|]. intros position.
  repeat (apply keeps_bind; [auto with keeps|]; intros _).
  apply keeps_bind; [|auto with keeps].
  apply keeps_tryCatch; [|auto with keeps].
  apply keeps_bind; [auto with keeps|]. intros [|data]; [auto with keeps|].
  destruct (Js.truthyOpt (Nominatim.display_name data)); auto with keeps.
Qed.

(** ** Statistics *)

Section StatisticsFacts.
Variable Number : string -> float.

Lemma fold_revenue_sumFrom (os : list Order.t) (acc : float) :
  fold_left (fun sum order => (sum + Number (Order.totalAmount order))%float) os acc
  = Spec.sumFrom acc (map (fun o => Number (Order.totalAmount o)) os).
Proof.
  revert acc. induction os as [|o os IH]; intros acc; simpl; [reflexivity|].
  apply IH.
Qed.

Lemma pending_filter_count (os : list Order.t) :
  List.length (filter (fun order => Order.status order =? "pending") os)
  = Spec.countStatus "pending" os.
Proof.
  induction os as [|o os IH]; simpl; [reflexivity|].
  destruct (String.eqb_spec (Order.status o) "pending") as [He | Hne];
    destruct (string_dec (Order.status o) "pending") as [He' | Hne'];
    simpl; congruence.
Qed.

(** C1. The displayed revenue is the sum, taken in the order of the
    collection and from 0, of the numeric coercions of the orders'
    totalAmount; the order count, the product count and the count of orders
    whose status is "pending" are those of the cached collections; and all
    four depend on the cache snapshot alone: two dashboard states with the
    same snapshot show the same figures. *)
Theorem dashboard_statistics_C1 (d : Dashboard) :
  totalRevenue Number d
  = Spec.sum (map (fun o => Number (Order.totalAmount o)) (orders (cache d)))
  /\ totalOrders d = List.length (orders (cache d))
  /\ totalProducts d = List.length (products (cache d))
  /\ pendingOrders d = Spec.countStatus "pending" (orders (cache d))
  /\ (forall d',
         cache d' = cache d ->
         totalRevenue Number d' = totalRevenue Number d
         /\ totalOrders d' = totalOrders d
         /\ totalProducts d' = totalProducts d
         /\ pendingOrders d' = pendingOrders d).
Proof.
  split; [apply fold_revenue_sumFrom|].
  split; [reflexivity|]. split; [reflexivity|].
  split; [apply pending_filter_count|].
  intros d' Hc. unfold totalRevenue, totalOrders, totalProducts, pendingOrders.
  now rewrite Hc.
Qed.

(** The figures are the same before and after a computation that keeps the
    cache, so it does not matter when they are computed between two fetches. *)
Lemma statistics_after {A : Type} (c : M A) (d : Dashboard) :
  Spec.KeepsCache c ->
  totalRevenue Number (snd (c d)) = totalRevenue Number d
  /\ totalOrders (snd (c d)) = totalOrders d
  /\ totalProducts (snd (c d)) = totalProducts d
  /\ pendingOrders (snd (c d)) = pendingOrders d.
Proof.
  intros Hc. unfold totalRevenue, totalOrders, totalProducts, pendingOrders.
  now rewrite (Hc d).
Qed.
End StatisticsFacts.

Example statistics_of_sample_dashboard :
  totalRevenue Sample.Number Sample.dashboard = 120.75%float
  /\ totalOrders Sample.dashboard = 3%nat
  /\ totalProducts Sample.dashboard = 1%nat
  /\ pendingOrders Sample.dashboard = 2%nat.
Proof. vm_compute. repeat split. Qed.

Example statistics_after_failed_save :
  let env := Sample.envHttp (Throw NonError) in
  totalRevenue Sample.Number
    (snd (handleAddProduct env Sample.staleOfferForm Sample.dashboard))
  = 120.75%float.
Proof.
  intros env.
  destruct (statistics_after Sample.Number
              (handleAddProduct env Sample.staleOfferForm) Sample.dashboard
              (keeps_handleAddProduct env Sample.staleOfferForm)) as [-> _].
  vm_compute. reflexivity.
Qed.

(** A snapshot is an ordered collection, and the sum follows its order:
    binary64 addition is not associative, and the same three orders listed
    backwards, which is another snapshot, add up to another figure. *)
Example revenue_follows_collection_order :
  let forwards :=
    mkDashboard (mkCache [] [] Sample.tenths) [] None "overview" false
      ProductForm.defaultValues ProductForm.defaultValues StoreForm.defaultValues
      [] [] [] in
  let backwards :=
    mkDashboard (mkCache [] [] (rev Sample.tenths)) [] None "overview" false
      ProductForm.defaultValues ProductForm.defaultValues StoreForm.defaultValues
      [] [] [] in
  totalRevenue Sample.Number forwards = 0.6000000000000001%float
  /\ totalRevenue Sample.Number backwards = 0.6%float.
Proof. vm_compute. split; reflexivity. Qed.

(* ------------------------------------------------------------------ *)
(** * Further properties *)

(** ** The staged lists *)

Lemma filterFrom_past_index {A : Type} (index i : nat) (l : list A) :
  (index < i)%nat ->
  JsArray.filterFrom i (fun _ j => negb (j =? index)%nat) l = l.
Proof.
  revert i. induction l as [|x l IH]; intros i H; simpl; [reflexivity|].
  destruct (Nat.eqb_spec i index) as [E | _]; [lia|]. simpl. f_equal.
  apply IH. lia.
Qed.

Lemma filterFrom_without_index {A : Type} (i k : nat) (l : list A) :
  JsArray.filterFrom i (fun _ j => negb (j =? i + k)%nat) l
  = (firstn k l ++ skipn (S k) l)%list.
Proof.
  revert i k. induction l as [|x l IH]; intros i k.
  - now destruct k.
  - cbn [JsArray.filterFrom]. destruct k as [|k].
    + rewrite Nat.add_0_r, Nat.eqb_refl. cbn [negb firstn skipn app].
      apply filterFrom_past_index. lia.
    + destruct (Nat.eqb_spec i (i + S k)) as [E | _]; [lia|].
      cbn [negb firstn skipn app]. f_equal.
      replace (i + S k)%nat with (S i + k)%nat by lia. apply IH.
Qed.

Lemma filterIndexed_without_index {A : Type} (index : nat) (l : list A) :
  JsArray.filterIndexed (fun _ i => negb (i =? index)%nat) l
  = (firstn index l ++ skipn (S index) l)%list.
Proof. unfold JsArray.filterIndexed. apply (filterFrom_without_index 0 index). Qed.

(** X1. [handleRemoveImage] removes the entry at the index and nothing else:
    the entries before it and after it stay, in their order, and the rest of
    the dashboard is as it was; with an index at or beyond the end of the
    list no entry is removed. *)
Theorem handleRemoveImage_drops_one_entry (index : nat) (d : Dashboard) :
  let l := Js.orEmpty (ProductForm.images (form d)) in
  handleRemoveImage index d
  = (Ret tt,
     with_form
       (ProductForm.set_images (firstn index l ++ skipn (S index) l)%list (form d)) d)
  /\ ((index < List.length l)%nat ->
      S (List.length (firstn index l ++ skipn (S index) l)%list) = List.length l)
  /\ ((List.length l <= index)%nat -> (firstn index l ++ skipn (S index) l)%list = l).
Proof.
  intros l. split; [|split].
  - unfold handleRemoveImage. run_monad. fold l.
    now rewrite filterIndexed_without_index.
  - intros H. rewrite length_app, firstn_length_le, length_skipn by lia. lia.
  - intros H. rewrite firstn_all2 by exact H. rewrite skipn_all2 by lia.
    apply app_nil_r.
Qed.

Lemma assignIndex_in_range {A : Type} (index : nat) (value : A) (l : list A) :
  (index < List.length l)%nat ->
  JsArray.assignIndex index value l
  = Some (firstn index l ++ value :: skipn (S index) l)%list.
Proof.
  revert index. induction l as [|x l IH]; intros index H; simpl in H; [lia|].
  destruct index as [|index]; simpl; [reflexivity|].
  rewrite IH by lia. reflexivity.
Qed.

Lemma assignIndex_at_end {A : Type} (value : A) (l : list A) :
  JsArray.assignIndex (List.length l) value l = Some (l ++ [value])%list.
Proof. induction l as [|x l IH]; simpl; [reflexivity|]. now rewrite IH. Qed.

Lemma assignIndex_beyond {A : Type} (index : nat) (value : A) (l : list A) :
  (List.length l < index)%nat -> JsArray.assignIndex index value l = None.
Proof.
  revert index. induction l as [|x l IH]; intros index H; simpl in H.
  - destruct index; [lia | reflexivity].
  - destruct index as [|index]; [lia|]. simpl. rewrite IH by lia. reflexivity.
Qed.

(** X2. Typing into the input of the staged image at an index within the
    list replaces that entry and no other: the list keeps its length, the
    entry at the index is the text typed, every other entry is as before, and
    the rest of the dashboard is untouched. *)
Theorem handleImageUrlChange_replaces_one_entry (index : nat) (value : string)
    (d : Dashboard) :
  let l := Js.orEmpty (ProductForm.images (form d)) in
  (index < List.length l)%nat ->
  exists l',
    handleImageUrlChange index value d
    = Some (Ret tt, with_form (ProductForm.set_images l' (form d)) d)
    /\ List.length l' = List.length l
    /\ nth_error l' index = Some value
    /\ (forall j, j <> index -> nth_error l' j = nth_error l j).
Proof.
  intros l H. exists (firstn index l ++ value :: skipn (S index) l)%list.
  split; [|split; [|split]].
  - unfold handleImageUrlChange. cbv zeta. fold l.
    now rewrite assignIndex_in_range.
  - rewrite length_app. cbn [List.length].
    rewrite firstn_length_le, length_skipn by lia. lia.
  - rewrite nth_error_app2; rewrite firstn_length_le by lia; [|lia].
    now rewrite Nat.sub_diag.
  - intros j Hj. destruct (Nat.lt_ge_cases j index) as [Hlt | Hge].
    + rewrite nth_error_app1 by (rewrite firstn_length_le; lia).
      now rewrite nth_error_firstn, (proj2 (Nat.ltb_lt j index) Hlt).
    + rewrite nth_error_app2 by (rewrite firstn_length_le; lia).
      rewrite firstn_length_le by lia.
      destruct (j - index)%nat as [|k] eqn:Hk; [lia|]. cbn [nth_error].
      rewrite nth_error_skipn. f_equal. lia.
Qed.

Lemma handleImageUrlChange_replaces_one_entry_witness :
  exists l',
    handleImageUrlChange 1 "c.jpg" Cases.staged
    = Some (Ret tt,
            with_form (ProductForm.set_images l' (form Cases.staged)) Cases.staged)
    /\ List.length l' = 3%nat
    /\ nth_error l' 1 = Some "c.jpg"
    /\ (forall j, j <> 1%nat -> nth_error l' j = nth_error ["a.jpg"; ""; "b.jpg"] j).
Proof.
  apply (handleImageUrlChange_replaces_one_entry 1 "c.jpg" Cases.staged).
  vm_compute. lia.
Defined.

Lemma assignIndex_last {A : Type} (value x : A) (l : list A) :
  JsArray.assignIndex (List.length l) value (l ++ [x])%list = Some (l ++ [value])%list.
Proof. induction l as [|y l IH]; simpl; [reflexivity|]. now rewrite IH. Qed.

(** X3. Adding a URL slot and typing a URL into it stages that URL last,
    after the images staged before; on submit the payload carries the images
    it carried before and then the URL, unless the URL is blank. *)
Theorem typed_url_is_staged_last (value : string) (store : Store.t) (d : Dashboard) :
  let l := Js.orEmpty (ProductForm.images (form d)) in
  exists d2,
    handleImageUrlChange (List.length l) value (snd (handleAddImageUrl d))
    = Some (Ret tt, d2)
    /\ ProductForm.images (form d2) = Some (l ++ [value])%list
    /\ Payload.images (filteredData store (form d2))
       = (Payload.images (filteredData store (form d))
            ++ if Spec.blank value then [] else [value])%list.
Proof.
  intros l.
  assert (H1 : snd (handleAddImageUrl d)
               = with_form (ProductForm.set_images (l ++ [""])%list (form d)) d)
    by reflexivity.
  rewrite H1. unfold handleImageUrlChange. cbv zeta.
  cbn [form with_form ProductForm.images ProductForm.set_images Js.orEmpty].
  rewrite assignIndex_last.
  exists (with_form (ProductForm.set_images (l ++ [value])%list (form d)) d).
  split; [reflexivity|]. split; [reflexivity|].
  rewrite !filteredData_images.
  cbn [form with_form ProductForm.images ProductForm.set_images Js.orEmpty]. fold l.
  rewrite filter_app. simpl. now destruct (Spec.blank value).
Qed.

(** ** Specifications, features and tags *)

Lemma filteredData_withoutDetails (store : Store.t) (f : ProductForm.t) :
  filteredData store f = filteredData store (withoutDetails f).
Proof. reflexivity. Qed.

Lemma saveRequest_withoutDetails (d d' : Dashboard) (store : Store.t)
    (f f' : ProductForm.t) :
  editingProduct d' = editingProduct d ->
  withoutDetails f' = withoutDetails f ->
  Spec.saveRequest d' store f' = Spec.saveRequest d store f.
Proof.
  intros He Hf. unfold Spec.saveRequest. rewrite He.
  now rewrite (filteredData_withoutDetails store f'), Hf,
    <- (filteredData_withoutDetails store f).
Qed.

(** One edit of the detail lists returns, and changes the three lists of
    the form at most. *)
Lemma detailHandler_form (e : DetailEdit) (d : Dashboard) (r : Outcome unit)
    (d' : Dashboard) :
  detailHandler e d = Some (r, d') ->
  r = Ret tt
  /\ exists f', d' = with_form f' d /\ withoutDetails f' = withoutDetails (form d).
Proof.
  destruct e; simpl;
    unfold total, handleAddSpecification, handleSpecificationChange,
      handleRemoveSpecification, handleAddFeature, handleFeatureChange,
      handleRemoveFeature, handleAddTag, handleTagChange, handleRemoveTag,
      setSpecifications, setFeatures, setTags, modify; cbv zeta;
    try match goal with
        | |- context [match ?x with Some _ => _ | None => _ end] =>
            destruct x; [|discriminate]
        end;
    intros H; injection H as <- <-; (split; [reflexivity|]);
    eexists; (split; [reflexivity|]); reflexivity.
Qed.

Lemma with_form_form (d : Dashboard) : with_form (form d) d = d.
Proof. now destruct d. Qed.

Lemma detailEdits_form (es : list DetailEdit) (d d' : Dashboard) :
  detailEdits es d = Some d' ->
  exists f', d' = with_form f' d /\ withoutDetails f' = withoutDetails (form d).
Proof.
  revert d. induction es as [|e es IH]; intros d; simpl.
  - intros H. injection H as <-. exists (form d). now rewrite with_form_form.
  - destruct (detailHandler e d) as [[r d1]|] eqn:He; [|discriminate].
    apply detailHandler_form in He as (_ & f1 & -> & Hf1). intros H.
    apply IH in H as (f2 & -> & Hf2). exists f2. split; [reflexivity|].
    now rewrite Hf2.
Qed.

Lemma productSchema_withoutDetails (parseFloat : string -> float)
    (f : ProductForm.t) :
  productSchema parseFloat f = productSchema parseFloat (withoutDetails f).
Proof. reflexivity. Qed.

(** X4. No sequence of edits of the specification, feature and tag lists
    (adding, changing or removing entries) has any effect on what a submit
    sends: the payload built from the form is the same before and after, the
    save handler run on the form issues the same requests, and so does the
    validated submit, which the schema accepts after the edits exactly when
    it did before.  The edits leave the staged images, the cache, the
    notifications and the editing mode alone. *)
Theorem detail_edits_never_reach_the_payload (es : list DetailEdit)
    (d d' : Dashboard) :
  detailEdits es d = Some d' ->
  (forall store, filteredData store (form d') = filteredData store (form d))
  /\ (forall env,
        requests (snd (handleAddProduct env (form d') d'))
        = requests (snd (handleAddProduct env (form d) d)))
  /\ (forall parseFloat env,
        productSchema parseFloat (form d') = productSchema parseFloat (form d)
        /\ requests (snd (handleSubmit parseFloat env d'))
           = requests (snd (handleSubmit parseFloat env d)))
  /\ ProductForm.images (form d') = ProductForm.images (form d)
  /\ cache d' = cache d
  /\ toasts d' = toasts d
  /\ invalidated d' = invalidated d
  /\ editingProduct d' = editingProduct d.
Proof.
  intros H. apply detailEdits_form in H as (f' & -> & Hf).
  assert (Hdata : forall store, filteredData store f' = filteredData store (form d)).
  { intros store. now rewrite (filteredData_withoutDetails store f'), Hf. }
  assert (Hreq : forall env,
             requests (snd (handleAddProduct env f' (with_form f' d)))
             = requests (snd (handleAddProduct env (form d) d))).
  { intros env. destruct (currentStore d) as [store|] eqn:Hs.
    - rewrite (handleAddProduct_requests env f' (with_form f' d) store Hs).
      rewrite (handleAddProduct_requests env (form d) d store Hs).
      cbn [requests with_form]. f_equal. f_equal.
      now apply saveRequest_withoutDetails.
    - rewrite (handleAddProduct_no_store env f' (with_form f' d) Hs).
      now rewrite (handleAddProduct_no_store env (form d) d Hs). }
  assert (Hschema : forall parseFloat,
             productSchema parseFloat f' = productSchema parseFloat (form d)).
  { intros parseFloat.
    now rewrite (productSchema_withoutDetails parseFloat f'), Hf. }
  split; [exact Hdata|]. split; [|split; [|repeat split]].
  - intros env. cbn [form with_form]. apply Hreq.
  - intros parseFloat env. cbn [form with_form].
    split; [apply Hschema|].
    unfold handleSubmit. cbn [form with_form]. rewrite Hschema.
    destruct (productSchema parseFloat (form d)); [apply Hreq | reflexivity].
  - cbn [form with_form].
    transitivity (ProductForm.images (withoutDetails f')); [reflexivity|].
    now rewrite Hf.
Qed.

Lemma detail_edits_never_reach_the_payload_witness :
  exists d',
    detailEdits [AddTag; TagChange 0 "fresh"; AddSpecification;
                 SpecificationChange 0 Key "weight"; RemoveFeature 3]
      Sample.dashboard = Some d'
    /\ ProductForm.tags (form d') = ["fresh"]
    /\ ProductForm.specifications (form d') = [("weight", "")]
    /\ (forall store,
           filteredData store (form d') = filteredData store (form Sample.dashboard))
    /\ (forall env,
           requests (snd (handleAddProduct env (form d') d'))
           = requests (snd (handleAddProduct env (form Sample.dashboard)
                              Sample.dashboard)))
    /\ (forall parseFloat env,
           productSchema parseFloat (form d')
           = productSchema parseFloat (form Sample.dashboard)
           /\ requests (snd (handleSubmit parseFloat env d'))
              = requests (snd (handleSubmit parseFloat env Sample.dashboard))).
Proof.
  eexists. split; [reflexivity|]. split; [reflexivity|]. split; [reflexivity|].
  exact (let H := detail_edits_never_reach_the_payload
                    [AddTag; TagChange 0 "fresh"; AddSpecification;
                     SpecificationChange 0 Key "weight"; RemoveFeature 3]
                    Sample.dashboard _ eq_refl in
         conj (proj1 H) (conj (proj1 (proj2 H)) (proj1 (proj2 (proj2 H))))).
Defined.

(** ** An accepted upload *)

Lemma dataUrl_is_picture (type rest : string) :
  Js.startsWith type "image/" = true ->
  imageEntry ("data:" ++ type ++ rest) = Picture.
Proof.
  intros H. apply startsWith_spec in H as [r ->]. reflexivity.
Qed.

(** X5. A selected file of at most 2MB whose type starts with image/, read
    by the file reader into a data URL of that type, is staged last, after
    the images staged before, with no notification; the new entry is shown
    as a picture, not as an editable URL, and on submit the payload carries
    it last. *)
Theorem accepted_upload_is_staged_last (env : Env) (file : File.t)
    (rest : list File.t) (content : string) (store : Store.t) (d : Dashboard) :
  (File.size file <= Spec.sizeCeiling)%Z ->
  Js.startsWith (File.type file) "image/" = true ->
  readAsDataURL env file = Some ("data:" ++ File.type file ++ ";base64," ++ content) ->
  let url := "data:" ++ File.type file ++ ";base64," ++ content in
  let l := Js.orEmpty (ProductForm.images (form d)) in
  handleFileUpload env (Some (file :: rest)) d
  = (Ret tt,
     with_form (ProductForm.set_images (l ++ [url])%list (form d))
       (with_fileReads (fileReads d ++ [file])%list d))
  /\ imageEntry url = Picture
  /\ Payload.images
       (filteredData store (form (snd (handleFileUpload env (Some (file :: rest)) d))))
     = (Payload.images (filteredData store (form d)) ++ [url])%list.
Proof.
  intros Hsize Htype Hread url l.
  assert (Hrun : handleFileUpload env (Some (file :: rest)) d
                 = (Ret tt,
                    with_form (ProductForm.set_images (l ++ [url])%list (form d))
                      (with_fileReads (fileReads d ++ [file])%list d))).
  { unfold handleFileUpload. cbn [hd_error Js.orEmpty]. unfold tryCatch.
    change (2 * 1024 * 1024)%Z with Spec.sizeCeiling.
    assert (Hle : (File.size file >? Spec.sizeCeiling)%Z = false)
      by (rewrite Z.gtb_ltb; now apply Z.ltb_ge).
    rewrite Hle, Htype. cbn [negb]. unfold bind, modify. rewrite Hread.
    reflexivity. }
  split; [exact Hrun|]. split; [now apply dataUrl_is_picture|].
  rewrite Hrun. cbn [snd]. rewrite !filteredData_images.
  cbn [form with_form with_fileReads ProductForm.images ProductForm.set_images
         Js.orEmpty]. fold l.
  rewrite filter_app. f_equal.
Qed.

Lemma accepted_upload_is_staged_last_witness :
  handleFileUpload Sample.env (Some [Sample.thumbnail]) Cases.staged
  = (Ret tt,
     with_form
       (ProductForm.set_images ["a.jpg"; ""; "b.jpg"; "data:image/png;base64,AAAA"]
          (form Cases.staged))
       (with_fileReads [Sample.thumbnail] Cases.staged))
  /\ imageEntry "data:image/png;base64,AAAA" = Picture
  /\ Payload.images
       (filteredData Sample.shop
          (form (snd (handleFileUpload Sample.env (Some [Sample.thumbnail])
                        Cases.staged))))
     = (Payload.images (filteredData Sample.shop (form Cases.staged))
          ++ ["data:image/png;base64,AAAA"])%list.
Proof.
  apply (accepted_upload_is_staged_last Sample.env Sample.thumbnail [] "AAAA"
           Sample.shop Cases.staged).
  - vm_compute. discriminate.
  - reflexivity.
  - reflexivity.
Defined.

(** ** Statistics over a growing order list *)

Lemma countStatus_app (status : string) (a b : list Order.t) :
  Spec.countStatus status (a ++ b)%list
  = (Spec.countStatus status a + Spec.countStatus status b)%nat.
Proof.
  induction a as [|o a IH]; simpl; [reflexivity|].
  destruct (string_dec (Order.status o) status); simpl; now rewrite IH.
Qed.

Lemma countStatus_le (status : string) (os : list Order.t) :
  (Spec.countStatus status os <= List.length os)%nat.
Proof.
  induction os as [|o os IH]; simpl; [lia|].
  destruct (string_dec (Order.status o) status); lia.
Qed.

(** X6. When a refetch brings the cached orders followed by further orders,
    the figures continue from the ones shown: the revenue is the revenue
    shown before with the amounts of the further orders added on in their
    order, the order count and the pending count grow by the number of
    further orders and of further pending orders.  The pending count never
    exceeds the order count. *)
Theorem statistics_continue_over_appended_orders (Number : string -> float)
    (d d' : Dashboard) (more : list Order.t) :
  orders (cache d') = (orders (cache d) ++ more)%list ->
  totalRevenue Number d'
  = Spec.sumFrom (totalRevenue Number d)
      (map (fun o => Number (Order.totalAmount o)) more)
  /\ totalOrders d' = (totalOrders d + List.length more)%nat
  /\ pendingOrders d' = (pendingOrders d + Spec.countStatus "pending" more)%nat
  /\ (pendingOrders d' <= totalOrders d')%nat.
Proof.
  intros H. unfold totalRevenue, totalOrders, pendingOrders.
  rewrite !pending_filter_count, H. split; [|split; [|split]].
  - rewrite fold_left_app. apply fold_revenue_sumFrom.
  - apply length_app.
  - apply countStatus_app.
  - apply countStatus_le.
Qed.

Lemma statistics_continue_over_appended_orders_witness :
  let before :=
    mkDashboard (mkCache [] [] Sample.threeOrders) [] None "overview" false
      ProductForm.defaultValues ProductForm.defaultValues StoreForm.defaultValues
      [] [] [] in
  let after :=
    mkDashboard (mkCache [] [] (Sample.threeOrders ++ Sample.tenths)%list) [] None
      "overview" false ProductForm.defaultValues ProductForm.defaultValues
      StoreForm.defaultValues [] [] [] in
  totalRevenue Sample.Number after
  = Spec.sumFrom (totalRevenue Sample.Number before)
      (map (fun o => Sample.Number (Order.totalAmount o)) Sample.tenths)
  /\ totalOrders after = (totalOrders before + 3)%nat
  /\ pendingOrders after
     = (pendingOrders before + Spec.countStatus "pending" Sample.tenths)%nat
  /\ (pendingOrders after <= totalOrders after)%nat.
Proof.
  intros before after.
  exact (statistics_continue_over_appended_orders Sample.Number before after
           Sample.tenths eq_refl).
Defined.

(** ** The address line *)

Lemma formatAddress_address (display_name display_name' : option string)
    (a : option Nominatim.address_t) :
  formatAddress {| Nominatim.display_name := display_name; Nominatim.address := a |}
  = formatAddress {| Nominatim.display_name := display_name'; Nominatim.address := a |}.
Proof. reflexivity. Qed.

(** X7. The address line does not depend on the postcode of the answer, and
    without a house number (absent or empty) it does not depend on the road
    either: the road shows only behind a house number.  An answer without an
    address object gives the empty line. *)
Theorem formatAddress_ignores_postcode_and_lone_road (display_name : option string)
    (a : Nominatim.address_t) (v : option string) :
  formatAddress {| Nominatim.display_name := display_name;
                   Nominatim.address := Some (withPostcode v a) |}
  = formatAddress {| Nominatim.display_name := display_name;
                     Nominatim.address := Some a |}
  /\ (Js.truthyOpt (Nominatim.house_number a) = false ->
      formatAddress {| Nominatim.display_name := display_name;
                       Nominatim.address := Some (withRoad v a) |}
      = formatAddress {| Nominatim.display_name := display_name;
                         Nominatim.address := Some a |})
  /\ formatAddress {| Nominatim.display_name := display_name;
                      Nominatim.address := None |} = "".
Proof.
  split; [reflexivity|]. split; [|reflexivity].
  intros H. unfold formatAddress. cbn [Nominatim.address withRoad
    Nominatim.house_number Nominatim.road Nominatim.city Nominatim.town
    Nominatim.village Nominatim.county Nominatim.district Nominatim.state
    Nominatim.country].
  assert (Hh : Js.orStr (Nominatim.house_number a) "" = "").
  { unfold Js.truthyOpt in H. unfold Js.orStr.
    destruct (Nominatim.house_number a) as [s|]; [now rewrite H | reflexivity]. }
  rewrite Hh. reflexivity.
Qed.

Example formatAddress_road_without_house_number :
  formatAddress
    {| Nominatim.display_name := Some "Main Road, Itahari";
       Nominatim.address :=
         Some {| Nominatim.house_number := None; Nominatim.road := Some "Main Road";
                 Nominatim.city := None; Nominatim.town := Some "Itahari";
                 Nominatim.village := None; Nominatim.county := None;
                 Nominatim.district := None; Nominatim.state := None;
                 Nominatim.country := Some "Nepal"; Nominatim.postcode := None |} |}
  = "Itahari, Nepal".
Proof. reflexivity. Qed.

(** ** Locating the store: the other paths *)

(** X8. When the geocoding answer has a display_name, the address field is
    overwritten with the line built from the address components, whatever it
    held; an answer with a display_name and no address object empties the
    field. *)
Theorem named_answer_overwrites_address (numberToString : float -> string)
    (toFixed : float -> nat -> string) (env : Env) (d : Dashboard)
    (coords : Coords.t) (data : Nominatim.t) :
  geolocation env = Some (Ret coords) ->
  fetchJson env
    (Spec.geocodeUrl (numberToString (Coords.latitude coords))
                     (numberToString (Coords.longitude coords)))
  = Ret (Nominatim.Obj data) ->
  Js.truthyOpt (Nominatim.display_name data) = true ->
  let d' := snd (handleGetLocation numberToString toFixed env d) in
  StoreForm.address (storeForm d') = formatAddress data
  /\ (Nominatim.address data = None -> StoreForm.address (storeForm d') = "").
Proof.
  intros Hgeo Hfetch Hname d'. subst d'.
  rewrite (handleGetLocation_located numberToString toFixed env d coords Hgeo).
  cbv zeta. rewrite Hfetch, Hname. split; [reflexivity|].
  intros Ha. cbn [snd storeForm with_isGettingLocation with_toasts with_storeForm
    StoreForm.address StoreForm.set_address]. unfold formatAddress. now rewrite Ha.
Qed.

Lemma named_answer_overwrites_address_witness :
  let data := {| Nominatim.display_name := Some "Somewhere in Sunsari";
                 Nominatim.address := None |} in
  let d' :=
    snd (handleGetLocation Sample.numberToString Sample.toFixed
           (Sample.envGeocode (Ret (Nominatim.Obj data))) Sample.typedAddress) in
  StoreForm.address (storeForm Sample.typedAddress) = "Main Road, Itahari"
  /\ StoreForm.address (storeForm d') = formatAddress data
  /\ (Nominatim.address data = None -> StoreForm.address (storeForm d') = "").
Proof.
  intros data d'. split; [reflexivity|].
  exact (named_answer_overwrites_address Sample.numberToString Sample.toFixed
           (Sample.envGeocode (Ret (Nominatim.Obj data))) Sample.typedAddress
           {| Coords.latitude := 26.7271; Coords.longitude := 87.2751 |} data
           eq_refl eq_refl eq_refl).
Defined.

(** X9. Whatever the browser and the geocoding service answer,
    [handleGetLocation] returns, shows exactly one notification, and touches
    neither the product form, the editing mode, the cache, the invalidations
    nor the requests.  With geolocation supported it ends with the busy flag
    cleared; without support it does not touch the flag; and when no position
    is obtained the store form keeps its values. *)
Theorem handleGetLocation_always_settles (numberToString : float -> string)
    (toFixed : float -> nat -> string) (env : Env) (d : Dashboard) :
  let d' := snd (handleGetLocation numberToString toFixed env d) in
  fst (handleGetLocation numberToString toFixed env d) = Ret tt
  /\ (exists t, toasts d' = (toasts d ++ [t])%list)
  /\ form d' = form d
  /\ editingProduct d' = editingProduct d
  /\ cache d' = cache d
  /\ invalidated d' = invalidated d
  /\ requests d' = requests d
  /\ isGettingLocation d'
     = match geolocation env with Some _ => false | None => isGettingLocation d end
  /\ ((forall coords, geolocation env <> Some (Ret coords)) ->
      storeForm d' = storeForm d).
Proof.
  intros d'. subst d'. destruct (geolocation env) as [[coords|error]|] eqn:Hgeo.
  - rewrite (handleGetLocation_located numberToString toFixed env d coords Hgeo).
    cbv zeta. cbn [fst snd]. repeat split.
    + eexists. reflexivity.
    + intros H. now contradiction (H coords).
  - rewrite (handleGetLocation_denied numberToString toFixed env d error Hgeo).
    cbn [fst snd]. repeat split. eexists. reflexivity.
  - rewrite (handleGetLocation_unsupported numberToString toFixed env d Hgeo).
    cbn [fst snd]. repeat split. eexists. reflexivity.
Qed.

(** ** Saving, retrying and deleting *)

Lemma handleSubmit_accepted (parseFloat : string -> float) (env : Env)
    (d : Dashboard) :
  productSchema parseFloat (form d) = true ->
  handleSubmit parseFloat env d = handleAddProduct env (form d) d.
Proof. intros Hv. unfold handleSubmit. now rewrite Hv. Qed.

Lemma handleSubmit_rejected (parseFloat : string -> float) (env : Env)
    (d : Dashboard) :
  productSchema parseFloat (form d) = false ->
  handleSubmit parseFloat env d = (Ret tt, d).
Proof. intros Hv. unfold handleSubmit. now rewrite Hv. Qed.

(** X10. After the save handler, run on the values of the form, had its HTTP
    call rejected, the form still holds the values and the editing mode is as
    before, so running it on the form a second time sends the very same
    request again.  When the schema accepts the values of the form, this is
    what two submits of the form do: the second passes the schema as the
    first did. *)
Theorem failed_save_can_be_retried (env env' : Env) (d : Dashboard)
    (store : Store.t) (error : JsError) :
  currentStore d = Some store ->
  http env (Spec.saveRequest d store (form d)) = Throw error ->
  let d1 := snd (handleAddProduct env (form d) d) in
  form d1 = form d
  /\ editingProduct d1 = editingProduct d
  /\ requests (snd (handleAddProduct env' (form d1) d1))
     = (requests d ++ [Spec.saveRequest d store (form d);
                       Spec.saveRequest d store (form d)])%list
  /\ (forall parseFloat,
        productSchema parseFloat (form d) = true ->
        snd (handleSubmit parseFloat env d) = d1
        /\ requests (snd (handleSubmit parseFloat env' d1))
           = (requests d ++ [Spec.saveRequest d store (form d);
                             Spec.saveRequest d store (form d)])%list).
Proof.
  intros Hs Hr d1.
  assert (Hf : form d1 = form d).
  { subst d1. now rewrite (handleAddProduct_rejected env (form d) d store error Hs Hr). }
  assert (Hreq : requests (snd (handleAddProduct env' (form d1) d1))
                 = (requests d ++ [Spec.saveRequest d store (form d);
                                   Spec.saveRequest d store (form d)])%list).
  { subst d1.
    rewrite (handleAddProduct_rejected env (form d) d store error Hs Hr).
    cbn [snd]. set (d1 := with_toasts _ _).
    assert (Hs1 : currentStore d1 = Some store) by exact Hs.
    rewrite (handleAddProduct_requests env' (form d1) d1 store Hs1).
    subst d1. cbn [requests with_toasts with_requests form]. rewrite <- app_assoc.
    reflexivity. }
  split; [exact Hf|]. split.
  { subst d1. now rewrite (handleAddProduct_rejected env (form d) d store error Hs Hr). }
  split; [exact Hreq|].
  intros parseFloat Hv.
  split; [subst d1; now rewrite (handleSubmit_accepted parseFloat env d Hv)|].
  rewrite handleSubmit_accepted; [exact Hreq | now rewrite Hf].
Qed.

Lemma failed_save_can_be_retried_witness :
  let env := Sample.envHttp (Throw (ErrorObj "503: Service Unavailable")) in
  let d := with_form Sample.staleOfferForm Sample.dashboard in
  let d1 := snd (handleAddProduct env (form d) d) in
  form d1 = form d
  /\ editingProduct d1 = editingProduct d
  /\ requests (snd (handleAddProduct Sample.env (form d1) d1))
     = (requests d ++ [Spec.saveRequest d Sample.shop (form d);
                       Spec.saveRequest d Sample.shop (form d)])%list
  /\ (forall parseFloat,
        productSchema parseFloat (form d) = true ->
        snd (handleSubmit parseFloat env d) = d1
        /\ requests (snd (handleSubmit parseFloat Sample.env d1))
           = (requests d ++ [Spec.saveRequest d Sample.shop (form d);
                             Spec.saveRequest d Sample.shop (form d)])%list).
Proof.
  intros env d.
  exact (failed_save_can_be_retried env Sample.env d Sample.shop
           (ErrorObj "503: Service Unavailable") eq_refl eq_refl).
Defined.

(** The schema accepts the sample values, so the retry above is the retry of
    a submit. *)
Example sample_values_pass_the_schema :
  productSchema Sample.parseFloat Sample.staleOfferForm = true.
Proof. now vm_compute. Qed.

Lemma handleDeleteProduct_frame (env : Env) (productId : Z) (d : Dashboard) :
  let d' := snd (handleDeleteProduct env productId d) in
  form d' = form d /\ editingProduct d' = editingProduct d
  /\ activeTab d' = activeTab d /\ cache d' = cache d.
Proof.
  intros d'. subst d'.
  destruct (confirm env "Are you sure you want to delete this product?") eqn:Hc.
  - destruct (http env (Spec.deleteRequest productId)) as [[]|e] eqn:Hr.
    + now rewrite (handleDeleteProduct_resolved _ _ _ Hc Hr).
    + now rewrite (handleDeleteProduct_rejected _ _ _ _ Hc Hr).
  - now rewrite (handleDeleteProduct_declined _ _ _ Hc).
Qed.

(** X11. Deleting the product that is open for editing does not leave the
    editing mode: whatever the delete call answers, the product stays the
    one being edited and the form keeps its values.  The next submit
    therefore, when the schema accepts the loaded values, sends an update to
    the URL of that product; when the schema rejects them it sends nothing. *)
Theorem delete_keeps_editing_mode (env : Env) (p : Product.t) (d : Dashboard) :
  let d1 := snd (handleEditProduct p d) in
  let d2 := snd (handleDeleteProduct env (Product.id p) d1) in
  editingProduct d2 = Some p
  /\ form d2 = editValues p
  /\ activeTab d2 = "add-product"
  /\ (forall parseFloat env' store,
         currentStore d = Some store ->
         requests (snd (handleSubmit parseFloat env' d2))
         = if productSchema parseFloat (editValues p)
           then (requests d2 ++
                   [ {| Request.method := PUT;
                        Request.url :=
                          "/api/products/" ++ Js.intToString (Product.id p);
                        Request.body :=
                          Some (filteredData store (editValues p)) |} ])%list
           else requests d2).
Proof.
  intros d1 d2.
  destruct (handleDeleteProduct_frame env (Product.id p) d1) as (Hf & He & Ht & Hc).
  fold d2 in Hf, He, Ht, Hc.
  split; [now rewrite He|]. split; [now rewrite Hf|]. split; [now rewrite Ht|].
  intros parseFloat env' store Hs.
  assert (Hs2 : currentStore d2 = Some store).
  { unfold currentStore. rewrite Hc. exact Hs. }
  assert (Hf2 : form d2 = editValues p) by now rewrite Hf.
  destruct (productSchema parseFloat (editValues p)) eqn:Hv.
  - rewrite handleSubmit_accepted; [|now rewrite Hf2].
    rewrite (handleAddProduct_requests env' (form d2) d2 store Hs2).
    unfold Spec.saveRequest. rewrite He, Hf. reflexivity.
  - rewrite handleSubmit_rejected; [reflexivity | now rewrite Hf2].
Qed.

(** The sample product is deleted while open for editing, and the form is
    then submitted: the product that is gone is updated. *)
Example deleted_product_is_still_updated :
  let d1 := snd (handleEditProduct Sample.rice Sample.dashboard) in
  let d2 := snd (handleDeleteProduct Sample.env 42 d1) in
  map (fun r => (Request.method r, Request.url r))
    (requests (snd (handleSubmit Sample.parseFloat Sample.env d2)))
  = [ (DELETE, "/api/products/42"); (PUT, "/api/products/42") ].
Proof. now vm_compute. Qed.

(** X12. A save resets the form, ends the editing mode and invalidates the
    products of the store exactly when a store is selected and the HTTP call
    resolved.  The reset returns the form to the default values it holds:
    the empty form at first, the values of the product last opened for
    editing after that.  In every other case (no store, or the call
    rejected) the form, the editing mode and the invalidations are as before
    and an error notification is shown.  The default values the form holds
    are the same after the save in every case. *)
Theorem save_resets_exactly_on_success (env : Env) (data : ProductForm.t)
    (d : Dashboard) :
  let d' := snd (handleAddProduct env data d) in
  formDefaults d' = formDefaults d
  /\
  ((exists store,
      currentStore d = Some store
      /\ http env (Spec.saveRequest d store data) = Ret tt
      /\ form d' = formDefaults d
      /\ editingProduct d' = None
      /\ invalidated d'
         = (invalidated d ++ [Spec.storeProductsKey (Store.id store)])%list
      /\ exists t, toasts d' = (toasts d ++ [t])%list /\ Toast.isError t = false)
  \/ ((forall store,
          currentStore d = Some store ->
          http env (Spec.saveRequest d store data) <> Ret tt)
      /\ form d' = form d
      /\ editingProduct d' = editingProduct d
      /\ invalidated d' = invalidated d
      /\ exists t, toasts d' = (toasts d ++ [t])%list /\ Toast.isError t = true)).
Proof.
  intros d'. subst d'. destruct (currentStore d) as [store|] eqn:Hs.
  - destruct (http env (Spec.saveRequest d store data)) as [[]|e] eqn:Hr.
    + rewrite (handleAddProduct_resolved _ _ _ _ Hs Hr).
      cbn [snd form formDefaults editingProduct invalidated toasts].
      split; [reflexivity|].
      left. exists store.
      split; [reflexivity|]. split; [exact Hr|]. split; [reflexivity|].
      split; [reflexivity|]. split; [reflexivity|].
      eexists. split; [reflexivity|]. now destruct (editingProduct d).
    + rewrite (handleAddProduct_rejected _ _ _ _ _ Hs Hr).
      split; [reflexivity|]. right.
      split; [|repeat split].
      * intros store' H. injection H as <-. rewrite Hr. discriminate.
      * eexists. split; reflexivity.
  - rewrite (handleAddProduct_no_store _ _ _ Hs).
    split; [reflexivity|]. right.
    split; [|repeat split].
    + intros store' H. discriminate.
    + eexists. split; reflexivity.
Qed.

(** A new product saved from the empty form leaves the form empty.  A
    product opened for editing and updated leaves the editing mode, and the
    form goes back to the values that were loaded, not to the empty form. *)
Example form_after_a_save :
  form (snd (handleAddProduct Sample.env Sample.staleOfferForm
               (with_form Sample.staleOfferForm Sample.dashboard)))
  = ProductForm.defaultValues
  /\ (let d' :=
        snd (Spec.editUnchanged Sample.parseFloat Sample.env Sample.rice
               Sample.dashboard) in
      form d' = editValues Sample.rice /\ editingProduct d' = None).
Proof. now vm_compute. Qed.

(** ** Searching the store list *)

Lemma string_app_assoc (a b c : string) : (a ++ b) ++ c = a ++ b ++ c.
Proof. induction a as [|x a IH]; simpl; [reflexivity | now rewrite IH]. Qed.

Lemma Occurs_trans (a b c : string) :
  Spec.Occurs a b -> Spec.Occurs b c -> Spec.Occurs a c.
Proof.
  intros (p1 & q1 & ->) (p2 & q2 & ->). exists (p2 ++ p1), (q1 ++ q2).
  now rewrite !string_app_assoc.
Qed.

Lemma filter_Subsequence_weaker {A : Type} (f g : A -> bool) (l : list A) :
  (forall x, In x l -> f x = true -> g x = true) ->
  Spec.Subsequence (filter f l) (filter g l).
Proof.
  induction l as [|x l IH]; intros H; simpl; [constructor|].
  assert (IH' : Spec.Subsequence (filter f l) (filter g l))
    by (apply IH; intros y Hy; apply H; now right).
  destruct (f x) eqn:Hf.
  - rewrite (H x (or_introl eq_refl) Hf). now constructor.
  - destruct (g x); [now constructor | exact IH'].
Qed.

Section StoreSearch.
Variable toLowerCase : string -> string.
Hypothesis toLowerCase_empty : toLowerCase "" = "".

(** X13. Two search strings that differ in case only (they have the same
    lower-case form, and are both empty or both not) give the same list:
    the search ignores the case of what is typed. *)
Theorem search_ignores_case_of_query (stores : option (list Store.t))
    (s s' : string) :
  toLowerCase s = toLowerCase s' ->
  (s = "" <-> s' = "") ->
  filteredStores toLowerCase stores s = filteredStores toLowerCase stores s'.
Proof.
  intros Hl He. destruct stores as [l|]; [|reflexivity]. simpl.
  apply filter_ext. intros store. unfold matchesSearch. rewrite Hl.
  destruct (String.eqb_spec s "") as [E | N], (String.eqb_spec s' "") as [E' | N'];
    try reflexivity.
  - now apply He in E.
  - now apply He in E'.
Qed.

(** X14. A search string in which another one occurs, case ignored, narrows
    the list of that other one: every store it shows is shown for the other
    string too, and in the same order.  So typing further characters never
    brings a store back into the list. *)
Theorem longer_query_narrows (stores : option (list Store.t)) (s s' : string) :
  Spec.Occurs (toLowerCase s) (toLowerCase s') ->
  Spec.Subsequence (filteredStores toLowerCase stores s')
                   (filteredStores toLowerCase stores s).
Proof.
  intros Hocc. destruct stores as [l|]; [|constructor]. simpl.
  apply filter_Subsequence_weaker. intros store _.
  rewrite !(matchesSearch_spec toLowerCase toLowerCase_empty).
  unfold Spec.StoreMatches, Spec.ContainsCI.
  intros [H | [(x & Hx & H) | (x & Hx & H)]].
  - left. eapply Occurs_trans; eassumption.
  - right. left. exists x. split; [exact Hx|]. eapply Occurs_trans; eassumption.
  - right. right. exists x. split; [exact Hx|]. eapply Occurs_trans; eassumption.
Qed.

Lemma filteredStores_In (stores : list Store.t) (s : string) (store : Store.t) :
  In store (filteredStores toLowerCase (Some stores) s)
  <-> In store stores /\ Spec.StoreMatches toLowerCase s store.
Proof.
  unfold filteredStores.
  now rewrite filter_In, (matchesSearch_spec toLowerCase toLowerCase_empty).
Qed.

(** X15. Once the stores are loaded the page shows either the grid, with
    exactly the filtered stores and at least one, or the empty state; the
    empty state appears exactly when no store matches the search string, and
    it offers to clear the search exactly when the string is not empty. *)
Theorem storesView_loaded (stores : list Store.t) (s : string) :
  match storesView toLowerCase false (Some stores) s with
  | Skeletons => False
  | Grid cards =>
      cards = filteredStores toLowerCase (Some stores) s /\ cards <> []
      /\ exists store, In store stores /\ Spec.StoreMatches toLowerCase s store
  | NoStoresFound _ clearSearch =>
      (forall store, In store stores -> ~ Spec.StoreMatches toLowerCase s store)
      /\ clearSearch = negb (s =? "")
  end.
Proof.
  unfold storesView.
  destruct (filteredStores toLowerCase (Some stores) s) as [|store cards] eqn:Hf;
    simpl.
  - split; [|reflexivity]. intros store Hin Hm.
    assert (H : In store (filteredStores toLowerCase (Some stores) s)).
    { apply filteredStores_In. now split. }
    rewrite Hf in H. destruct H.
  - split; [reflexivity|]. split; [discriminate|]. exists store.
    apply filteredStores_In. rewrite Hf. now left.
Qed.
End StoreSearch.

Lemma search_ignores_case_of_query_witness :
  filteredStores Js.latin1LowerCase (Some [Sample.shop; Sample.bakery]) "MART"
  = filteredStores Js.latin1LowerCase (Some [Sample.shop; Sample.bakery]) "mart".
Proof.
  apply (search_ignores_case_of_query Js.latin1LowerCase
           (Some [Sample.shop; Sample.bakery]) "MART" "mart").
  - reflexivity.
  - split; discriminate.
Defined.

Lemma longer_query_narrows_witness :
  Spec.Subsequence
    (filteredStores Js.latin1LowerCase (Some [Sample.shop; Sample.bakery]) "Mart")
    (filteredStores Js.latin1LowerCase (Some [Sample.shop; Sample.bakery]) "ar").
Proof.
  apply (longer_query_narrows Js.latin1LowerCase eq_refl
           (Some [Sample.shop; Sample.bakery]) "ar" "Mart").
  exists "m", "t". reflexivity.
Defined.

Lemma storesView_loaded_witness :
  match storesView Js.latin1LowerCase false (Some [Sample.shop; Sample.bakery]) "zzz" with
  | Skeletons => False
  | Grid cards =>
      cards = filteredStores Js.latin1LowerCase (Some [Sample.shop; Sample.bakery]) "zzz"
      /\ cards <> []
      /\ exists store,
           In store [Sample.shop; Sample.bakery]
           /\ Spec.StoreMatches Js.latin1LowerCase "zzz" store
  | NoStoresFound _ clearSearch =>
      (forall store,
          In store [Sample.shop; Sample.bakery] ->
          ~ Spec.StoreMatches Js.latin1LowerCase "zzz" store)
      /\ clearSearch = negb ("zzz" =? "")
  end.
Proof.
  exact (storesView_loaded Js.latin1LowerCase eq_refl [Sample.shop; Sample.bakery] "zzz").
Defined.

Example storesView_no_match :
  storesView Js.latin1LowerCase false (Some [Sample.shop; Sample.bakery]) "zzz"
  = NoStoresFound ("No stores match your search for " ++ quote ++ "zzz" ++ quote) true.
Proof. reflexivity. Qed.

Example both_stores_for_ar :
  filteredStores Js.latin1LowerCase (Some [Sample.shop; Sample.bakery]) "ar"
  = [Sample.shop; Sample.bakery].
Proof. reflexivity. Qed.

(** ** The store the dashboard manages *)

Lemma hd_error_filter_find {A : Type} (f : A -> bool) (l : list A) :
  hd_error (filter f l) = find f l.
Proof.
  induction l as [|x l IH]; simpl; [reflexivity|]. now destruct (f x).
Qed.

(** X16. When the cached stores are the stores of the server filtered by
    the owner, the dashboard manages the first store of the signed-in user in
    the order of the server, and that one only: a save sends its request
    with the id of that store, which is a store of the user.  A user without
    a store, or nobody signed in, has no current store and a save sends
    nothing. *)
Theorem saves_go_to_first_owned_store (userId : option Z) (allStores : list Store.t)
    (env : Env) (data : ProductForm.t) (d : Dashboard) :
  stores (cache d) = ownedStores userId allStores ->
  let d' := snd (handleAddProduct env data d) in
  match userId with
  | Some id =>
      match find (fun store => (Store.ownerId store =? id)%Z) allStores with
      | Some store =>
          currentStore d = Some store
          /\ In store allStores
          /\ Store.ownerId store = id
          /\ exists r payload,
               requests d' = (requests d ++ [r])%list
               /\ Request.body r = Some payload
               /\ Payload.storeId payload = Store.id store
      | None => currentStore d = None /\ requests d' = requests d
      end
  | None => currentStore d = None /\ requests d' = requests d
  end.
Proof.
  intros Hc d'. subst d'.
  assert (Hcur : currentStore d
                 = match userId with
                   | Some id => find (fun store => (Store.ownerId store =? id)%Z) allStores
                   | None => None
                   end).
  { unfold currentStore. rewrite Hc. unfold ownedStores.
    rewrite hd_error_filter_find. destruct userId as [id|]; [reflexivity|].
    clear. induction allStores as [|x l IH]; simpl; [reflexivity | exact IH]. }
  destruct userId as [id|].
  - destruct (find _ allStores) as [store|] eqn:Hfind.
    + split; [exact Hcur|]. apply find_some in Hfind as Hin. destruct Hin as [Hin Ho].
      split; [exact Hin|]. split; [now apply Z.eqb_eq|].
      exists (Spec.saveRequest d store data), (filteredData store data).
      split; [now apply handleAddProduct_requests|].
      split; [apply saveRequest_body | reflexivity].
    + split; [exact Hcur|]. now rewrite (handleAddProduct_no_store _ _ _ Hcur).
  - split; [exact Hcur|]. now rewrite (handleAddProduct_no_store _ _ _ Hcur).
Qed.

Lemma saves_go_to_first_owned_store_witness :
  let d :=
    mkDashboard (mkCache (ownedStores (Some 3%Z) Cases.allStores) [] []) [] None
      "overview" false ProductForm.defaultValues ProductForm.defaultValues
      StoreForm.defaultValues [] [] [] in
  let d' := snd (handleAddProduct Sample.env Sample.staleOfferForm d) in
  List.length (stores (cache d)) = 2%nat
  /\ currentStore d = Some Sample.shop
  /\ In Sample.shop Cases.allStores
  /\ Store.ownerId Sample.shop = 3%Z
  /\ exists r payload,
       requests d' = (requests d ++ [r])%list
       /\ Request.body r = Some payload
       /\ Payload.storeId payload = Store.id Sample.shop.
Proof.
  intros d d'. split; [reflexivity|].
  exact (saves_go_to_first_owned_store (Some 3%Z) Cases.allStores Sample.env
           Sample.staleOfferForm d eq_refl).
Defined.

(** ** Validation before a save *)

Section ValidationFacts.
Variable parseFloat : string -> float.

Lemma productSchema_categoryId (data : ProductForm.t) :
  productSchema parseFloat data = true -> (1 <= ProductForm.categoryId data)%Z.
Proof.
  unfold productSchema. rewrite !andb_true_iff.
  intros [[[_ Hc] _] _]. now apply Z.leb_le.
Qed.

(** X17. A product without a category (or with a category id below 1)
    cannot be saved from the edit form as loaded: the form gets category 0,
    the schema refuses it, and the submit sends nothing and changes nothing. *)
Theorem uncategorised_product_is_not_submitted (env : Env) (p : Product.t)
    (d : Dashboard) :
  (forall c, Product.categoryId p = Some c -> (c < 1)%Z) ->
  let d1 := snd (handleEditProduct p d) in
  productSchema parseFloat (form d1) = false
  /\ handleSubmit parseFloat env d1 = (Ret tt, d1)
  /\ requests d1 = requests d.
Proof.
  intros Hc d1.
  assert (Hs : productSchema parseFloat (form d1) = false).
  { destruct (productSchema parseFloat (form d1)) eqn:E; [|reflexivity].
    apply productSchema_categoryId in E. subst d1.
    cbn [snd handleEditProduct] in E.
    change (1 <= Js.orNum (Product.categoryId p) 0)%Z in E.
    unfold Js.orNum in E. destruct (Product.categoryId p) as [c|]; [|lia].
    specialize (Hc c eq_refl). destruct (c =? 0)%Z; lia. }
  split; [exact Hs|]. split; [|reflexivity].
  unfold handleSubmit. now rewrite Hs.
Qed.

(** X18. The schema measures the name before it is trimmed: a name made of
    whitespace only passes, and the save then sends the empty name. *)
Theorem whitespace_name_is_sent_empty (env : Env) (d : Dashboard) (store : Store.t) :
  currentStore d = Some store ->
  productSchema parseFloat (form d) = true ->
  Spec.blank (ProductForm.name (form d)) = true ->
  exists r payload,
    requests (snd (handleSubmit parseFloat env d)) = (requests d ++ [r])%list
    /\ Request.body r = Some payload
    /\ Payload.name payload = "".
Proof.
  intros Hs Hv Hb. unfold handleSubmit. rewrite Hv.
  exists (Spec.saveRequest d store (form d)), (filteredData store (form d)).
  split; [now apply handleAddProduct_requests|].
  split; [apply saveRequest_body|].
  cbn [Payload.name filteredData]. now apply trim_empty_iff_blank.
Qed.
End ValidationFacts.

Lemma uncategorised_product_is_not_submitted_witness :
  let d1 := snd (handleEditProduct Cases.uncategorised Sample.dashboard) in
  productSchema Sample.Number (form d1) = false
  /\ handleSubmit Sample.Number Sample.env d1 = (Ret tt, d1)
  /\ requests d1 = requests Sample.dashboard.
Proof.
  apply (uncategorised_product_is_not_submitted Sample.Number Sample.env
           Cases.uncategorised Sample.dashboard).
  intros c H. discriminate H.
Defined.

Lemma whitespace_name_is_sent_empty_witness :
  let d :=
    with_form
      {| ProductForm.name := "   "; ProductForm.description := Some "";
         ProductForm.price := "120"; ProductForm.originalPrice := Some "";
         ProductForm.categoryId := 2; ProductForm.stock := 30;
         ProductForm.imageUrl := Some ""; ProductForm.images := Some [];
         ProductForm.isFastSell := false; ProductForm.isOnOffer := false;
         ProductForm.offerPercentage := 0; ProductForm.offerEndDate := Some "";
         ProductForm.specifications := []; ProductForm.features := [];
         ProductForm.tags := [] |} Sample.dashboard in
  exists r payload,
    requests (snd (handleSubmit Sample.Number Sample.env d))
    = (requests d ++ [r])%list
    /\ Request.body r = Some payload
    /\ Payload.name payload = "".
Proof.
  intros d.
  apply (whitespace_name_is_sent_empty Sample.Number Sample.env d Sample.shop).
  - reflexivity.
  - vm_compute. reflexivity.
  - reflexivity.
Defined.

(** ** Moving an order on, creating a store *)

Ltac run_shell :=
  unfold X.tryCatch, X.bind, X.call, X.lift, toast, invalidateQueries,
    storeFormReset, modify.

(** X19. Changing the status of an order issues the one PUT and shows one
    notification, and nothing else: no query is invalidated and the cached
    orders stay, so the order list, the revenue and the pending count shown
    are the ones from before until the orders are fetched again. *)
Theorem order_status_update_refreshes_nothing (api : Call -> Outcome unit)
    (orderId : Z) (status : string) (s : Shell) :
  let s' := snd (handleOrderStatusUpdate api orderId status s) in
  fst (handleOrderStatusUpdate api orderId status s) = Ret tt
  /\ calls s' = (calls s ++ [UpdateOrderStatus orderId status])%list
  /\ invalidated (dashboard s') = invalidated (dashboard s)
  /\ cache (dashboard s') = cache (dashboard s)
  /\ pendingOrders (dashboard s') = pendingOrders (dashboard s)
  /\ (forall Number,
         totalRevenue Number (dashboard s') = totalRevenue Number (dashboard s))
  /\ exists t,
       toasts (dashboard s') = (toasts (dashboard s) ++ [t])%list
       /\ Toast.isError t
          = match api (UpdateOrderStatus orderId status) with
            | Ret _ => false
            | Throw _ => true
            end.
Proof.
  intros s'. subst s'. unfold handleOrderStatusUpdate. run_shell.
  destruct (api (UpdateOrderStatus orderId status)) as [[]|e]; cbn [fst snd];
    repeat split; eexists; split; reflexivity.
Qed.

Lemma handleCreateStore_calls (api : Call -> Outcome unit) (user : User.t)
    (data : StoreForm.t) (s : Shell) :
  calls (snd (handleCreateStore api user data s))
  = (calls s ++ [CreateStore (storeData user data)])%list.
Proof.
  unfold handleCreateStore. run_shell.
  now destruct (api (CreateStore (storeData user data))) as [[]|e].
Qed.

(** X20. Creating a store issues one POST with [storeData].  When it
    resolves, the store form returns to its defaults (the coordinates and
    the map link with it) and every query whose key begins with /api/stores
    is stale; when it rejects, the store form keeps its values, nothing is
    invalidated and the message of the error is shown.  No exception
    escapes. *)
Theorem handleCreateStore_outcomes (api : Call -> Outcome unit) (user : User.t)
    (data : StoreForm.t) (s : Shell) :
  let s' := snd (handleCreateStore api user data s) in
  fst (handleCreateStore api user data s) = Ret tt
  /\ calls s' = (calls s ++ [CreateStore (storeData user data)])%list
  /\ cache (dashboard s') = cache (dashboard s)
  /\ match api (CreateStore (storeData user data)) with
     | Ret _ =>
         storeForm (dashboard s') = StoreForm.defaultValues
         /\ invalidated (dashboard s')
            = (invalidated (dashboard s) ++
                 [ [KStr "/api/stores"];
                   [KStr "/api/stores"; KStr "owner"; KNum (User.id user)] ])%list
         /\ (forall rest, isInvalidated (dashboard s') (KStr "/api/stores" :: rest) = true)
         /\ toasts (dashboard s')
            = (toasts (dashboard s) ++
                 [ {| Toast.title := "Store created successfully";
                      Toast.description := None; Toast.variant := Default |} ])%list
     | Throw error =>
         storeForm (dashboard s') = storeForm (dashboard s)
         /\ invalidated (dashboard s') = invalidated (dashboard s)
         /\ toasts (dashboard s')
            = (toasts (dashboard s) ++
                 [ {| Toast.title := "Error";
                      Toast.description :=
                        Some (messageOr error "Failed to create store");
                      Toast.variant := Destructive |} ])%list
     end.
Proof.
  intros s'. subst s'. unfold handleCreateStore. run_shell.
  destruct (api (CreateStore (storeData user data))) as [[]|e]; cbn [fst snd].
  - split; [reflexivity|]. split; [reflexivity|]. split; [reflexivity|].
    split; [reflexivity|]. split; [|split; [|reflexivity]].
    + cbn [dashboard invalidated with_invalidated with_storeForm with_toasts].
      now rewrite <- app_assoc.
    + intros rest. unfold isInvalidated.
      cbn [dashboard invalidated with_invalidated with_storeForm with_toasts].
      rewrite !existsb_app. simpl. now rewrite !orb_true_r.
  - repeat split.
Qed.

(** X21. The coordinates obtained by Get My Location reach the server with
    the store.  The store form is submitted afterwards: when its schema
    accepts the values (a name and an address of at least one character),
    one POST is sent, with the latitude and the longitude as they were
    printed into the form, the map link built from them and the id of the
    signed-in user as owner, and the name as typed; when the schema rejects
    them, nothing is sent and nothing changes. *)
Theorem located_coordinates_reach_the_store (numberToString : float -> string)
    (toFixed : float -> nat -> string) (env : Env) (api : Call -> Outcome unit)
    (user : User.t) (d : Dashboard) (coords : Coords.t) :
  geolocation env = Some (Ret coords) ->
  numberToString (Coords.latitude coords) <> "" ->
  numberToString (Coords.longitude coords) <> "" ->
  let lat := numberToString (Coords.latitude coords) in
  let lon := numberToString (Coords.longitude coords) in
  let d1 := snd (handleGetLocation numberToString toFixed env d) in
  let s' := snd (storeHandleSubmit api user {| dashboard := d1; calls := [] |}) in
  if storeSchema (storeForm d1)
  then exists body,
         calls s' = [CreateStore body]
         /\ StoreData.latitude body = Some lat
         /\ StoreData.longitude body = Some lon
         /\ StoreData.googleMapsLink body
            = Some ("https://maps.google.com/?q=" ++ lat ++ "," ++ lon)
         /\ StoreData.ownerId body = User.id user
         /\ StoreData.name body = StoreForm.name (storeForm d)
  else calls s' = [] /\ dashboard s' = d1.
Proof.
  intros Hgeo Hlat Hlon lat lon d1 s'.
  destruct (storeSchema (storeForm d1)) eqn:Hv.
  - assert (Hcalls : calls s' = [CreateStore (storeData user (storeForm d1))]).
    { subst s'. unfold storeHandleSubmit. cbn [dashboard]. rewrite Hv.
      apply (handleCreateStore_calls api user (storeForm d1)
               {| dashboard := d1; calls := [] |}). }
    exists (storeData user (storeForm d1)). split; [exact Hcalls|].
    clear Hv Hcalls s'.
    assert (Ht : forall x, x <> "" -> Js.orNull (Some x) = Some x).
    { intros x Hx. unfold Js.orNull, Js.truthy.
      now rewrite (proj2 (String.eqb_neq x "") Hx). }
    subst d1.
    rewrite (handleGetLocation_located numberToString toFixed env d coords Hgeo).
    cbv zeta. fold lat lon.
    cbn [snd storeForm with_isGettingLocation with_toasts with_storeForm].
    destruct (fetchJson env (Spec.geocodeUrl lat lon)) as [[|data]|e];
      try destruct (Js.truthyOpt (Nominatim.display_name data));
      cbn [storeData StoreData.latitude StoreData.longitude StoreData.googleMapsLink
             StoreData.ownerId StoreData.name StoreForm.latitude StoreForm.longitude
             StoreForm.googleMapsLink StoreForm.name StoreForm.set_address
             StoreForm.set_googleMapsLink StoreForm.set_longitude
             StoreForm.set_latitude];
      rewrite (Ht lat Hlat), (Ht lon Hlon); repeat split.
  - subst s'. unfold storeHandleSubmit. cbn [dashboard]. rewrite Hv.
    now split.
Qed.

Lemma located_coordinates_reach_the_store_witness :
  let d1 :=
    snd (handleGetLocation Sample.numberToString Sample.toFixed Sample.env
           (with_storeForm Cases.storeFormValues Sample.dashboard)) in
  let s' :=
    snd (storeHandleSubmit (fun _ => Ret tt) Cases.owner
           {| dashboard := d1; calls := [] |}) in
  exists body,
    calls s' = [CreateStore body]
    /\ StoreData.latitude body = Some "26.7271"
    /\ StoreData.longitude body = Some "87.2751"
    /\ StoreData.googleMapsLink body
       = Some "https://maps.google.com/?q=26.7271,87.2751"
    /\ StoreData.ownerId body = 3%Z
    /\ StoreData.name body = " Koshi Mart ".
Proof.
  intros d1 s'. subst s' d1.
  assert (Hv : storeSchema
                 (storeForm
                    (snd (handleGetLocation Sample.numberToString Sample.toFixed
                            Sample.env
                            (with_storeForm Cases.storeFormValues Sample.dashboard))))
               = true) by (vm_compute; reflexivity).
  assert (Hlat : Sample.numberToString 26.7271 <> "") by (vm_compute; discriminate).
  assert (Hlon : Sample.numberToString 87.2751 <> "") by (vm_compute; discriminate).
  pose proof (located_coordinates_reach_the_store Sample.numberToString
                Sample.toFixed Sample.env (fun _ => Ret tt) Cases.owner
                (with_storeForm Cases.storeFormValues Sample.dashboard)
                {| Coords.latitude := 26.7271; Coords.longitude := 87.2751 |}
                eq_refl Hlat Hlon) as H.
  cbv zeta in H. rewrite Hv in H. exact H.
Defined.

(** On the store form as it opens (no name, no address), a geocoder that
    answers without a display name leaves the address empty: the schema
    rejects the form and the submit sends nothing. *)
Example located_but_unnamed_store_is_not_sent :
  let env := Sample.envGeocode (Ret (Nominatim.Obj Sample.unableToGeocode)) in
  let d1 :=
    snd (handleGetLocation Sample.numberToString Sample.toFixed env
           Sample.dashboard) in
  storeSchema (storeForm d1) = false
  /\ calls (snd (storeHandleSubmit (fun _ => Ret tt) Cases.owner
                   {| dashboard := d1; calls := [] |}))
     = [].
Proof. now vm_compute. Qed.

Example storeData_of_hand_filled_form :
  storeData Cases.owner Cases.storeFormValues
  = {| StoreData.name := " Koshi Mart "; StoreData.description := None;
       StoreData.address := "Main Road, Itahari"; StoreData.latitude := None;
       StoreData.longitude := None; StoreData.phone := None;
       StoreData.logo := Some ""; StoreData.coverImage := Some "";
       StoreData.googleMapsLink := None; StoreData.ownerId := 3 |}.
Proof. reflexivity. Qed.

(** ** What is sent is in normal form *)

Lemma trimStart_head (s : string) : headNotSpace (Js.trimStart s).
Proof.
  induction s as [|c s IH]; simpl; [exact I|].
  destruct (Js.isWhiteSpace c) eqn:Hc; simpl; [exact IH | exact Hc].
Qed.

Lemma trimStart_fixed (s : string) : headNotSpace s -> Js.trimStart s = s.
Proof. destruct s as [|c s]; simpl; [reflexivity|]. now intros ->. Qed.

Lemma trimEnd_head (s : string) : headNotSpace s -> headNotSpace (Js.trimEnd s).
Proof.
  destruct s as [|c s]; simpl; [trivial|]. intros Hc.
  destruct (Js.trimEnd s); simpl; [now rewrite Hc | exact Hc].
Qed.

Lemma trimEnd_idem (s : string) : Js.trimEnd (Js.trimEnd s) = Js.trimEnd s.
Proof.
  induction s as [|c s IH]; simpl; [reflexivity|].
  destruct (Js.trimEnd s) as [|c' t] eqn:Ht.
  - destruct (Js.isWhiteSpace c) eqn:Hc; simpl; [reflexivity | now rewrite Hc].
  - change (Js.trimEnd (String c (String c' t)))
      with (match Js.trimEnd (String c' t) with
            | EmptyString =>
                if Js.isWhiteSpace c then EmptyString else String c EmptyString
            | u => String c u
            end).
    now rewrite IH.
Qed.

(** Trimming twice is trimming once. *)
Lemma trim_idem (s : string) : Js.trim (Js.trim s) = Js.trim s.
Proof.
  unfold Js.trim.
  rewrite (trimStart_fixed (Js.trimEnd (Js.trimStart s)))
    by (apply trimEnd_head, trimStart_head).
  apply trimEnd_idem.
Qed.

Lemma orNull_truthy (o : option string) :
  match Js.orNull o with Some s => Js.truthy s = true | None => True end.
Proof.
  destruct o as [s|]; simpl; [|exact I]. now destruct (Js.truthy s) eqn:Ht.
Qed.

Lemma reload_text (o : option string) :
  Js.orNull (option_map Js.trim (Some (Js.orStr (Js.orNull (option_map Js.trim o)) "")))
  = Js.orNull (option_map Js.trim o).
Proof.
  destruct o as [s|]; simpl; [|reflexivity].
  destruct (Js.truthy (Js.trim s)) eqn:Ht; simpl.
  - now rewrite Ht, trim_idem, Ht.
  - reflexivity.
Qed.

Lemma reload_price (o : option string) :
  Js.orNull (Some (Js.orStr (Js.orNull o) "")) = Js.orNull o.
Proof.
  destruct o as [s|]; simpl; [|reflexivity].
  destruct (Js.truthy s) eqn:Ht; simpl; [now rewrite Ht, Ht | reflexivity].
Qed.

Lemma filter_idem {A : Type} (f : A -> bool) (l : list A) :
  filter f (filter f l) = filter f l.
Proof.
  induction l as [|x l IH]; simpl; [reflexivity|].
  destruct (f x) eqn:Hx; simpl; [now rewrite Hx, IH | exact IH].
Qed.

Lemma reload_images (f : string -> bool) (o : option (list string)) :
  Js.orEmpty (option_map (filter f)
                (Some (Js.orEmpty (Some (Js.orEmpty (option_map (filter f) o))))))
  = Js.orEmpty (option_map (filter f) o).
Proof. destruct o as [l|]; simpl; [apply filter_idem | reflexivity]. Qed.

(** X22. What a save sends is a fixed point of loading and saving: if the
    product comes back holding exactly the payload, opening it for editing
    and submitting the form unchanged sends the same payload again, whatever
    the form held at the first save.  Such a product is normalised. *)
Theorem payload_is_fixed_by_reload (store : Store.t) (data : ProductForm.t) (id : Z) :
  let payload := filteredData store data in
  filteredData store (editValues (productOfPayload id payload)) = payload
  /\ Spec.normalised (productOfPayload id payload) = true.
Proof.
  intros payload. split.
  - subst payload. unfold filteredData at 1.
    cbn [editValues productOfPayload
         Product.name Product.description Product.price Product.originalPrice
         Product.categoryId Product.stock Product.images Product.isFastSell
         Product.isOnOffer Product.offerPercentage Product.offerEndDate
         ProductForm.name ProductForm.description ProductForm.price
         ProductForm.originalPrice ProductForm.categoryId ProductForm.stock
         ProductForm.images ProductForm.isFastSell ProductForm.isOnOffer
         ProductForm.offerPercentage ProductForm.offerEndDate
         Js.orFalse].
    rewrite !orNum_idem.
    unfold filteredData.
    cbn [Payload.name Payload.description Payload.price Payload.originalPrice
         Payload.categoryId Payload.stock Payload.images Payload.isFastSell
         Payload.isOnOffer Payload.offerPercentage Payload.offerEndDate].
    rewrite trim_idem, reload_text, reload_price, reload_images.
    destruct (ProductForm.isOnOffer data); [|reflexivity].
    now rewrite reload_price.
  - subst payload. unfold Spec.normalised.
    cbn [productOfPayload filteredData
         Product.name Product.description Product.originalPrice Product.categoryId
         Product.stock Product.images Product.isFastSell Product.isOnOffer
         Product.offerPercentage Product.offerEndDate Product.isActive
         Payload.name Payload.description Payload.originalPrice
         Payload.categoryId Payload.stock Payload.images Payload.isFastSell
         Payload.isOnOffer Payload.offerPercentage Payload.offerEndDate
         Payload.isActive].
    rewrite trim_idem, String.eqb_refl.
    assert (Hd : match Js.orNull (option_map Js.trim (ProductForm.description data)) with
                 | Some s => Js.truthy s && (Js.trim s =? s)
                 | None => true
                 end = true).
    { destruct (ProductForm.description data) as [s|]; simpl; [|reflexivity].
      destruct (Js.truthy (Js.trim s)) eqn:Ht; [|reflexivity].
      now rewrite Ht, trim_idem, String.eqb_refl. }
    rewrite Hd.
    assert (Hp : match Js.orNull (ProductForm.originalPrice data) with
                 | Some s => Js.truthy s
                 | None => true
                 end = true).
    { pose proof (orNull_truthy (ProductForm.originalPrice data)) as H.
      now destruct (Js.orNull (ProductForm.originalPrice data)). }
    rewrite Hp.
    assert (Hi : forallb (fun img => negb (Spec.blank img))
                   (Js.orEmpty
                      (option_map (filter (fun img => negb (Js.trim img =? "")))
                         (ProductForm.images data))) = true).
    { destruct (ProductForm.images data) as [l|]; [|reflexivity].
      apply forallb_forall. intros img Hin. apply filter_In in Hin as [_ H].
      now rewrite <- trim_test_blank. }
    rewrite Hi. cbn [andb]. rewrite andb_true_r.
    destruct (ProductForm.isOnOffer data); [|reflexivity].
    pose proof (orNull_truthy (ProductForm.offerEndDate data)) as H.
    now destruct (Js.orNull (ProductForm.offerEndDate data)).
Qed.

Example reload_of_stale_offer_payload :
  Payload.fields
    (filteredData Sample.shop
       (editValues (productOfPayload 44 (filteredData Sample.shop Sample.staleOfferForm))))
  = Payload.fields (filteredData Sample.shop Sample.staleOfferForm).
Proof. reflexivity. Qed.
